(** * MediOps healthcare surge prediction backend: a shallow embedding

    The development follows the backend's services file by file:
    [geminiRetry.js] (the resilient call executor), [locationUtils.js],
    [dataService.js] (the freshness cache in front of the air-quality and
    weather providers), [pandemicService.js] (the outbreak reconciler),
    [predictionService.js] (risk scorer and prediction assembler),
    [predictionRoutes.js] (the HTTP handlers) and [aqiScheduler.js] (the
    scheduled update).

    Modelling conventions.
    - A JavaScript number is an exact rational ([Q]); [NaN], the infinities
      and binary rounding of doubles are outside the model.  A value that may
      be [undefined] or [null] is an [option].
    - A JavaScript string is a [string] of 8-bit characters, read as ASCII.
    - Time is a number of milliseconds ([Z]); one service invocation is
      instantaneous, so every [Date.now()] and [new Date()] inside it reads
      the same instant [now].
    - The MongoDB collections are lists in insertion order; [findOne] without
      a sort returns the first match.
    - What the outer world answers (providers, the reasoning service,
      [process.env]) is read from an environment record [Env.t]. *)

From Stdlib Require Import ZArith QArith Qround Qminmax List String Ascii Bool Lia.
From Stdlib Require Import DecimalString.
From Stdlib Require Import DecimalZ Sorted Permutation Lqa.
Import ListNotations.

Local Open Scope Q_scope.

(** ** JavaScript primitives *)
Module JS.

(** [a > b] and [a < b] on numbers. *)
Definition gt (a b : Q) : bool :=
  match a ?= b with Gt => true | _ => false end.

Definition lt (a b : Q) : bool :=
  match a ?= b with Lt => true | _ => false end.

Definition ge (a b : Q) : bool := negb (lt a b).

(** [Math.max(a, b)] and [Math.min(a, b)]. *)
Definition Math_max (a b : Q) : Q := Qmax a b.
Definition Math_min (a b : Q) : Q := Qmin a b.

(** [Math.round]: the nearest integer, halves going up. *)
Definition Math_round (x : Q) : Q := inject_Z (Qfloor (x + (1 # 2))).

(** [Math.ceil]. *)
Definition Math_ceil (x : Q) : Q := inject_Z (Qceiling x).

(** Truthiness of a number that may be missing: [undefined], [null] and
    [0] are falsy. *)
Definition truthy_num (x : option Q) : bool :=
  match x with
  | Some q => negb (Qeq_bool q 0)
  | None => false
  end.

(** [x || d] for a number that may be missing. *)
Definition or_num (x : option Q) (d : Q) : Q :=
  match x with
  | Some q => if Qeq_bool q 0 then d else q
  | None => d
  end.

(** Truthiness of a string that may be missing: [""] is falsy. *)
Definition truthy_str (x : option string) : bool :=
  match x with
  | Some s => negb (String.eqb s EmptyString)
  | None => false
  end.

(** [x || d] for a string that may be missing. *)
Definition or_str (x : option string) (d : string) : string :=
  match x with
  | Some s => if String.eqb s EmptyString then d else s
  | None => d
  end.

(** *** Strings *)

(** White space as [String.prototype.trim], [parseInt] and the regular
    expression class [\s] see it (the ASCII part): tab, line feed,
    vertical tab, form feed, carriage return and space. *)
Definition isWhiteSpace (c : ascii) : bool :=
  let n := nat_of_ascii c in
  ((9 <=? n)%nat && (n <=? 13)%nat) || (n =? 32)%nat.

Definition isUpper (c : ascii) : bool :=
  let n := nat_of_ascii c in ((65 <=? n)%nat && (n <=? 90)%nat).

Definition isLower (c : ascii) : bool :=
  let n := nat_of_ascii c in ((97 <=? n)%nat && (n <=? 122)%nat).

Definition isLetter (c : ascii) : bool := isUpper c || isLower c.

Definition toUpperChar (c : ascii) : ascii :=
  if isLower c then ascii_of_nat (nat_of_ascii c - 32) else c.

Definition toLowerChar (c : ascii) : ascii :=
  if isUpper c then ascii_of_nat (nat_of_ascii c + 32) else c.

Fixpoint mapString (f : ascii -> ascii) (s : string) : string :=
  match s with
  | EmptyString => EmptyString
  | String c s' => String (f c) (mapString f s')
  end.

Definition toUpperCase : string -> string := mapString toUpperChar.
Definition toLowerCase : string -> string := mapString toLowerChar.

Fixpoint trimStart (s : string) : string :=
  match s with
  | String c s' => if isWhiteSpace c then trimStart s' else s
  | EmptyString => EmptyString
  end.

(** [trimEnd]: a character is dropped when it is white space and all that
    follows it has been dropped. *)
Fixpoint trimEnd (s : string) : string :=
  match s with
  | EmptyString => EmptyString
  | String c s' =>
      match trimEnd s' with
      | EmptyString => if isWhiteSpace c then EmptyString else String c EmptyString
      | t => String c t
      end
  end.

Definition trim (s : string) : string := trimEnd (trimStart s).

(** [s.split(sep)] for a one-character separator: never an empty list. *)
Fixpoint split (sep : ascii) (s : string) : list string :=
  match s with
  | EmptyString => [EmptyString]
  | String c s' =>
      if Ascii.eqb c sep then EmptyString :: split sep s'
      else match split sep s' with
           | w :: ws => String c w :: ws
           | [] => [String c EmptyString]
           end
  end.

(** [parts.join(sep)]. *)
Fixpoint join (sep : string) (parts : list string) : string :=
  match parts with
  | [] => EmptyString
  | [w] => w
  | w :: ws => (w ++ sep ++ join sep ws)%string
  end.

(** [s.charAt(0)] and [s.slice(1)]. *)
Definition charAt0 (s : string) : string :=
  match s with String c _ => String c EmptyString | EmptyString => EmptyString end.

Definition slice1 (s : string) : string :=
  match s with String _ s' => s' | EmptyString => EmptyString end.

(** [s.includes(sub)]. *)
Fixpoint includes (s sub : string) : bool :=
  String.prefix sub s
  || match s with
     | EmptyString => false
     | String _ s' => includes s' sub
     end.

(** [s.replace(pat, "")] for a one-character string pattern: only the
    first occurrence goes. *)
Fixpoint removeFirst (pat : ascii) (s : string) : string :=
  match s with
  | EmptyString => EmptyString
  | String c s' => if Ascii.eqb c pat then s' else String c (removeFirst pat s')
  end.

Fixpoint allChars (p : ascii -> bool) (s : string) : bool :=
  match s with
  | EmptyString => true
  | String c s' => p c && allChars p s'
  end.

(** *** Set

    A [Set] of strings is the list of its elements in insertion order;
    [[...set]] is that list. *)
Definition Set_has (set : list string) (x : string) : bool :=
  existsb (String.eqb x) set.

Definition Set_add (set : list string) (x : string) : list string :=
  if Set_has set x then set else set ++ [x].

(** [items.forEach(x => set.add(x))]. *)
Definition addAll (set items : list string) : list string :=
  fold_left Set_add items set.

(** [new Set(items)]. *)
Definition newSet (items : list string) : list string :=
  fold_left Set_add items [].

(** [Map.get] and [Map.set] on a [Map] with string keys, kept as the list
    of its entries in insertion order. *)
Fixpoint Map_get {V} (m : list (string * V)) (key : string) : option V :=
  match m with
  | [] => None
  | (k, v) :: rest => if String.eqb k key then Some v else Map_get rest key
  end.

Fixpoint Map_set {V} (m : list (string * V)) (key : string) (value : V)
  : list (string * V) :=
  match m with
  | [] => [(key, value)]
  | (k, v) :: rest =>
      if String.eqb k key then (k, value) :: rest
      else (k, v) :: Map_set rest key value
  end.

(** *** Sorting

    A stable insertion sort: [sortBy le l] orders [l] so that [le a b] holds
    for [a] before [b]; documents that compare equal keep their order. *)
Fixpoint insertBy {A} (le : A -> A -> bool) (x : A) (l : list A) : list A :=
  match l with
  | [] => [x]
  | y :: rest => if le x y then x :: l else y :: insertBy le x rest
  end.

Definition sortBy {A} (le : A -> A -> bool) (l : list A) : list A :=
  fold_right (insertBy le) [] l.

(** *** parseInt *)

(** The value of a character as a digit of the given radix (10 or 16). *)
Definition digitValue (radix : Z) (c : ascii) : option Z :=
  let n := Z.of_nat (nat_of_ascii c) in
  let v :=
    if (48 <=? n)%Z && (n <=? 57)%Z then Some (n - 48)%Z
    else if (97 <=? n)%Z && (n <=? 122)%Z then Some (n - 87)%Z
    else if (65 <=? n)%Z && (n <=? 90)%Z then Some (n - 55)%Z
    else None in
  match v with
  | Some d => if (d <? radix)%Z then Some d else None
  | None => None
  end.

(** The longest prefix of digits, read in the radix; [None] when the
    prefix is empty. *)
Fixpoint digitsFrom (radix : Z) (acc : option Z) (s : string) : option Z :=
  match s with
  | EmptyString => acc
  | String c s' =>
      match digitValue radix c with
      | Some d =>
          digitsFrom radix
            (Some (match acc with Some a => a * radix + d | None => d end)%Z) s'
      | None => acc
      end
  end.

(** [parseInt(s)] without a radix argument; [None] is [NaN]. *)
Definition parseInt (s : string) : option Z :=
  let s := trimStart s in
  let '(sign, s) :=
    match s with
    | String "-"%char s' => ((-1)%Z, s')
    | String "+"%char s' => (1%Z, s')
    | _ => (1%Z, s)
    end in
  let '(radix, s) :=
    match s with
    | String "0"%char (String "x"%char s') => (16%Z, s')
    | String "0"%char (String "X"%char s') => (16%Z, s')
    | _ => (10%Z, s)
    end in
  match digitsFrom radix None s with
  | Some n => Some (sign * n)%Z
  | None => None
  end.

End JS.

(** ** The models (mongoose schemas) *)

(** [models/AqiReading.js].  The [raw] snapshot repeats [aqi], [pm25] and
    [pm10] and is left out, as are the ids and mongoose's own timestamps. *)
Module AqiReading.
Record t := mk {
  location : string;
  timestamp : Z;
  aqi : Q;
  pm25 : Q;
  pm10 : Q;
  source : string
}.
End AqiReading.

(** [models/WeatherReading.js]. *)
Module WeatherReading.
Record t := mk {
  location : string;
  timestamp : Z;
  temperature : Q;
  humidity : Q;
  windSpeed : Q;
  precipitation : Q
}.
End WeatherReading.

(** [models/HospitalStats.js], the fields the prediction reads. *)
Module HospitalStats.
Record t := mk {
  region : string;
  date : Z;
  admissions : Q
}.
End HospitalStats.

(** [models/PandemicData.js]. *)
Module PandemicData.

(** The [notes] text: what the reasoning service wrote, or the template
    "AI-detected based on surge probability ..% and environmental
    conditions. .." with its two holes. *)
Inductive Notes :=
| NotesText (text : string)
| AiDetected (surgeProbability : Q) (analysis : string).

Record t := mk {
  region : string;
  date : Z;
  diseaseName : string;
  activeCases : Q;
  newCases : Q;
  recovered : Q;
  deaths : Q;
  severity : string;
  transmissionRate : Q;
  affectedAgeGroups : list string;
  symptoms : list string;
  requiredMedicines : list string;
  notes : Notes;
  source : string
}.

(** [enum: ['low', 'moderate', 'high', 'critical']]. *)
Definition severityEnum : list string := ["low"; "moderate"; "high"; "critical"]%string.

Definition inEnum (s : string) : bool := existsb (String.eqb s) severityEnum.

(** [transmissionRate: { min: 0, max: 10 }]. *)
Definition rateInRange (r : Q) : bool := Qle_bool 0 r && Qle_bool r 10.

End PandemicData.

(** ** predictionService.js: the risk scorer *)
Module Features.

(** The flat feature record built by [generatePrediction]. *)
Record t := mk {
  city : string;
  date : Z;
  aqi : Q;
  pm25 : Q;
  pm10 : Q;
  temperature : Q;
  humidity : Q;
  windSpeed : Q;
  precipitation : Q;
  admissionsLast7dAvg : Q;
  baselineAdmissions : Q;
  isFestival : bool;
  festivalMultiplier : Q
}.

End Features.

Module RiskScorer.
Import JS.

(** [calculateSurgeProbability(features)]: the mutable [probability] is
    threaded through the statements in source order. *)
Definition calculateSurgeProbability (features : Features.t) : Q :=
  let probability := 20 in
  let probability :=
    if gt (Features.aqi features) 150 then probability + 25
    else if gt (Features.aqi features) 100 then probability + 15
    else if gt (Features.aqi features) 50 then probability + 5
    else probability in
  let probability :=
    if gt (Features.temperature features) 35 then probability + 15 else probability in
  let probability :=
    if gt (Features.humidity features) 80 then probability + 10 else probability in
  let probability :=
    if gt (Features.precipitation features) 5 then probability + 5 else probability in
  let probability :=
    if gt (Features.admissionsLast7dAvg features)
          (Features.baselineAdmissions features * (12 # 10))
    then probability + 20 else probability in
  let probability :=
    if Features.isFestival features
    then probability + Features.festivalMultiplier features * 10
    else probability in
  Math_min 100 (Math_max 0 probability).

(** The reference definition, following the specification's wording: a
    base score and independent additive contributions, clamped. *)
Definition pollutant_bonus (aqi : Q) : Q :=
  if gt aqi 150 then 25 else if gt aqi 100 then 15 else if gt aqi 50 then 5 else 0.

Definition bonus (cond : bool) (points : Q) : Q := if cond then points else 0.

Definition clamp (lo hi x : Q) : Q :=
  if lt x lo then lo else if gt x hi then hi else x.

Definition reference_score (f : Features.t) : Q :=
  clamp 0 100
    (20
     + pollutant_bonus (Features.aqi f)
     + bonus (gt (Features.temperature f) 35) 15
     + bonus (gt (Features.humidity f) 80) 10
     + bonus (gt (Features.precipitation f) 5) 5
     + bonus (gt (Features.admissionsLast7dAvg f) ((12 # 10) * Features.baselineAdmissions f)) 20
     + bonus (Features.isFestival f) (Features.festivalMultiplier f * 10)).

(** Scenario "Delhi": pollutant index 180, 22 degrees, 40% humidity, no
    rain, no festival, admissions at the baseline. *)
Definition delhi : Features.t :=
  Features.mk "Delhi" 0 180 108 144 22 40 0 0 50 50 false 0.

End RiskScorer.


(** ** geminiRetry.js: the resilient call executor *)
Module GeminiRetry.
Import JS.

(** One entry of [error.errorDetails]. *)
Record ErrorDetail := mkDetail {
  at_type : option string;          (* detail['@type'] *)
  retryDelay : option string        (* detail.retryDelay, e.g. "51s" *)
}.

(** The fields of a thrown error that [withRetry] reads. *)
Record ApiError := mkError {
  status : option Z;
  message : option string;
  errorDetails : option (list ErrorDetail)
}.

Definition RetryInfo : string := "type.googleapis.com/google.rpc.RetryInfo".

(** What [getRetryDelay] returns: [null], or the product
    [parseInt(...) * 1000], which is [NaN] when the text does not parse. *)
Inductive Hint :=
| HintNull
| HintNaN
| HintMs (ms : Z).

(** [getRetryDelay(error)]: the first detail of type RetryInfo with a
    truthy [retryDelay] decides. *)
Fixpoint scanDetails (details : list ErrorDetail) : Hint :=
  match details with
  | [] => HintNull
  | detail :: rest =>
      match at_type detail, retryDelay detail with
      | Some ty, Some delayStr =>
          if String.eqb ty RetryInfo && negb (String.eqb delayStr EmptyString) then
            match parseInt (removeFirst "s"%char delayStr) with
            | Some seconds => HintMs (seconds * 1000)
            | None => HintNaN
            end
          else scanDetails rest
      | _, _ => scanDetails rest
      end
  end.

Definition getRetryDelay (error : ApiError) : Hint :=
  match errorDetails error with
  | Some details => scanDetails details
  | None => HintNull
  end.

(** [!retryDelay]: [null], [NaN] and [0] are falsy. *)
Definition hintFalsy (h : Hint) : bool :=
  match h with
  | HintNull | HintNaN => true
  | HintMs ms => (ms =? 0)%Z
  end.

Definition messageIncludes (error : ApiError) (sub : string) : bool :=
  match message error with
  | Some m => includes m sub
  | None => false
  end.

Definition statusIs (error : ApiError) (p : Z -> bool) : bool :=
  match status error with
  | Some st => p st
  | None => false
  end.

Definition isRateLimit (error : ApiError) : bool :=
  statusIs error (fun st => (st =? 429)%Z)
  || messageIncludes error "429"
  || messageIncludes error "quota"
  || messageIncludes error "rate limit"
  || messageIncludes error "Resource exhausted".

Definition isRetryable (error : ApiError) : bool :=
  isRateLimit error
  || statusIs error (fun st => (500 <=? st)%Z && (st <? 600)%Z)
  || messageIncludes error "timeout"
  || messageIncludes error "fetch".

(** The options of [withRetry]; [maxRetries] counts retries and is a
    natural number. *)
Record Options := mkOptions {
  maxRetries : nat;
  initialDelay : Q;
  maxDelay : Q;
  backoffMultiplier : Q
}.

(** [options = {}]. *)
Definition defaultOptions : Options := mkOptions 4 2000 60000 2.

(** The time [withRetry] sleeps after a retryable failure: [delay] is the
    current exponential delay, [rnd] the value of [Math.random()]. *)
Definition sleepTime (options : Options) (error : ApiError) (delay rnd : Q) : Q :=
  let retryDelay := getRetryDelay error in
  let retryDelay :=
    if isRateLimit error && hintFalsy retryDelay then delay * (15 # 10)
    else if hintFalsy retryDelay then delay
    else match retryDelay with HintMs ms => inject_Z ms | _ => delay end in
  let retryDelay := retryDelay + rnd * 2000 in
  Math_min retryDelay (maxDelay options).

(** The delay before jitter, case by case: a hint that is a non-zero
    number of milliseconds is taken as it is; without one (no RetryInfo
    detail, a text that does not parse, or zero) the exponential delay
    is used, one and a half times as long after a rate-limit failure. *)
Definition baseDelay (error : ApiError) (delay : Q) : Q :=
  let backoff := if isRateLimit error then delay * (15 # 10) else delay in
  match getRetryDelay error with
  | HintMs ms => if (ms =? 0)%Z then backoff else inject_Z ms
  | HintNull | HintNaN => backoff
  end.

(** The sleep as the specification words it: the provider's hint
    whenever the payload carries one, otherwise the exponential delay
    (times 1.5 for a rate limit); plus jitter, clamped. *)
Definition statedSleep (options : Options) (error : ApiError) (delay rnd : Q) : Q :=
  let base :=
    match getRetryDelay error with
    | HintMs ms => inject_Z ms
    | HintNull | HintNaN => if isRateLimit error then delay * (15 # 10) else delay
    end in
  Math_min (base + rnd * 2000) (maxDelay options).

(** How a run of [withRetry] ends: it returns the closure's value or
    throws; the value thrown after the loop is [lastError], which is
    [undefined] when no attempt was made. *)
Inductive Completion (A : Type) :=
| Returned (value : A)
| Threw (error : option ApiError).
Arguments Returned {A} value.
Arguments Threw {A} error.

(** A run: how it ended, how often the closure was invoked, and the
    sleeps in order. *)
Record Run (A : Type) := mkRun {
  completion : Completion A;
  calls : nat;
  sleeps : list Q
}.
Arguments mkRun {A}.
Arguments completion {A}.
Arguments calls {A}.
Arguments sleeps {A}.

Section WithRetry.
Context {A : Type}.
(** The closure, given by what its k-th invocation (from 0) does. *)
Variable apiCall : nat -> ApiError + A.
(** [Math.random()] at the k-th retry, in [0, 1). *)
Variable random : nat -> Q.
Variable options : Options.

(** The [for] loop from [attempt]; [fuel] bounds the iterations left,
    [lastError] and [delay] are the loop's mutable variables. *)
Fixpoint attempts (fuel attempt : nat) (lastError : option ApiError) (delay : Q)
  : Run A :=
  match fuel with
  | O => mkRun (Threw lastError) 0 []
  | S fuel' =>
      match apiCall attempt with
      | inr value => mkRun (Returned value) 1 []
      | inl error =>
          if (maxRetries options <=? attempt)%nat || negb (isRetryable error)
          then mkRun (Threw (Some error)) 1 []
          else
            let retryDelay := sleepTime options error delay (random attempt) in
            let delay := Math_min (delay * backoffMultiplier options) (maxDelay options) in
            let rest := attempts fuel' (S attempt) (Some error) delay in
            mkRun (completion rest) (S (calls rest)) (retryDelay :: sleeps rest)
      end
  end.

(** [withRetry(apiCall, options)]: attempts 0 .. maxRetries. *)
Definition withRetry : Run A :=
  attempts (S (maxRetries options)) 0 None (initialDelay options).

(** The closure fails with a retryable failure at each of the [n]
    invocations from [a] on. *)
Definition retryableFrom (a n : nat) : Prop :=
  forall k, (a <= k < a + n)%nat ->
    exists e, apiCall k = inl e /\ isRetryable e = true.

(** The exponential delay in force at the k-th attempt. *)
Fixpoint delayAt (k : nat) : Q :=
  match k with
  | O => initialDelay options
  | S k' => Math_min (delayAt k' * backoffMultiplier options) (maxDelay options)
  end.

End WithRetry.

End GeminiRetry.

(** ** locationUtils.js *)
Module LocationUtils.
Import JS.

(** A value of a request field: absent, a string, or something else
    (a number, an array, ...) of which only the truthiness matters. *)
Inductive Value :=
| Undefined
| Str (s : string)
| Other (truthy : bool).

Definition falsy (v : Value) : bool :=
  match v with
  | Undefined => true
  | Str s => String.eqb s EmptyString
  | Other t => negb t
  end.

Definition capitalize (word : string) : string :=
  (toUpperCase (charAt0 word) ++ toLowerCase (slice1 word))%string.

(** [normalizeCityName(cityName)]; [None] is [null]. *)
Definition normalizeCityName (cityName : Value) : option string :=
  match cityName with
  | Str s =>
      if String.eqb s EmptyString then None
      else Some (join " " (map capitalize (split " "%char (trim s))))
  | _ => None
  end.

(** [extractCityName(location)]. *)
Definition extractCityName (location : Value) : option string :=
  match location with
  | Str s =>
      if String.eqb s EmptyString then None
      else if includes s ","
           then normalizeCityName (Str (hd EmptyString (split ","%char s)))
           else normalizeCityName (Str s)
  | _ => None
  end.

(** The character class [[a-zA-Z\s\-'\.]]. *)
Definition cityNameChar (c : ascii) : bool :=
  isLetter c || isWhiteSpace c
  || Ascii.eqb c "-" || Ascii.eqb c "'" || Ascii.eqb c ".".

(** [/^[a-zA-Z\s\-'\.]{2,}$/.test(s)]. *)
Definition cityNameRegex_test (s : string) : bool :=
  (2 <=? String.length s)%nat && allChars cityNameChar s.

(** [isValidCityName(cityName)], applied to what [extractCityName]
    returned. *)
Definition isValidCityName (cityName : option string) : bool :=
  match cityName with
  | Some s =>
      if String.eqb s EmptyString then false
      else cityNameRegex_test (trim s)
  | None => false
  end.

End LocationUtils.

(** [models/Prediction.js]. *)
Module Prediction.

Record StaffAdvice := mkStaff {
  doctors : Q;
  nurses : Q;
  supportStaff : Q;
  staffNotes : string
}.

Record SupplyAdvice := mkSupply {
  oxygen : Q;
  medicines : list string;
  ppe : Q;
  supplyNotes : string
}.

Record ActivePandemic := mkActive {
  diseaseName : string;
  activeCases : Q;
  newCases : Q;
  severity : string;
  transmissionRate : Q
}.

Record t := mk {
  region : string;
  date : Z;
  surgeProbability : Q;
  estimatedPatientCount : Q;
  modelVersion : string;
  inputSnapshot : Features.t;
  staffAdvice : StaffAdvice;
  supplyAdvice : SupplyAdvice;
  topFactors : list (string * Q);
  suggestedMedicines : list string;
  suggestedDiseases : list string;
  activePandemics : list ActivePandemic;
  weatherImpact : string;
  aqiImpact : string
}.

End Prediction.

(** ** The outer world *)

(** The requests [dataService.js] sends with [fetch], by endpoint and
    query parameters (the API key is part of every URL). *)
Module Provider.

Inductive Request :=
| AirVisualCity (city state country : string)
| AirVisualNearestStation (lat lon : Q)
| OpenWeatherMap (q : string).

(** What [fetch(url)] followed by [response.json()] gives: [fetch]
    rejects, or there is a response with its [ok] flag and status whose
    body parses to [Body] or fails to parse ([inl], with the parser's
    message). *)
Inductive Fetched (Body : Type) :=
| FetchRejected (message : string)
| Responded (ok : bool) (status : Z) (json : string + Body).
Arguments FetchRejected {Body} message.
Arguments Responded {Body} ok status json.

(** [data.current.pollution] of an Air Visual reply. *)
Record Pollution := mkPollution {
  aqius : option Q;
  aqicn : option Q;
  pm25 : option Q;
  pm10 : option Q
}.

(** [responseData.data]. *)
Record AirVisualData := mkAvData {
  pollution : option Pollution;       (* data.current?.pollution *)
  dataMessage : option string         (* data.message *)
}.

Record AirVisualBody := mkAvBody {
  avStatus : option string;
  avData : option AirVisualData;
  avMessage : option string
}.

(** [data.cod] of an OpenWeatherMap reply is a number or a string. *)
Inductive Cod :=
| CodNum (n : Q)
| CodStr (s : string).

Record WeatherBody := mkOwmBody {
  cod : option Cod;
  owmMessage : option string;
  mainTemp : option Q;
  mainHumidity : option Q;
  windSpeed : option Q;
  rain1h : option Q;
  rain3h : option Q
}.

End Provider.

(** The narrative reply of the operations agent, after parsing; a field
    that the reply does not carry is [None]. *)
Module AgentResponse.
Record t := mk {
  staffingPlan : option string;
  supplyPlan : option string;
  weatherImpact : option string;
  aqiImpact : option string
}.
End AgentResponse.

(** The parsed reply of the outbreak detection prompt. *)
Module GeminiAnalysis.

Record Detected := mkDetected {
  diseaseName : option string;
  activeCases : option Q;
  newCasesLast24h : option Q;
  severity : option string;
  transmissionRate : option Q;
  affectedAgeGroups : option (list string);
  symptoms : option (list string);
  requiredMedicines : option (list string);
  notes : option string
}.

Record t := mk {
  detectedPandemics : option (list Detected);
  analysis : option string
}.

End GeminiAnalysis.


(** The collections and the log of provider requests. *)
Module World.

Record t := mk {
  aqiReadings : list AqiReading.t;
  weatherReadings : list WeatherReading.t;
  hospitalStats : list HospitalStats.t;
  pandemicData : list PandemicData.t;
  predictions : list Prediction.t;
  network : list Provider.Request
}.

Definition empty : t := mk [] [] [] [] [] [].

Definition saveAqi (r : AqiReading.t) (w : t) : t :=
  mk (aqiReadings w ++ [r]) (weatherReadings w) (hospitalStats w)
     (pandemicData w) (predictions w) (network w).

Definition saveWeather (r : WeatherReading.t) (w : t) : t :=
  mk (aqiReadings w) (weatherReadings w ++ [r]) (hospitalStats w)
     (pandemicData w) (predictions w) (network w).

Definition setPandemicData (l : list PandemicData.t) (w : t) : t :=
  mk (aqiReadings w) (weatherReadings w) (hospitalStats w)
     l (predictions w) (network w).

Definition savePrediction (p : Prediction.t) (w : t) : t :=
  mk (aqiReadings w) (weatherReadings w) (hospitalStats w)
     (pandemicData w) (predictions w ++ [p]) (network w).

Definition logRequest (r : Provider.Request) (w : t) : t :=
  mk (aqiReadings w) (weatherReadings w) (hospitalStats w)
     (pandemicData w) (predictions w) (network w ++ [r]).

End World.

Module Env.

(** Everything the services read from outside the process.  The
    providers answer a request made at a given instant.  The reasoning
    service is read after [withRetry] and [JSON.parse]: [None] stands for
    a call that failed or a reply that is not JSON. *)
Record t := mk {
  AIR_VISUAL_API_KEY : option string;
  WEATHER_API_KEY : option string;
  GEMINI_API_KEY : option string;
  airVisual : Z -> Provider.Request -> Provider.Fetched Provider.AirVisualBody;
  openWeatherMap : Z -> Provider.Request -> Provider.Fetched Provider.WeatherBody;
  (** the host's [parseFloat]; [None] is [NaN] *)
  parseFloat : string -> option Q;
  geminiPandemics : Z -> string -> WeatherReading.t -> AqiReading.t -> Q
                    -> option GeminiAnalysis.t;
  geminiAgent : Z -> Features.t -> Q -> string + AgentResponse.t;
  geminiDiseases : Z -> WeatherReading.t -> AqiReading.t -> Q -> option (list string);
  geminiMedicines : Z -> list string -> option (list string);
  (** [generatePDFReport(region, days)]: the report rendered by [pdfkit]
      from the stored predictions and readings, or the error it ends with *)
  generatePDFReport : World.t -> Z -> string -> option Z -> string + string
}.

End Env.

(** ** Async functions: state passing with exceptions

    An [async] function is a function from the world to a result and the
    world it leaves; a rejected promise is [inl] with the error's message. *)
Module Async.

Definition Error := string.

Definition M (A : Type) : Type := World.t -> (Error + A) * World.t.

Definition ret {A} (a : A) : M A := fun w => (inr a, w).

Definition throw {A} (e : Error) : M A := fun w => (inl e, w).

Definition bind {A B} (m : M A) (k : A -> M B) : M B :=
  fun w =>
    match m w with
    | (inr a, w') => k a w'
    | (inl e, w') => (inl e, w')
    end.

(** [try { m } catch (e) { handler(e) }]. *)
Definition tryCatch {A} (m : M A) (handler : Error -> M A) : M A :=
  fun w =>
    match m w with
    | (inr a, w') => (inr a, w')
    | (inl e, w') => handler e w'
    end.

Definition get : M World.t := fun w => (inr w, w).

Definition modify (f : World.t -> World.t) : M unit := fun w => (inr tt, f w).

End Async.

Declare Scope async_scope.
Delimit Scope async_scope with async.
Notation "'let*' x ':=' m 'in' k" := (Async.bind m (fun x => k))
  (at level 10, x name, m at level 100, k at level 200) : async_scope.
Notation "m ';;' k" := (Async.bind m (fun _ => k))
  (at level 100, k at level 200, right associativity) : async_scope.

(** ** dataService.js: the freshness cache and the provider adapters *)
Module DataService.
Import JS Async.
Local Open Scope async_scope.
Local Open Scope string_scope.

Record Coordinates := mkCoords {
  city : string;
  state : string;
  country : string;
  lat : option Q;
  lon : option Q
}.

Definition cityStateMap : list (string * Coordinates) :=
  [ ("Delhi", mkCoords "Delhi" "Delhi" "India" (Some (286139 # 10000)%Q) (Some (772090 # 10000)%Q));
    ("Mumbai", mkCoords "Mumbai" "Maharashtra" "India" (Some (190760 # 10000)%Q) (Some (728777 # 10000)%Q));
    ("Bangalore", mkCoords "Bangalore" "Karnataka" "India" (Some (129716 # 10000)%Q) (Some (775946 # 10000)%Q));
    ("Kolkata", mkCoords "Kolkata" "West Bengal" "India" (Some (225726 # 10000)%Q) (Some (883639 # 10000)%Q));
    ("Chennai", mkCoords "Chennai" "Tamil Nadu" "India" (Some (130827 # 10000)%Q) (Some (802707 # 10000)%Q));
    ("Hyderabad", mkCoords "Hyderabad" "Telangana" "India" (Some (173850 # 10000)%Q) (Some (784867 # 10000)%Q));
    ("Pune", mkCoords "Pune" "Maharashtra" "India" (Some (185204 # 10000)%Q) (Some (738567 # 10000)%Q));
    ("Ahmedabad", mkCoords "Ahmedabad" "Gujarat" "India" (Some (230225 # 10000)%Q) (Some (725714 # 10000)%Q));
    ("Jaipur", mkCoords "Jaipur" "Rajasthan" "India" (Some (269124 # 10000)%Q) (Some (757873 # 10000)%Q));
    ("Lucknow", mkCoords "Lucknow" "Uttar Pradesh" "India" (Some (268467 # 10000)%Q) (Some (809462 # 10000)%Q)) ].

Fixpoint lookup {V} (key : string) (table : list (string * V)) : option V :=
  match table with
  | [] => None
  | (k, v) :: rest => if String.eqb k key then Some v else lookup key rest
  end.

(** [getCityStateMapping(cityName)]. *)
Definition getCityStateMapping (cityName : string) : option Coordinates :=
  lookup (trim cityName) cityStateMap.

(** [getCityCoordinates(cityName, state, country)]. *)
Definition getCityCoordinates (env : Env.t) (cityName state country : string)
  : Coordinates :=
  match getCityStateMapping cityName with
  | Some mapped => mapped
  | None =>
      let parts := map trim (split ","%char cityName) in
      let part i := nth i parts "" in
      if includes cityName ","
         && (3 <=? List.length parts)%nat
         && match Env.parseFloat env (part 1%nat) with Some _ => true | None => false end
      then mkCoords (part 0%nat) state country
             (Env.parseFloat env (part 1%nat)) (Env.parseFloat env (part 2%nat))
      else if includes cityName "," && (2 <=? List.length parts)%nat
      then mkCoords (part 0%nat)
             (if String.eqb (part 1%nat) "" then state else part 1%nat)
             (if String.eqb (part 2%nat) "" then country else part 2%nat)
             None None
      else mkCoords cityName state country None None
  end.

(** [Model.findOne({ location }).sort({ timestamp: -1 })]: the stored
    document of the location with the greatest timestamp (the earliest
    stored among equals). *)
Fixpoint newest {A} (ts : A -> Z) (best : option A) (l : list A) : option A :=
  match l with
  | [] => best
  | r :: rest =>
      match best with
      | Some b => if (ts b <? ts r)%Z then newest ts (Some r) rest else newest ts best rest
      | None => newest ts (Some r) rest
      end
  end.

Definition findLatestAqi (location : string) (w : World.t) : option AqiReading.t :=
  newest AqiReading.timestamp None
    (filter (fun r => String.eqb (AqiReading.location r) location) (World.aqiReadings w)).

Definition findLatestWeather (location : string) (w : World.t) : option WeatherReading.t :=
  newest WeatherReading.timestamp None
    (filter (fun r => String.eqb (WeatherReading.location r) location) (World.weatherReadings w)).

(** [(Date.now() - new Date(timestamp).getTime()) / (1000 * 60 * 60)]. *)
Definition ageHours (now timestamp : Z) : Q :=
  (inject_Z (now - timestamp) / 3600000)%Q.

(** [await fetch(url)] and [await response.json()] against a provider:
    the request is logged, then answered. *)
Definition fetch {Body} (provider : Provider.Request -> Provider.Fetched Body)
    (request : Provider.Request) : M (Provider.Fetched Body) :=
  modify (World.logRequest request) ;; ret (provider request).

Definition truthyCoord (x : option Q) : bool := truthy_num x.

Definition Z_to_string (n : Z) : string := NilZero.string_of_int (Z.to_int n).

(** The Air Visual exchange of [fetchAndStoreAqi]: the three strategies,
    giving the last response received. *)
Definition airVisualExchange (env : Env.t) (now : Z) (coords : Coordinates)
  : M (Provider.Fetched Provider.AirVisualBody) :=
  let cityRequest := Provider.AirVisualCity (city coords) (state coords) (country coords) in
  let nearestRequest :=
    Provider.AirVisualNearestStation
      (match lat coords with Some x => x | None => 0%Q end)
      (match lon coords with Some x => x | None => 0%Q end) in
  if negb (String.eqb (state coords) "") && negb (String.eqb (country coords) "") then
    let* response := fetch (Env.airVisual env now) cityRequest in
    match response with
    | Provider.Responded false _ (inr _) =>
        if truthyCoord (lat coords) && truthyCoord (lon coords)
        then fetch (Env.airVisual env now) nearestRequest
        else ret response
    | _ => ret response
    end
  else if truthyCoord (lat coords) && truthyCoord (lon coords) then
    fetch (Env.airVisual env now) nearestRequest
  else
    fetch (Env.airVisual env now) cityRequest.

(** The reading of a response: [aqiData], or the error thrown inside the
    inner [try]. *)
Definition readAirVisual (response : Provider.Fetched Provider.AirVisualBody)
  : M (option (Q * Q * Q)) :=
  match response with
  | Provider.FetchRejected message => throw message
  | Provider.Responded _ _ (inl message) => throw message
  | Provider.Responded ok status (inr responseData) =>
      if ok && match Provider.avStatus responseData with
               | Some st => String.eqb st "success"
               | None => false
               end
      then
        match Provider.avData responseData with
        | Some data =>
            match Provider.pollution data with
            | Some pollution =>
                let aqi := or_num (Provider.aqius pollution)
                             (or_num (Provider.aqicn pollution) 50) in
                let pm25 := or_num (Provider.pm25 pollution) (Math_round (aqi * (6 # 10))) in
                let pm10 := or_num (Provider.pm10 pollution) (Math_round (aqi * (8 # 10))) in
                ret (Some (aqi, pm25, pm10))
            | None => ret None
            end
        | None => ret None
        end
      else
        let errorMsg :=
          or_str (match Provider.avData responseData with
                  | Some data => Provider.dataMessage data
                  | None => None
                  end)
                 (or_str (Provider.avMessage responseData)
                         ("HTTP " ++ Z_to_string status)) in
        throw ("Air Visual API error: " ++ errorMsg)
  end.

(** [fetchAndStoreAqi(cityName, state, country, forceFetch)]. *)
Definition fetchAndStoreAqi (env : Env.t) (now : Z)
    (cityName state country : string) (forceFetch : bool) : M AqiReading.t :=
  if String.eqb cityName "" then throw "City name is required" else
  let location := cityName in
  let* w := get in
  let cached :=
    if negb forceFetch then
      match findLatestAqi location w with
      | Some recentReading =>
          if lt (ageHours now (AqiReading.timestamp recentReading)) 6
          then Some recentReading else None
      | None => None
      end
    else None in
  match cached with
  | Some recentReading => ret recentReading
  | None =>
      if negb (truthy_str (Env.AIR_VISUAL_API_KEY env)) then
        throw "AIR_VISUAL_API_KEY is not configured. Please set it in your .env file."
      else
        let* aqiData :=
          tryCatch
            (let coords := getCityCoordinates env cityName state country in
             let* response := airVisualExchange env now coords in
             readAirVisual response)
            (fun apiError => throw ("Failed to fetch AQI data: " ++ apiError)) in
        match aqiData with
        | None => throw "Failed to fetch AQI data from Air Visual API."
        | Some (aqi, pm25, pm10) =>
            let reading := AqiReading.mk location now aqi pm25 pm10 "airvisual" in
            modify (World.saveAqi reading) ;;
            ret reading
        end
  end.

(** The reading of an OpenWeatherMap response inside the inner [try]:
    temperature, humidity, wind speed and precipitation, rounded. *)
Definition readWeather (response : Provider.Fetched Provider.WeatherBody)
  : M (Q * Q * Q * Q) :=
  match response with
  | Provider.FetchRejected message => throw message
  | Provider.Responded true _ (inl message) => throw message
  | Provider.Responded true _ (inr data) =>
      let codIsError :=
        match Provider.cod data with
        | Some (Provider.CodNum n) => negb (Qeq_bool n 0) && negb (Qeq_bool n 200)
        | Some (Provider.CodStr c) => negb (String.eqb c "")
        | None => false
        end in
      if codIsError then
        throw (or_str (Provider.owmMessage data) "API returned an error")
      else
        let windSpeedMs := or_num (Provider.windSpeed data) 0 in
        let windSpeedKmh := (windSpeedMs * (36 # 10))%Q in
        let precipitation := or_num (Provider.rain1h data) (or_num (Provider.rain3h data) 0) in
        match Provider.mainTemp data, Provider.mainHumidity data with
        | Some temp, Some humidity =>
            ret ((Math_round (temp * 10) / 10)%Q,
                 Math_round humidity,
                 (Math_round (windSpeedKmh * 10) / 10)%Q,
                 (Math_round (precipitation * 10) / 10)%Q)
        | _, _ => throw "Incomplete weather data received from API"
        end
  | Provider.Responded false status json =>
      let errorMsg :=
        or_str (match json with
                | inr errorData => Provider.owmMessage errorData
                | inl _ => None
                end)
               ("HTTP " ++ Z_to_string status) in
      throw ("Weather API error: " ++ errorMsg)
  end.

(** [fetchAndStoreWeather(cityName, forceFetch)]. *)
Definition fetchAndStoreWeather (env : Env.t) (now : Z)
    (cityName : string) (forceFetch : bool) : M WeatherReading.t :=
  if String.eqb cityName "" then throw "City name is required" else
  let location := cityName in
  let* w := get in
  let cached :=
    if negb forceFetch then
      match findLatestWeather location w with
      | Some recentReading =>
          if lt (ageHours now (WeatherReading.timestamp recentReading)) 6
          then Some recentReading else None
      | None => None
      end
    else None in
  match cached with
  | Some recentReading => ret recentReading
  | None =>
      if negb (truthy_str (Env.WEATHER_API_KEY env)) then
        throw "WEATHER_API_KEY is not configured. Please set it in your .env file."
      else
        let* weatherData :=
          tryCatch
            (let* response :=
               fetch (Env.openWeatherMap env now) (Provider.OpenWeatherMap cityName) in
             readWeather response)
            (fun apiError => throw ("Failed to fetch weather data: " ++ apiError)) in
        let '(temperature, humidity, windSpeed, precipitation) := weatherData in
        let reading :=
          WeatherReading.mk location now temperature humidity windSpeed precipitation in
        modify (World.saveWeather reading) ;;
        ret reading
  end.

(** [getLatestAqi(cityName)] and [getLatestWeather(cityName)]: the
    stored reading, no provider involved. *)
Definition getLatestAqi (cityName : string) : M (option AqiReading.t) :=
  if String.eqb cityName "" then ret None else
  let* w := get in ret (findLatestAqi cityName w).

Definition getLatestWeather (cityName : string) : M (option WeatherReading.t) :=
  if String.eqb cityName "" then ret None else
  let* w := get in ret (findLatestWeather cityName w).

(** The start of a history window, [days] days before now.  [days] comes
    from [parseInt]: with [NaN] the start is an invalid date, and the query
    that uses it is rejected by mongoose's cast. *)
Definition historyStart (now : Z) (days : option Z) : M Z :=
  match days with
  | Some d => ret (now - d * 86400000)%Z
  | None => throw "Cast to date failed for value Invalid Date"
  end.

(** [getAqiHistory(cityName, days)]: the readings of the window, oldest
    first. *)
Definition getAqiHistory (now : Z) (cityName : string) (days : option Z)
  : M (list AqiReading.t) :=
  if String.eqb cityName "" then ret [] else
  let* startDate := historyStart now days in
  let* w := get in
  ret (sortBy (fun a b => (AqiReading.timestamp a <=? AqiReading.timestamp b)%Z)
         (filter (fun r => String.eqb (AqiReading.location r) cityName
                           && (startDate <=? AqiReading.timestamp r)%Z)
                 (World.aqiReadings w))).

(** [getWeatherHistory(cityName, days)]. *)
Definition getWeatherHistory (now : Z) (cityName : string) (days : option Z)
  : M (list WeatherReading.t) :=
  if String.eqb cityName "" then ret [] else
  let* startDate := historyStart now days in
  let* w := get in
  ret (sortBy (fun a b => (WeatherReading.timestamp a <=? WeatherReading.timestamp b)%Z)
         (filter (fun r => String.eqb (WeatherReading.location r) cityName
                           && (startDate <=? WeatherReading.timestamp r)%Z)
                 (World.weatherReadings w))).

End DataService.

(** ** diseaseMedicineService.js *)
Module DiseaseMedicineService.
Import JS.
Local Open Scope string_scope.
Local Open Scope list_scope.

(** [getDefaultDiseases(weather, aqi)]. *)
Definition getDefaultDiseases (weather : WeatherReading.t) (aqi : AqiReading.t)
  : list string :=
  let diseases := [] in
  let diseases :=
    if gt (AqiReading.aqi aqi) 100
    then diseases ++ ["Asthma Exacerbation"; "Chronic Obstructive Pulmonary Disease (COPD)";
                      "Acute Bronchitis"]
    else diseases in
  let diseases :=
    if gt (WeatherReading.temperature weather) 35
    then diseases ++ ["Heat Stroke"; "Heat Exhaustion"; "Dehydration"]
    else if lt (WeatherReading.temperature weather) 15
    then diseases ++ ["Hypothermia"; "Common Cold"; "Influenza"; "Pneumonia"]
    else diseases in
  let diseases :=
    if gt (WeatherReading.humidity weather) 80
    then diseases ++ ["Fungal Skin Infections"; "Dermatophytosis"]
    else diseases in
  let diseases :=
    if gt (WeatherReading.precipitation weather) 5
    then diseases ++ ["Waterborne Diseases"; "Vector-borne Diseases"]
    else diseases in
  match diseases with
  | [] => ["Upper Respiratory Tract Infection"]
  | _ => diseases
  end.

(** [getDefaultMedicines(weather, aqi)]. *)
Definition getDefaultMedicines (weather : WeatherReading.t) (aqi : AqiReading.t)
  : list string :=
  let medicines := [] in
  let medicines :=
    if gt (AqiReading.aqi aqi) 100
    then medicines ++ ["Albuterol Sulfate"; "Budesonide"; "Montelukast Sodium"]
    else medicines in
  let medicines :=
    if gt (WeatherReading.temperature weather) 35
    then medicines ++ ["Oral Rehydration Solution (ORS)"; "Paracetamol"; "IV Fluids"]
    else if lt (WeatherReading.temperature weather) 15
    then medicines ++ ["Amoxicillin"; "Azithromycin"; "Dextromethorphan"]
    else medicines in
  let medicines :=
    if gt (WeatherReading.humidity weather) 80
    then medicines ++ ["Clotrimazole"; "Miconazole Nitrate"]
    else medicines in
  match medicines with
  | [] => ["Paracetamol"; "Ibuprofen"]
  | _ => medicines
  end.

(** [getDiseasesForConditions(weather, aqi, surgeProbability)]: the
    reasoning service's list, and the defaults without a key or when the
    call or the parse fails.  It never throws. *)
Definition getDiseasesForConditions (env : Env.t) (now : Z)
    (weather : WeatherReading.t) (aqi : AqiReading.t) (surgeProbability : Q)
  : list string :=
  if negb (truthy_str (Env.GEMINI_API_KEY env)) then getDefaultDiseases weather aqi
  else match Env.geminiDiseases env now weather aqi surgeProbability with
       | Some diseases => diseases
       | None => getDefaultDiseases weather aqi
       end.

(** [getMedicinesForDiseases(diseases, weather, aqi)]. *)
Definition getMedicinesForDiseases (env : Env.t) (now : Z)
    (diseases : list string) (weather : WeatherReading.t) (aqi : AqiReading.t)
  : list string :=
  if negb (truthy_str (Env.GEMINI_API_KEY env)) then getDefaultMedicines weather aqi
  else match Env.geminiMedicines env now diseases with
       | Some medicines => medicines
       | None => getDefaultMedicines weather aqi
       end.

End DiseaseMedicineService.

(** ** pandemicService.js: the outbreak reconciler *)
Module PandemicService.
Import JS Async.
Local Open Scope async_scope.
Local Open Scope string_scope.
Local Open Scope list_scope.

Definition day : Z := 86400000.

(** The order of [.sort({ date: -1, activeCases: -1 })]. *)
Definition precedes (a b : PandemicData.t) : bool :=
  (PandemicData.date b <? PandemicData.date a)%Z
  || ((PandemicData.date a =? PandemicData.date b)%Z
      && Qle_bool (PandemicData.activeCases b) (PandemicData.activeCases a)).

Fixpoint insertSorted (p : PandemicData.t) (l : list PandemicData.t)
  : list PandemicData.t :=
  match l with
  | [] => [p]
  | q :: rest => if precedes p q then p :: l else q :: insertSorted p rest
  end.

Definition sortPandemics (l : list PandemicData.t) : list PandemicData.t :=
  fold_right insertSorted [] l.

(** The filter of [getActivePandemics]: the region, the date window, at
    least one active case, and a significant severity. *)
Definition isActive (region : string) (startDate : Z) (p : PandemicData.t) : bool :=
  String.eqb (PandemicData.region p) region
  && (startDate <=? PandemicData.date p)%Z
  && gt (PandemicData.activeCases p) 0
  && existsb (String.eqb (PandemicData.severity p)) ["moderate"; "high"; "critical"].

(** One step of the [forEach] that fills [diseaseMap]. *)
Definition groupStep (diseaseMap : list (string * PandemicData.t)) (p : PandemicData.t)
  : list (string * PandemicData.t) :=
  match Map_get diseaseMap (PandemicData.diseaseName p) with
  | None => Map_set diseaseMap (PandemicData.diseaseName p) p
  | Some q =>
      if (PandemicData.date q <? PandemicData.date p)%Z
      then Map_set diseaseMap (PandemicData.diseaseName p) p
      else diseaseMap
  end.

(** [getActivePandemics(region, days)] on the collection. *)
Definition activePandemics (now : Z) (region : string) (days : Z)
    (collection : list PandemicData.t) : list PandemicData.t :=
  let startDate := (now - days * day)%Z in
  let pandemics := sortPandemics (filter (isActive region startDate) collection) in
  map snd (fold_left groupStep pandemics []).

Definition getActivePandemics (now : Z) (region : string) (days : Z)
  : M (list PandemicData.t) :=
  let* w := get in ret (activePandemics now region days (World.pandemicData w)).

(** [getTotalActiveCases(region)]. *)
Definition getTotalActiveCases (now : Z) (region : string) : M Q :=
  let* activePandemics := getActivePandemics now region 7 in
  ret (fold_left (fun sum p => sum + PandemicData.activeCases p)%Q activePandemics 0%Q).

(** [getRequiredMedicinesFromPandemics(region)]. *)
Definition getRequiredMedicinesFromPandemics (now : Z) (region : string)
  : M (list string) :=
  let* activePandemics := getActivePandemics now region 7 in
  ret (fold_left
         (fun medicinesSet p => fold_left Set_add (PandemicData.requiredMedicines p) medicinesSet)
         activePandemics []).

(** The validation mongoose runs before inserting a document: the
    required strings, the severity enum and the range of the
    transmission rate. *)
Definition validate (d : PandemicData.t) : option Error :=
  if String.eqb (PandemicData.region d) "" then Some "Path `region` is required."
  else if String.eqb (PandemicData.diseaseName d) "" then Some "Path `diseaseName` is required."
  else if negb (PandemicData.inEnum (PandemicData.severity d))
  then Some "`severity` is not a valid enum value."
  else if negb (PandemicData.rateInRange (PandemicData.transmissionRate d))
  then Some "Path `transmissionRate` is out of range."
  else None.

(** Before saving a loaded document mongoose validates the paths that
    were modified; the update below assigns [severity] and
    [transmissionRate] (the counts and the medicine list carry no
    validator). *)
Definition validateModified (old new : PandemicData.t) : option Error :=
  if negb (String.eqb (PandemicData.severity new) (PandemicData.severity old))
     && negb (PandemicData.inEnum (PandemicData.severity new))
  then Some "`severity` is not a valid enum value."
  else if negb (Qeq_bool (PandemicData.transmissionRate new) (PandemicData.transmissionRate old))
          && negb (PandemicData.rateInRange (PandemicData.transmissionRate new))
  then Some "Path `transmissionRate` is out of range."
  else None.

(** [createPandemicData(data)]. *)
Definition createPandemicData (data : PandemicData.t) : M PandemicData.t :=
  match validate data with
  | Some e => throw e
  | None =>
      modify (fun w => World.setPandemicData (World.pandemicData w ++ [data]) w) ;;
      ret data
  end.

(** [detectPandemicsWithGemini]: [null] without a key, when the call
    fails after its retries, or when the reply is not JSON. *)
Definition detectPandemicsWithGemini (env : Env.t) (now : Z) (region : string)
    (weather : WeatherReading.t) (aqi : AqiReading.t) (surgeProbability : Q)
  : option GeminiAnalysis.t :=
  if negb (truthy_str (Env.GEMINI_API_KEY env)) then None
  else Env.geminiPandemics env now region weather aqi surgeProbability.

(** The filter of the [findOne] that looks for recent data of a disease:
    same region and name, dated within the last 24 hours. *)
Definition isRecent (now : Z) (region : string) (diseaseName : option string)
    (p : PandemicData.t) : bool :=
  String.eqb (PandemicData.region p) region
  && match diseaseName with
     | Some name => String.eqb (PandemicData.diseaseName p) name
     | None => false
     end
  && (now - 24 * 60 * 60 * 1000 <=? PandemicData.date p)%Z.

(** The document a detection creates. *)
Definition newRecord (now : Z) (region : string) (surgeProbability : Q)
    (analysis : option string) (pandemic : GeminiAnalysis.Detected) : PandemicData.t :=
  PandemicData.mk
    region
    now
    (match GeminiAnalysis.diseaseName pandemic with Some name => name | None => "" end)
    (Math_max 0 (Math_round (or_num (GeminiAnalysis.activeCases pandemic)
                                    (50 * (surgeProbability / 100)))))
    (Math_max 0 (Math_round (or_num (GeminiAnalysis.newCasesLast24h pandemic)
                                    (10 * (surgeProbability / 100)))))
    (Math_round (or_num (GeminiAnalysis.activeCases pandemic) 50 * (2 # 10)))
    (Math_round (or_num (GeminiAnalysis.activeCases pandemic) 50 * (1 # 100)))
    (or_str (GeminiAnalysis.severity pandemic)
            (if gt surgeProbability 70 then "high"
             else if gt surgeProbability 50 then "moderate" else "low"))
    (Math_min 10 (Math_max 0 (or_num (GeminiAnalysis.transmissionRate pandemic)
                                     ((surgeProbability / 100) * 3))))
    (match GeminiAnalysis.affectedAgeGroups pandemic with
     | Some groups => groups | None => ["adults"; "elderly"] end)
    (match GeminiAnalysis.symptoms pandemic with
     | Some symptoms => symptoms | None => ["fever"; "cough"; "fatigue"] end)
    (match GeminiAnalysis.requiredMedicines pandemic with
     | Some medicines => medicines | None => [] end)
    (match GeminiAnalysis.notes pandemic with
     | Some (String c text) => PandemicData.NotesText (String c text)
     | _ => PandemicData.AiDetected surgeProbability
              (match analysis with Some a => a | None => "" end)
     end)
    "gemini-ai".

(** The assignments that merge a detection into the existing document. *)
Definition mergeInto (existing : PandemicData.t) (pandemic : GeminiAnalysis.Detected)
  : PandemicData.t :=
  PandemicData.mk
    (PandemicData.region existing)
    (PandemicData.date existing)
    (PandemicData.diseaseName existing)
    (Math_max (PandemicData.activeCases existing)
              (Math_round (or_num (GeminiAnalysis.activeCases pandemic)
                                  (PandemicData.activeCases existing))))
    (Math_max (PandemicData.newCases existing)
              (Math_round (or_num (GeminiAnalysis.newCasesLast24h pandemic)
                                  (PandemicData.newCases existing))))
    (PandemicData.recovered existing)
    (PandemicData.deaths existing)
    (or_str (GeminiAnalysis.severity pandemic) (PandemicData.severity existing))
    (or_num (GeminiAnalysis.transmissionRate pandemic) (PandemicData.transmissionRate existing))
    (PandemicData.affectedAgeGroups existing)
    (PandemicData.symptoms existing)
    (match GeminiAnalysis.requiredMedicines pandemic with
     | Some (m :: ms) => newSet (PandemicData.requiredMedicines existing ++ m :: ms)
     | _ => PandemicData.requiredMedicines existing
     end)
    (PandemicData.notes existing)
    (PandemicData.source existing).

(** The first document that satisfies a filter, and the collection with
    that document replaced. *)
Fixpoint findOne (f : PandemicData.t -> bool) (l : list PandemicData.t)
  : option PandemicData.t :=
  match l with
  | [] => None
  | p :: rest => if f p then Some p else findOne f rest
  end.

Fixpoint replaceFirst (f : PandemicData.t -> bool) (new : PandemicData.t)
    (l : list PandemicData.t) : list PandemicData.t :=
  match l with
  | [] => []
  | p :: rest => if f p then new :: rest else p :: replaceFirst f new rest
  end.

(** The body of [for (const pandemic of geminiAnalysis.detectedPandemics)]. *)
Definition reconcileOne (now : Z) (region : string) (surgeProbability : Q)
    (analysis : option string) (pandemic : GeminiAnalysis.Detected)
    (pandemicRecords : list PandemicData.t) : M (list PandemicData.t) :=
  let recent := isRecent now region (GeminiAnalysis.diseaseName pandemic) in
  let* w := get in
  match findOne recent (World.pandemicData w) with
  | None =>
      let* pandemicData :=
        createPandemicData (newRecord now region surgeProbability analysis pandemic) in
      ret (pandemicRecords ++ [pandemicData])
  | Some existing =>
      let updated := mergeInto existing pandemic in
      match validateModified existing updated with
      | Some e => throw e
      | None =>
          modify (fun w => World.setPandemicData
                             (replaceFirst recent updated (World.pandemicData w)) w) ;;
          ret pandemicRecords
      end
  end.

Fixpoint reconcile (now : Z) (region : string) (surgeProbability : Q)
    (analysis : option string) (detected : list GeminiAnalysis.Detected)
    (pandemicRecords : list PandemicData.t) : M (list PandemicData.t) :=
  match detected with
  | [] => ret pandemicRecords
  | pandemic :: rest =>
      let* pandemicRecords :=
        reconcileOne now region surgeProbability analysis pandemic pandemicRecords in
      reconcile now region surgeProbability analysis rest pandemicRecords
  end.

(** The [else] branch: without a recent record of an authoritative
    source, the fallback-generated records older than 7 days go. *)
Definition clearOldData (now : Z) (region : string) : M unit :=
  let* w := get in
  let recentReal p :=
    String.eqb (PandemicData.region p) region
    && (now - 7 * 24 * 60 * 60 * 1000 <=? PandemicData.date p)%Z
    && existsb (String.eqb (PandemicData.source p)) ["gemini-ai"; "system"] in
  match findOne recentReal (World.pandemicData w) with
  | Some _ => ret tt
  | None =>
      let stale p :=
        String.eqb (PandemicData.region p) region
        && (PandemicData.date p <? now - 7 * 24 * 60 * 60 * 1000)%Z
        && String.eqb (PandemicData.source p) "basic-analysis" in
      modify (fun w => World.setPandemicData
                         (filter (fun p => negb (stale p)) (World.pandemicData w)) w)
  end.

(** [analyzeAndCreatePandemicData(region, weather, aqi, surgeProbability)]. *)
Definition analyzeAndCreatePandemicData (env : Env.t) (now : Z) (region : string)
    (weather : WeatherReading.t) (aqi : AqiReading.t) (surgeProbability : Q)
  : M (list PandemicData.t) :=
  tryCatch
    (if lt surgeProbability 40 then ret []
     else
       let* existingPandemics := getActivePandemics now region 7 in
       let geminiAnalysis :=
         detectPandemicsWithGemini env now region weather aqi surgeProbability in
       match geminiAnalysis with
       | Some {| GeminiAnalysis.detectedPandemics := Some (p :: ps);
                 GeminiAnalysis.analysis := analysis |} =>
           reconcile now region surgeProbability analysis (p :: ps) []
       | _ =>
           clearOldData now region ;;
           ret []
       end)
    (fun error => ret []).

(** [calculatePatientCountFromPandemics(region, basePatientCount,
    surgeProbability)].  The [catch] fallback answers a failing
    database read, which the collections here do not do. *)
Definition calculatePatientCountFromPandemics (now : Z) (region : string)
    (basePatientCount surgeProbability : Q) : M Q :=
  let* totalActiveCases := getTotalActiveCases now region in
  let estimatedCount := basePatientCount in
  let surgeMultiplier := (1 + (surgeProbability / 100) * (5 # 10))%Q in
  let estimatedCount := Math_round (estimatedCount * surgeMultiplier) in
  let pandemicContribution := Math_round (totalActiveCases * (3 # 10)) in
  let estimatedCount := (estimatedCount + pandemicContribution)%Q in
  ret (Math_max basePatientCount estimatedCount).

End PandemicService.

(** ** predictionService.js: the prediction assembler *)
Module PredictionService.
Import JS Async.
Local Open Scope async_scope.
Local Open Scope string_scope.
Local Open Scope list_scope.

Definition GEMINI_MODEL : string := "gemini-2.0-flash-001".

(** [HospitalStats.find({ region }).sort({ date: -1 }).limit(7)]. *)
Definition recentStats (region : string) (collection : list HospitalStats.t)
  : list HospitalStats.t :=
  firstn 7 (sortBy (fun a b => (HospitalStats.date b <=? HospitalStats.date a)%Z)
              (filter (fun s => String.eqb (HospitalStats.region s) region) collection)).

(** The message of the error thrown when no weather reading can be had. *)
Definition weatherRequired (cityName : string) : string :=
  ("Weather data is required but could not be fetched for " ++ cityName
   ++ ". Please check your WEATHER_API_KEY configuration.")%string.

(** [admissionsLast7dAvg]: the mean of the admissions, 50 without any. *)
Definition averageAdmissions (hospitalStats : list HospitalStats.t) : Q :=
  let admissionsLast7d := map HospitalStats.admissions hospitalStats in
  match admissionsLast7d with
  | [] => 50%Q
  | _ => (fold_left Qplus admissionsLast7d 0
          / inject_Z (Z.of_nat (List.length admissionsLast7d)))%Q
  end.

(** The estimate that stands in for a missing air-quality reading. *)
Definition estimatedAqi (now : Z) (cityName : string) (weather : WeatherReading.t)
  : AqiReading.t :=
  let defaultAqi :=
    if gt (WeatherReading.temperature weather) 35 then 80
    else if gt (WeatherReading.temperature weather) 25 then 60 else 50 in
  AqiReading.mk cityName now defaultAqi
    (Math_round (defaultAqi * (6 # 10))) (Math_round (defaultAqi * (8 # 10)))
    "estimated".

(** [runOperationsAgent(message, context)]: every failure inside is
    rethrown as "AI agent failed: ...". *)
Definition runOperationsAgent (env : Env.t) (now : Z) (features : Features.t)
    (surgeProbability : Q) : M AgentResponse.t :=
  if negb (truthy_str (Env.GEMINI_API_KEY env))
  then throw "AI agent failed: GEMINI_API_KEY is not configured"
  else match Env.geminiAgent env now features surgeProbability with
       | inl message => throw ("AI agent failed: " ++ message)%string
       | inr response => ret response
       end.

(** The weather and air-quality readings a prediction is built from:
    the stored ones, a forced fetch for a missing one, and the estimate
    when the air-quality fetch fails. *)
Definition resolveReadings (env : Env.t) (now : Z) (cityName : string)
  : M (AqiReading.t * WeatherReading.t) :=
  let* aqi := DataService.getLatestAqi cityName in
  let* weather := DataService.getLatestWeather cityName in
  let* weather :=
    match weather with
    | Some weather => ret weather
    | None =>
        tryCatch
          (DataService.fetchAndStoreWeather env now cityName true)
          (fun weatherError => throw (weatherRequired cityName))
    end in
  let* aqi :=
    match aqi with
    | Some aqi => ret aqi
    | None =>
        tryCatch
          (DataService.fetchAndStoreAqi env now cityName "" "India" true)
          (fun aqiError => ret (estimatedAqi now cityName weather))
    end in
  ret (aqi, weather).

(** The feature record. *)
Definition buildFeatures (cityName : string) (date : Z)
    (aqi : AqiReading.t) (weather : WeatherReading.t) (admissionsLast7dAvg : Q)
  : Features.t :=
  Features.mk cityName date
    (AqiReading.aqi aqi) (AqiReading.pm25 aqi) (AqiReading.pm10 aqi)
    (WeatherReading.temperature weather) (WeatherReading.humidity weather)
    (WeatherReading.windSpeed weather) (WeatherReading.precipitation weather)
    admissionsLast7dAvg 50 false 0.

(** [generatePrediction(cityName, date)]. *)
Definition generatePrediction (env : Env.t) (now : Z) (cityName : string) (date : Z)
  : M Prediction.t :=
  if String.eqb cityName "" then throw "City name is required" else
  let* readings := resolveReadings env now cityName in
  let '(aqi, weather) := readings in
  let* aqiHistory := DataService.getAqiHistory now cityName (Some 7%Z) in
  let* weatherHistory := DataService.getWeatherHistory now cityName (Some 7%Z) in
  let* w := get in
  let hospitalStats := recentStats cityName (World.hospitalStats w) in
  let admissionsLast7dAvg := averageAdmissions hospitalStats in
  let features := buildFeatures cityName date aqi weather admissionsLast7dAvg in
  let surgeProbability := RiskScorer.calculateSurgeProbability features in
  let* agentResponse := runOperationsAgent env now features surgeProbability in
  let suggestedDiseases :=
    DiseaseMedicineService.getDiseasesForConditions env now weather aqi surgeProbability in
  let suggestedMedicines :=
    DiseaseMedicineService.getMedicinesForDiseases env now suggestedDiseases weather aqi in
  let* pandemicData :=
    PandemicService.analyzeAndCreatePandemicData env now cityName weather aqi
      surgeProbability in
  let* activePandemics := PandemicService.getActivePandemics now cityName 7 in
  let* pandemicMedicines := PandemicService.getRequiredMedicinesFromPandemics now cityName in
  let allMedicines := newSet (suggestedMedicines ++ pandemicMedicines) in
  let baselinePatients := 100%Q in
  let* estimatedPatientCount :=
    PandemicService.calculatePatientCountFromPandemics now cityName baselinePatients
      surgeProbability in
  let prediction :=
    Prediction.mk
      cityName
      date
      surgeProbability
      estimatedPatientCount
      GEMINI_MODEL
      features
      (Prediction.mkStaff
         (Math_ceil (10 * (1 + surgeProbability / 100)))
         (Math_ceil (20 * (1 + surgeProbability / 100)))
         (Math_ceil (5 * (1 + surgeProbability / 100)))
         (or_str (AgentResponse.staffingPlan agentResponse) "Standard staffing levels"))
      (Prediction.mkSupply
         (Math_ceil (1000 * (1 + surgeProbability / 100)))
         allMedicines
         (Math_ceil (500 * (1 + surgeProbability / 100)))
         (or_str (AgentResponse.supplyPlan agentResponse) "Standard supply levels"))
      [ ("aqi", if gt (Features.aqi features) 100 then (3 # 10) else (1 # 10))%Q;
        ("temperature", if gt (Features.temperature features) 35 then (25 # 100) else (1 # 10))%Q;
        ("admissions_trend", if gt admissionsLast7dAvg 60 then (2 # 10) else (1 # 10))%Q ]
      allMedicines
      suggestedDiseases
      (map (fun p => Prediction.mkActive
                       (PandemicData.diseaseName p) (PandemicData.activeCases p)
                       (PandemicData.newCases p) (PandemicData.severity p)
                       (PandemicData.transmissionRate p))
           activePandemics)
      (or_str (AgentResponse.weatherImpact agentResponse) "Normal weather conditions")
      (or_str (AgentResponse.aqiImpact agentResponse) "Normal air quality") in
  modify (World.savePrediction prediction) ;;
  ret prediction.

(** [getLatestPrediction(cityName)]. *)
Definition getLatestPrediction (cityName : string) : M (option Prediction.t) :=
  if String.eqb cityName "" then ret None else
  let* w := get in
  ret (DataService.newest Prediction.date None
         (filter (fun p => String.eqb (Prediction.region p) cityName) (World.predictions w))).

(** [getPredictionHistory(cityName, days)]: the predictions of the window,
    newest first. *)
Definition getPredictionHistory (now : Z) (cityName : string) (days : option Z)
  : M (list Prediction.t) :=
  if String.eqb cityName "" then ret [] else
  let* startDate := DataService.historyStart now days in
  let* w := get in
  ret (sortBy (fun a b => (Prediction.date b <=? Prediction.date a)%Z)
         (filter (fun p => String.eqb (Prediction.region p) cityName
                           && (startDate <=? Prediction.date p)%Z)
                 (World.predictions w))).

End PredictionService.

(** ** predictionRoutes.js: the handlers

    Each handler is modelled from the point where [requireAuth] has let
    the request through. *)
Module PredictionRoutes.
Import JS Async LocationUtils.
Local Open Scope async_scope.
Local Open Scope string_scope.
Local Open Scope list_scope.

(** What a handler sends as [data]. *)
Inductive Data :=
| NoData
| PredictionData (prediction : Prediction.t)
| LatestData (prediction : option Prediction.t) (aqi : AqiReading.t)
             (weather : WeatherReading.t)
| AqiData (latest : option AqiReading.t)
| AqiHistoryData (history : list AqiReading.t)
| WeatherData (latest : option WeatherReading.t)
| WeatherHistoryData (history : list WeatherReading.t)
| PredictionHistoryData (history : list Prediction.t)
| StaffAdviceData (advice : Prediction.StaffAdvice)
| SupplyAdviceData (advice : Prediction.SupplyAdvice)
| ReportFile (pdfBuffer : string).

(** [res.status(code).json({ success, message, data })]; [res.json]
    answers with status 200. *)
Record Response := mkResponse {
  statusCode : Z;
  success : bool;
  responseMessage : option string;
  data : Data
}.

Definition failure (code : Z) (message : string) : Response :=
  mkResponse code false (Some message) NoData.

Definition ok (d : Data) : Response := mkResponse 200 true None d.

(** A handler never rejects: what it leaves is a response and a world. *)
Definition Handler := World.t -> Response * World.t.

(** The [catch] of every handler: status 500 with the error's message. *)
Definition respond (body : M Response) : Handler :=
  fun w =>
    match body w with
    | (inr response, w') => (response, w')
    | (inl message, w') => (failure 500 message, w')
    end.

(** The first statements of every handler: the city must be there and
    must pass [isValidCityName] after [extractCityName].  [inl] is the
    400 response sent, [inr] the normalized city. *)
Definition checkCity (city lat lon : Value) (checksCoordinates : bool)
  : Response + string :=
  if falsy city then
    if checksCoordinates && negb (falsy lat) && negb (falsy lon)
    then inl (failure 400 "City name is required. Automatic location detection from coordinates is not yet implemented.")
    else inl (failure 400 "City name is required")
  else
    let city := extractCityName city in
    if negb (isValidCityName city)
    then inl (failure 400 "Invalid city name provided")
    else match city with
         | Some c => inr c
         | None => inl (failure 400 "Invalid city name provided")
         end.

(** [POST /api/predictions/predict]; [date] is the body's date, parsed. *)
Definition postPredict (env : Env.t) (now : Z) (city lat lon : Value) (date : option Z)
  : Handler :=
  match checkCity city lat lon true with
  | inl badRequest => fun w => (badRequest, w)
  | inr city =>
      respond
        (tryCatch
           (DataService.fetchAndStoreAqi env now city "" "India" true ;;
            DataService.fetchAndStoreWeather env now city true ;;
            ret tt)
           (fun fetchError => ret tt) ;;
         let predictionDate := match date with Some d => d | None => now end in
         let* prediction := PredictionService.generatePrediction env now city predictionDate in
         ret (ok (PredictionData prediction)))
  end.

(** [GET /api/predictions/latest]. *)
Definition getLatest (env : Env.t) (now : Z) (city lat lon : Value) : Handler :=
  match checkCity city lat lon true with
  | inl badRequest => fun w => (badRequest, w)
  | inr city =>
      respond
        (let* prediction := PredictionService.getLatestPrediction city in
         let stale :=
           match prediction with
           | None => true
           | Some p => (6 * 60 * 60 * 1000 <? now - Prediction.date p)%Z
           end in
         let* prediction :=
           if stale then
             tryCatch (DataService.fetchAndStoreWeather env now city true ;; ret tt)
                      (fun weatherError => ret tt) ;;
             tryCatch (DataService.fetchAndStoreAqi env now city "" "India" true ;; ret tt)
                      (fun aqiError => ret tt) ;;
             tryCatch
               (let* p := PredictionService.generatePrediction env now city now in
                ret (Some p))
               (fun predError =>
                  match prediction with
                  | None => throw predError
                  | Some _ => ret prediction
                  end)
           else ret prediction in
         let* aqi := DataService.getLatestAqi city in
         let* weather := DataService.getLatestWeather city in
         match weather with
         | None =>
             ret (failure 500 ("Weather data is required but not available for " ++ city
                               ++ ". Please check your WEATHER_API_KEY configuration.")%string)
         | Some weather =>
             let aqi :=
               match aqi with
               | Some aqi => aqi
               | None => PredictionService.estimatedAqi now city weather
               end in
             ret (ok (LatestData prediction aqi weather))
         end)
  end.

(** A number read off a query string with [parseInt]; [None] is [NaN]. *)
Definition parseDays (text : string) : option Z := parseInt text.

(** [GET /api/predictions/history]; [days] defaults to 30. *)
Definition getHistory (env : Env.t) (now : Z) (city : Value) (days : option string)
  : Handler :=
  match checkCity city Undefined Undefined false with
  | inl badRequest => fun w => (badRequest, w)
  | inr city =>
      respond
        (let days := match days with Some text => parseDays text | None => Some 30%Z end in
         let* history := PredictionService.getPredictionHistory now city days in
         ret (ok (PredictionHistoryData history)))
  end.

(** [GET /api/predictions/air-quality]; a provider is asked only when the
    query says [forceFetch=true]. *)
Definition getAirQuality (env : Env.t) (now : Z) (city : Value) (since : option string)
    (forceFetch : option string) : Handler :=
  match checkCity city Undefined Undefined false with
  | inl badRequest => fun w => (badRequest, w)
  | inr city =>
      respond
        ((match forceFetch with
          | Some "true" => DataService.fetchAndStoreAqi env now city "" "India" true ;; ret tt
          | _ => ret tt
          end) ;;
         if truthy_str since then
           let* history :=
             DataService.getAqiHistory now city (parseDays (or_str since "")) in
           ret (ok (AqiHistoryData history))
         else
           let* latest := DataService.getLatestAqi city in
           ret (ok (AqiData latest)))
  end.

(** [GET /api/predictions/weather]. *)
Definition getWeather (env : Env.t) (now : Z) (city : Value) (since : option string)
  : Handler :=
  match checkCity city Undefined Undefined false with
  | inl badRequest => fun w => (badRequest, w)
  | inr city =>
      respond
        (tryCatch (DataService.fetchAndStoreWeather env now city true ;; ret tt)
                  (fun fetchError => ret tt) ;;
         if truthy_str since then
           let* history :=
             DataService.getWeatherHistory now city (parseDays (or_str since "")) in
           ret (ok (WeatherHistoryData history))
         else
           let* latest := DataService.getLatestWeather city in
           ret (ok (WeatherData latest)))
  end.

(** The prediction the advice handlers answer from: the latest stored one,
    or a new one when there is none. *)
Definition latestOrNew (env : Env.t) (now : Z) (city : string) (date : option Z)
  : M Prediction.t :=
  let* prediction := PredictionService.getLatestPrediction city in
  match prediction with
  | Some prediction => ret prediction
  | None =>
      PredictionService.generatePrediction env now city
        (match date with Some d => d | None => now end)
  end.

(** [GET /api/predictions/staff-advice]. *)
Definition getStaffAdvice (env : Env.t) (now : Z) (city : Value) (date : option Z)
  : Handler :=
  match checkCity city Undefined Undefined false with
  | inl badRequest => fun w => (badRequest, w)
  | inr city =>
      respond
        (let* prediction := latestOrNew env now city date in
         ret (ok (StaffAdviceData (Prediction.staffAdvice prediction))))
  end.

(** [GET /api/predictions/supply-advice]. *)
Definition getSupplyAdvice (env : Env.t) (now : Z) (city : Value) (date : option Z)
  : Handler :=
  match checkCity city Undefined Undefined false with
  | inl badRequest => fun w => (badRequest, w)
  | inr city =>
      respond
        (let* prediction := latestOrNew env now city date in
         ret (ok (SupplyAdviceData (Prediction.supplyAdvice prediction))))
  end.

(** [GET /api/predictions/download]: the report is sent as a file. *)
Definition getDownload (env : Env.t) (now : Z) (city : Value) (days : option string)
  : Handler :=
  match checkCity city Undefined Undefined false with
  | inl badRequest => fun w => (badRequest, w)
  | inr city =>
      respond
        (let days := match days with Some text => parseDays text | None => Some 30%Z end in
         let* w := get in
         match Env.generatePDFReport env w now city days with
         | inl message => throw message
         | inr pdfBuffer => ret (ok (ReportFile pdfBuffer))
         end)
  end.

End PredictionRoutes.

(** ** What an operation leaves alone *)
Module Frame.

(** The collections of two worlds agree; the request log may differ. *)
Definition sameStores (w w' : World.t) : Prop :=
  World.aqiReadings w' = World.aqiReadings w
  /\ World.weatherReadings w' = World.weatherReadings w
  /\ World.hospitalStats w' = World.hospitalStats w
  /\ World.pandemicData w' = World.pandemicData w
  /\ World.predictions w' = World.predictions w.

(** Only the outbreak collection may differ. *)
Definition onlyPandemicData (w w' : World.t) : Prop :=
  World.aqiReadings w' = World.aqiReadings w
  /\ World.weatherReadings w' = World.weatherReadings w
  /\ World.hospitalStats w' = World.hospitalStats w
  /\ World.predictions w' = World.predictions w
  /\ World.network w' = World.network w.

(** The request log of [w'] extends that of [w] by at least one request. *)
Definition calledOut (w w' : World.t) : Prop :=
  exists request more, World.network w' = World.network w ++ request :: more.

End Frame.

(** ** Properties of outbreak records *)
Module Outbreak.

(** The bounds of a record's counts and transmission rate. *)
Definition withinBounds (r : PandemicData.t) : Prop :=
  0 <= PandemicData.activeCases r
  /\ 0 <= PandemicData.newCases r
  /\ 0 <= PandemicData.transmissionRate r <= 10.

(** [r] is the document [r0], possibly after merges: what identifies a
    document and what a merge never assigns is the same. *)
Definition sameDocument (r0 r : PandemicData.t) : Prop :=
  PandemicData.region r = PandemicData.region r0
  /\ PandemicData.date r = PandemicData.date r0
  /\ PandemicData.diseaseName r = PandemicData.diseaseName r0
  /\ PandemicData.source r = PandemicData.source r0.

(** The collection [after] is the collection [before], document by
    document (each possibly merged into), followed by the documents that
    were created, all within bounds. *)
Definition reconciled (before after : list PandemicData.t) : Prop :=
  exists kept created,
    after = kept ++ created
    /\ Forall2 sameDocument before kept
    /\ Forall withinBounds created.

(** Nothing was created or changed: [after] keeps some of the documents
    of [before]. *)
Definition purged (before after : list PandemicData.t) : Prop :=
  exists keep, after = filter keep before.


(** The specification's estimate of the affected count, each term
    rounded, floored at the baseline. *)
Definition estimate (baseline score totalActiveCases : Q) : Q :=
  Qmax baseline
       (JS.Math_round (baseline * (1 + score / 100 * (5 # 10)))
        + JS.Math_round ((3 # 10) * totalActiveCases)).

(** The sum [getTotalActiveCases] computes on a collection. *)
Definition totalActiveCases (now : Z) (region : string)
    (collection : list PandemicData.t) : Q :=
  fold_left (fun sum p => sum + PandemicData.activeCases p)
    (PandemicService.activePandemics now region 7 collection) 0.

End Outbreak.

(** ** Scenarios: concrete inputs used below *)
Module Scenarios.
Local Open Scope string_scope.
Local Open Scope list_scope.

(** A 503 whose RetryInfo detail says "0s". *)
Definition zeroHint : GeminiRetry.ApiError :=
  GeminiRetry.mkError (Some 503%Z) (Some "Service Unavailable")
    (Some [GeminiRetry.mkDetail (Some GeminiRetry.RetryInfo) (Some "0s")]).

(** A 503 without details, and a 400. *)
Definition unavailable : GeminiRetry.ApiError :=
  GeminiRetry.mkError (Some 503%Z) (Some "Service Unavailable") None.

Definition badRequest : GeminiRetry.ApiError :=
  GeminiRetry.mkError (Some 400%Z) (Some "Bad Request") None.

(** A closure that fails once with [e], then returns 7. *)
Definition failsOnce (e : GeminiRetry.ApiError) (k : nat) : GeminiRetry.ApiError + Z :=
  match k with
  | O => inl e
  | S _ => inr 7%Z
  end.

(** A closure that fails twice with a 503, then returns 7. *)
Definition failsTwice (k : nat) : GeminiRetry.ApiError + Z :=
  match k with
  | O | S O => inl unavailable
  | S (S _) => inr 7%Z
  end.

Definition noJitter (k : nat) : Q := 0.

(** An environment without any key, whose providers are unreachable. *)
Definition offline : Env.t :=
  Env.mk None None None
    (fun _ _ => Provider.FetchRejected "fetch failed")
    (fun _ _ => Provider.FetchRejected "fetch failed")
    (fun _ => None)
    (fun _ _ _ _ _ => None)
    (fun _ _ _ => inl "offline")
    (fun _ _ _ _ => None)
    (fun _ _ => None)
    (fun _ _ _ _ => inl "no report").




(** Mumbai, two observations of influenza three hours apart. *)
Definition threeHours : Z := 3 * 60 * 60 * 1000.

Definition mumbaiWeather : WeatherReading.t := WeatherReading.mk "Mumbai" 0 30 70 10 0.
Definition mumbaiAqi : AqiReading.t := AqiReading.mk "Mumbai" 0 120 72 96 "airvisual".

Definition influenza (activeCases : Q) (medicines : option (list string))
  : GeminiAnalysis.Detected :=
  GeminiAnalysis.mkDetected (Some "Influenza") (Some activeCases) (Some 5)
    (Some "moderate") (Some (15 # 10)) None None medicines None.

Definition reply (detected : GeminiAnalysis.Detected) : GeminiAnalysis.t :=
  GeminiAnalysis.mk (Some [detected]) (Some "seasonal influenza").

(** The reasoning service answers [first] before the third hour and
    [second] from then on; the providers are unreachable. *)
Definition reasoning (first second : GeminiAnalysis.Detected) : Env.t :=
  Env.mk None None (Some "key")
    (fun _ _ => Provider.FetchRejected "fetch failed")
    (fun _ _ => Provider.FetchRejected "fetch failed")
    (fun _ => None)
    (fun now _ _ _ _ => Some (reply (if (now <? threeHours)%Z then first else second)))
    (fun _ _ _ => inr (AgentResponse.mk None None None None))
    (fun _ _ _ _ => None)
    (fun _ _ => None)
    (fun _ _ _ _ => inl "no report").

(** The world after the two observations, from an empty database, at a
    risk score of 45. *)
Definition afterFirst (first second : GeminiAnalysis.Detected) : World.t :=
  snd (PandemicService.analyzeAndCreatePandemicData (reasoning first second)
         0 "Mumbai" mumbaiWeather mumbaiAqi 45 World.empty).

Definition afterSecond (first second : GeminiAnalysis.Detected) : World.t :=
  snd (PandemicService.analyzeAndCreatePandemicData (reasoning first second)
         threeHours "Mumbai" mumbaiWeather mumbaiAqi 45 (afterFirst first second)).

Definition fifty : GeminiAnalysis.Detected := influenza 50 (Some ["Oseltamivir"]).
Definition eighty : GeminiAnalysis.Detected :=
  influenza 80 (Some ["Oseltamivir"; "Paracetamol"]).

(** The first reply names a medicine twice, the second names none. *)
Definition fiftyRepeated : GeminiAnalysis.Detected :=
  influenza 50 (Some ["Oseltamivir"; "Oseltamivir"]).
Definition eightyBare : GeminiAnalysis.Detected := influenza 80 None.


(** Pune: a stored weather reading (30 degrees), no air-quality reading,
    no Air Visual key; the reasoning service answers. *)
Definition puneWeather : WeatherReading.t := WeatherReading.mk "Pune" 0 30 55 8 0.

Definition puneWorld : World.t := World.mk [] [puneWeather] [] [] [] [].

Definition puneEnv : Env.t := reasoning fifty eighty.

(** Both keys set, both providers answering; "Atlantis" is a name the
    city table does not know. *)
Definition online : Env.t :=
  Env.mk (Some "av-key") (Some "owm-key") (Some "key")
    (fun _ _ =>
       Provider.Responded true 200
         (inr (Provider.mkAvBody (Some "success")
                 (Some (Provider.mkAvData
                          (Some (Provider.mkPollution (Some 42) None None None)) None))
                 None)))
    (fun _ _ =>
       Provider.Responded true 200
         (inr (Provider.mkOwmBody (Some (Provider.CodNum 200)) None
                 (Some 21) (Some 60) (Some 3) None None)))
    (fun _ => None)
    (fun _ _ _ _ _ => None)
    (fun _ _ _ => inr (AgentResponse.mk None None None None))
    (fun _ _ _ _ => None)
    (fun _ _ => None)
    (fun _ _ _ _ => inl "no report").

End Scenarios.

(** ** Notions used to state the properties of the services *)

(** Text. *)
Module Text.
Import JS.


(** Where the white space of a string is. *)
Fixpoint whiteSpaceAt (s : string) : list bool :=
  match s with
  | EmptyString => []
  | String c s' => isWhiteSpace c :: whiteSpaceAt s'
  end.

(** No white space at the start, at the end. *)
Definition startsClean (shape : list bool) : bool :=
  match shape with
  | [] => true
  | b :: _ => negb b
  end.

Fixpoint endsClean (shape : list bool) : bool :=
  match shape with
  | [] => true
  | [b] => negb b
  | _ :: rest => endsClean rest
  end.

(** The character [sep] does not occur in [w]. *)
Definition lacks (sep : ascii) (w : string) : bool :=
  allChars (fun c => negb (Ascii.eqb c sep)) w.

End Text.

Module RetryHint.


End RetryHint.

Module Risk.

(** [f] and [g] describe the same day, except that no condition that
    [calculateSurgeProbability] reads is milder in [g]. *)
Definition noMilder (f g : Features.t) : Prop :=
  Features.aqi f <= Features.aqi g
  /\ Features.temperature f <= Features.temperature g
  /\ Features.humidity f <= Features.humidity g
  /\ Features.precipitation f <= Features.precipitation g
  /\ Features.admissionsLast7dAvg f <= Features.admissionsLast7dAvg g
  /\ Features.baselineAdmissions g == Features.baselineAdmissions f
  /\ Features.isFestival g = Features.isFestival f
  /\ Features.festivalMultiplier g == Features.festivalMultiplier f.

End Risk.

Module OutbreakStore.

(** Two records of the same outbreak: same region, same disease. *)
Definition sameOutbreak (a b : PandemicData.t) : Prop :=
  PandemicData.region a = PandemicData.region b
  /\ PandemicData.diseaseName a = PandemicData.diseaseName b.

(** Records of the same outbreak are dated more than 24 hours apart. *)
Definition spaced (l : list PandemicData.t) : Prop :=
  ForallOrdPairs
    (fun a b => sameOutbreak a b ->
       (PandemicData.date a + PandemicService.day < PandemicData.date b)%Z
       \/ (PandemicData.date b + PandemicService.day < PandemicData.date a)%Z) l.

(** What the clean-up of [analyzeAndCreatePandemicData] for [region] at
    [now] may delete: a record of that region from the basic analysis,
    older than 7 days. *)
Definition stale (now : Z) (region : string) (p : PandemicData.t) : bool :=
  String.eqb (PandemicData.region p) region
  && (PandemicData.date p <? now - 7 * 24 * 60 * 60 * 1000)%Z
  && String.eqb (PandemicData.source p) "basic-analysis".

(** The record passes the validation of the schema. *)
Definition valid (r : PandemicData.t) : Prop := PandemicService.validate r = None.

End OutbreakStore.

Module ReadingsFrame.

(** The hospital statistics, the outbreak records and the predictions of
    two worlds agree; readings and the request log may differ. *)
Definition onlyReadings (w w' : World.t) : Prop :=
  World.hospitalStats w' = World.hospitalStats w
  /\ World.pandemicData w' = World.pandemicData w
  /\ World.predictions w' = World.predictions w.

(** The number of readings in the two collections. *)
Definition readingCount (w : World.t) : nat :=
  (List.length (World.aqiReadings w) + List.length (World.weatherReadings w))%nat.

End ReadingsFrame.

Module Responses.

(** A refusal: status 400 or 500 with [success: false], a message and no
    data. *)
Definition refused (r : PredictionRoutes.Response) : Prop :=
  (PredictionRoutes.statusCode r = 400%Z \/ PredictionRoutes.statusCode r = 500%Z)
  /\ PredictionRoutes.success r = false
  /\ PredictionRoutes.responseMessage r <> None
  /\ PredictionRoutes.data r = PredictionRoutes.NoData.

(** A JSON response as the handlers build them: 200 with
    [success: true] and data that is not a file, or a refusal. *)
Definition wellFormed (r : PredictionRoutes.Response) : Prop :=
  (PredictionRoutes.statusCode r = 200%Z
   /\ PredictionRoutes.success r = true
   /\ PredictionRoutes.responseMessage r = None
   /\ forall pdfBuffer, PredictionRoutes.data r <> PredictionRoutes.ReportFile pdfBuffer)
  \/ refused r.

(** What the download handler sends: the file with status 200, or a
    refusal. *)
Definition fileOrRefusal (r : PredictionRoutes.Response) : Prop :=
  (PredictionRoutes.statusCode r = 200%Z
   /\ exists pdfBuffer, PredictionRoutes.data r = PredictionRoutes.ReportFile pdfBuffer)
  \/ refused r.

(** Whenever the body of a handler returns a response, it satisfies [P]. *)
Definition answers (P : PredictionRoutes.Response -> Prop)
    (body : Async.M PredictionRoutes.Response) : Prop :=
  forall w r w', body w = (inr r, w') -> P r.

End Responses.

(** ** aqiScheduler.js: the scheduled update *)
Module AqiScheduler.
Import JS Async.
Local Open Scope async_scope.
Local Open Scope string_scope.
Local Open Scope list_scope.

Definition defaultCities : list string := ["Delhi"; "Mumbai"; "Bangalore"; "Kolkata"].

(** The cities to update; [scheduledCities] is
    [process.env.SCHEDULED_CITIES]. *)
Definition cities (scheduledCities : option string) : list string :=
  match scheduledCities with
  | Some text => if String.eqb text "" then defaultCities else map trim (split "," text)
  | None => defaultCities
  end.

(** One promise of the update with its [.catch]: whether it is fulfilled
    with a reading rather than with [null]. *)
Definition settled {A} (fetch : M A) : M bool :=
  tryCatch (let* _ := fetch in ret true) (fun err => ret false).

(** The callback of [cron.schedule]: both forced fetches for every city.
    The promises are run to completion one after the other, in the order
    in which [flatMap] creates them; the result is [successCount].  No
    promise rejects, so the outer [catch] is never entered. *)
Fixpoint update (env : Env.t) (now : Z) (cities : list string) : M nat :=
  match cities with
  | [] => ret 0%nat
  | city :: rest =>
      let* aqi := settled (DataService.fetchAndStoreAqi env now city "" "India" true) in
      let* weather := settled (DataService.fetchAndStoreWeather env now city true) in
      let* successCount := update env now rest in
      ret (Nat.b2n aqi + Nat.b2n weather + successCount)%nat
  end.

End AqiScheduler.

(** ** Further concrete inputs *)
Module Examples.
Local Open Scope string_scope.
Local Open Scope list_scope.




(** A stored record of influenza in Mumbai. *)
Definition mumbaiInfluenza : PandemicData.t :=
  PandemicData.mk "Mumbai" 0 "Influenza" 50 5 10 1 "moderate" (15 # 10)
    ["adults"] ["fever"] ["Oseltamivir"] (PandemicData.NotesText "seasonal") "gemini-ai".

Definition mumbaiWorld : World.t := World.mk [] [] [] [mumbaiInfluenza] [] [].

End Examples.

(** * The risk scorer *)

Import JS RiskScorer.

Lemma gt_true_iff (a b : Q) : gt a b = true <-> b < a.
Proof.
  unfold gt. pose proof (Qgt_alt a b) as H.
  destruct (a ?= b); split; intro K; try discriminate; try reflexivity.
  - apply H in K. discriminate.
  - apply H in K. discriminate.
  - apply H. reflexivity.
Qed.

Lemma lt_true_iff (a b : Q) : lt a b = true <-> a < b.
Proof.
  unfold lt. rewrite Qlt_alt. destruct (a ?= b); split; congruence.
Qed.

Lemma gt_false_iff (a b : Q) : gt a b = false <-> a <= b.
Proof.
  split; intro H.
  - apply Qnot_lt_le. intro L. apply gt_true_iff in L. congruence.
  - destruct (gt a b) eqn:E; [|reflexivity].
    apply gt_true_iff in E. exfalso. exact (Qlt_not_le _ _ E H).
Qed.

Lemma lt_false_iff (a b : Q) : lt a b = false <-> b <= a.
Proof.
  split; intro H.
  - apply Qnot_lt_le. intro L. apply lt_true_iff in L. congruence.
  - destruct (lt a b) eqn:E; [|reflexivity].
    apply lt_true_iff in E. exfalso. exact (Qlt_not_le _ _ E H).
Qed.

Lemma gt_compat (a a' b b' : Q) : a == a' -> b == b' -> gt a b = gt a' b'.
Proof. intros Ha Hb. unfold gt. now rewrite Ha, Hb. Qed.

Lemma clamp_spec (x : Q) : Math_min 100 (Math_max 0 x) == clamp 0 100 x.
Proof.
  unfold Math_min, Math_max, clamp.
  destruct (lt x 0) eqn:L.
  - apply lt_true_iff in L.
    rewrite Q.max_l by (apply Qlt_le_weak; exact L).
    rewrite Q.min_r by discriminate. reflexivity.
  - apply lt_false_iff in L. rewrite Q.max_r by exact L.
    destruct (gt x 100) eqn:G.
    + apply gt_true_iff in G. rewrite Q.min_l by (apply Qlt_le_weak; exact G). reflexivity.
    + apply gt_false_iff in G. rewrite Q.min_r by exact G. reflexivity.
Qed.

Lemma clamp_bounds (x : Q) : 0 <= clamp 0 100 x <= 100.
Proof.
  unfold clamp. destruct (lt x 0) eqn:L; [split; discriminate|].
  apply lt_false_iff in L.
  destruct (gt x 100) eqn:G; [split; discriminate|].
  apply gt_false_iff in G. split; assumption.
Qed.

Lemma clamp_compat (x y : Q) : x == y -> clamp 0 100 x == clamp 0 100 y.
Proof.
  intro E. unfold clamp.
  assert (L : lt x 0 = lt y 0) by (unfold lt; now rewrite E).
  rewrite L, (gt_compat x y 100 100 E (Qeq_refl _)).
  destruct (lt y 0); [reflexivity|]. destruct (gt y 100); [reflexivity|exact E].
Qed.

(** C1. [calculateSurgeProbability] is a function of the feature record
    alone and agrees on every record with the reference definition (base 20,
    one pollutant tier, the heat, humidity, precipitation, admissions and
    festival bonuses, clamped to [0, 100]); its value lies in [0, 100]; and
    on the Delhi scenario it is exactly 45. *)
Theorem C1_risk_scorer_matches_reference :
  (forall f : Features.t, calculateSurgeProbability f == reference_score f)
  /\ (forall f : Features.t, 0 <= calculateSurgeProbability f <= 100)
  /\ calculateSurgeProbability delhi == 45.
Proof.
  assert (R : forall f, calculateSurgeProbability f == reference_score f).
  { intro f. unfold calculateSurgeProbability, reference_score.
    rewrite clamp_spec. apply clamp_compat.
    unfold pollutant_bonus, bonus.
    rewrite (gt_compat (Features.admissionsLast7dAvg f) (Features.admissionsLast7dAvg f)
               (Features.baselineAdmissions f * (12 # 10))
               ((12 # 10) * Features.baselineAdmissions f))
      by (reflexivity || ring).
    destruct (gt (Features.aqi f) 150), (gt (Features.aqi f) 100), (gt (Features.aqi f) 50),
      (gt (Features.temperature f) 35), (gt (Features.humidity f) 80),
      (gt (Features.precipitation f) 5),
      (gt (Features.admissionsLast7dAvg f) ((12 # 10) * Features.baselineAdmissions f)),
      (Features.isFestival f); ring. }
  split; [exact R|]. split.
  - intro f. rewrite R. apply clamp_bounds.
  - reflexivity.
Qed.

(** * The resilient call executor *)
Section RetryProofs.
Import GeminiRetry.
Context {A : Type}.
Variable apiCall : nat -> ApiError + A.
Variable random : nat -> Q.
Variable options : Options.

Lemma retryableFrom_step a n :
  retryableFrom apiCall a (S n) ->
  (exists e, apiCall a = inl e /\ isRetryable e = true) /\ retryableFrom apiCall (S a) n.
Proof.
  intro H. split.
  - apply H. lia.
  - intros k Hk. apply H. lia.
Qed.

(** After [n] retryable failures within the retry budget the loop stands
    at attempt [a + n], having made [n] calls and slept [n] times. *)
Lemma attempts_skip n : forall fuel a lastError delay,
  retryableFrom apiCall a n ->
  (a + n <= maxRetries options)%nat ->
  exists lastError' delay' slept,
    List.length slept = n /\
    attempts apiCall random options (n + fuel) a lastError delay =
    let rest := attempts apiCall random options fuel (a + n) lastError' delay' in
    mkRun (completion rest) (n + calls rest) (slept ++ sleeps rest).
Proof.
  induction n as [|n IH]; intros fuel a lastError delay Hfail Hle.
  - exists lastError, delay, []. split; [reflexivity|].
    rewrite Nat.add_0_r. simpl. destruct (attempts _ _ _ _ _ _ _); reflexivity.
  - apply retryableFrom_step in Hfail. destruct Hfail as [[e [He Hr]] Hrest].
    simpl attempts. rewrite He, Hr.
    replace (maxRetries options <=? a)%nat with false
      by (symmetry; apply Nat.leb_gt; lia).
    simpl orb. cbv iota.
    destruct (IH fuel (S a) (Some e)
                (Math_min (delay * backoffMultiplier options) (maxDelay options))
                Hrest ltac:(lia)) as [le' [d' [slept [Hlen Heq]]]].
    exists le', d', (sleepTime options e delay (random a) :: slept).
    split; [simpl; now rewrite Hlen|].
    rewrite Heq. replace (S a + n)%nat with (a + S n)%nat by lia.
    reflexivity.
Qed.

Lemma withRetry_success N v :
  retryableFrom apiCall 0 N -> apiCall N = inr v -> (N <= maxRetries options)%nat ->
  completion (withRetry apiCall random options) = Returned v
  /\ calls (withRetry apiCall random options) = S N.
Proof.
  intros Hfail Hok Hle. unfold withRetry.
  replace (S (maxRetries options)) with (N + S (maxRetries options - N))%nat by lia.
  destruct (attempts_skip N (S (maxRetries options - N)) 0 None (initialDelay options)
              Hfail ltac:(lia)) as [le' [d' [slept [_ Heq]]]].
  rewrite Heq. simpl. rewrite Hok. simpl. split; [reflexivity|lia].
Qed.

Lemma withRetry_exhausted N :
  (maxRetries options < N)%nat -> retryableFrom apiCall 0 N ->
  exists e, apiCall (maxRetries options) = inl e
    /\ completion (withRetry apiCall random options) = Threw (Some e)
    /\ calls (withRetry apiCall random options) = S (maxRetries options).
Proof.
  intros Hlt Hfail. unfold withRetry.
  assert (Hpre : retryableFrom apiCall 0 (maxRetries options))
    by (intros k Hk; apply Hfail; lia).
  destruct (Hfail (maxRetries options) ltac:(lia)) as [e [He Hr]].
  exists e. split; [exact He|].
  replace (S (maxRetries options)) with (maxRetries options + 1)%nat by lia.
  destruct (attempts_skip (maxRetries options) 1 0 None (initialDelay options)
              Hpre ltac:(lia)) as [le' [d' [slept [_ Heq]]]].
  rewrite Heq. simpl. rewrite He, Nat.leb_refl. simpl. split; [reflexivity|lia].
Qed.

Lemma withRetry_not_retryable k e :
  (k <= maxRetries options)%nat -> retryableFrom apiCall 0 k ->
  apiCall k = inl e -> isRetryable e = false ->
  completion (withRetry apiCall random options) = Threw (Some e)
  /\ calls (withRetry apiCall random options) = S k
  /\ List.length (sleeps (withRetry apiCall random options)) = k.
Proof.
  intros Hle Hfail He Hr. unfold withRetry.
  replace (S (maxRetries options)) with (k + S (maxRetries options - k))%nat by lia.
  destruct (attempts_skip k (S (maxRetries options - k)) 0 None (initialDelay options)
              Hfail ltac:(lia)) as [le' [d' [slept [Hlen Heq]]]].
  rewrite Heq. simpl. rewrite He, Hr, orb_true_r. simpl.
  rewrite length_app, Hlen. simpl. repeat split; lia.
Qed.

End RetryProofs.

Lemma isRetryable_spec (e : GeminiRetry.ApiError) :
  GeminiRetry.isRetryable e = true <->
  (GeminiRetry.isRateLimit e = true
   \/ (exists st, GeminiRetry.status e = Some st /\ (500 <= st < 600)%Z)
   \/ GeminiRetry.messageIncludes e "timeout" = true
   \/ GeminiRetry.messageIncludes e "fetch" = true).
Proof.
  unfold GeminiRetry.isRetryable, GeminiRetry.statusIs.
  rewrite !orb_true_iff. split.
  - intros [[[H|H]|H]|H]; auto.
    destruct (GeminiRetry.status e) as [st|]; [|discriminate].
    right; left. exists st. split; [reflexivity|].
    apply andb_true_iff in H. destruct H as [H1 H2].
    apply Z.leb_le in H1. apply Z.ltb_lt in H2. lia.
  - intros [H|[[st [Hs Hr]]|[H|H]]]; auto.
    left; left; right. rewrite Hs. apply andb_true_iff. split.
    + apply Z.leb_le. lia.
    + apply Z.ltb_lt. lia.
Qed.

(** C3. A closure that fails [N] times with retryable failures and then
    succeeds: with [maxRetries >= N], [withRetry] returns the success value
    after exactly [N + 1] invocations; with [maxRetries < N] it throws the
    failure of its last attempt, after [maxRetries + 1] invocations.  A
    failure that is not retryable is thrown at once: the invocation that
    produced it is the last one and no sleep follows it.  Retryable are the
    rate-limit signals, the statuses 500..599, and messages that mention a
    timeout or a fetch failure. *)
Theorem C3_withRetry_calls {A : Type}
    (apiCall : nat -> GeminiRetry.ApiError + A) (random : nat -> Q)
    (options : GeminiRetry.Options) (N : nat) :
  GeminiRetry.retryableFrom apiCall 0 N ->
  (forall v, apiCall N = inr v -> (N <= GeminiRetry.maxRetries options)%nat ->
     GeminiRetry.completion (GeminiRetry.withRetry apiCall random options)
       = GeminiRetry.Returned v
     /\ GeminiRetry.calls (GeminiRetry.withRetry apiCall random options) = (N + 1)%nat)
  /\ ((GeminiRetry.maxRetries options < N)%nat ->
      exists e, apiCall (GeminiRetry.maxRetries options) = inl e
        /\ GeminiRetry.completion (GeminiRetry.withRetry apiCall random options)
             = GeminiRetry.Threw (Some e)
        /\ GeminiRetry.calls (GeminiRetry.withRetry apiCall random options)
             = (GeminiRetry.maxRetries options + 1)%nat)
  /\ (forall e, apiCall N = inl e -> GeminiRetry.isRetryable e = false ->
      (N <= GeminiRetry.maxRetries options)%nat ->
      GeminiRetry.completion (GeminiRetry.withRetry apiCall random options)
        = GeminiRetry.Threw (Some e)
      /\ GeminiRetry.calls (GeminiRetry.withRetry apiCall random options) = (N + 1)%nat
      /\ List.length (GeminiRetry.sleeps (GeminiRetry.withRetry apiCall random options)) = N).
Proof.
  intro Hfail. split; [|split].
  - intros v Hv Hle. rewrite Nat.add_1_r. now apply withRetry_success.
  - intro Hlt. rewrite Nat.add_1_r. now apply (withRetry_exhausted apiCall random options N).
  - intros e He Hr Hle. rewrite Nat.add_1_r. now apply withRetry_not_retryable.
Qed.

Lemma C3_withRetry_calls_witness :
  GeminiRetry.completion
    (GeminiRetry.withRetry Scenarios.failsTwice Scenarios.noJitter GeminiRetry.defaultOptions)
  = GeminiRetry.Returned 7%Z
  /\ GeminiRetry.calls
       (GeminiRetry.withRetry Scenarios.failsTwice Scenarios.noJitter GeminiRetry.defaultOptions)
     = 3%nat.
Proof.
  assert (H : GeminiRetry.retryableFrom Scenarios.failsTwice 0 2).
  { intros k Hk. exists Scenarios.unavailable.
    destruct k as [|[|k]]; [split; reflexivity|split; reflexivity|lia]. }
  destruct (C3_withRetry_calls Scenarios.failsTwice Scenarios.noJitter
              GeminiRetry.defaultOptions 2 H) as [Hok _].
  apply (Hok 7%Z); [reflexivity|simpl; lia].
Defined.

Section RetryDelays.
Import GeminiRetry.
Context {A : Type}.
Variable apiCall : nat -> ApiError + A.
Variable random : nat -> Q.
Variable options : Options.

(** The loop entered at attempt [a] with the delay [delayAt a]: its i-th
    sleep follows the failure of attempt [a + i] and is computed from
    [delayAt (a + i)]. *)
Lemma attempts_sleeps fuel : forall a lastError i,
  (i < List.length (sleeps (attempts apiCall random options fuel a lastError
                              (delayAt options a))))%nat ->
  exists e, apiCall (a + i)%nat = inl e /\ isRetryable e = true
    /\ nth_error (sleeps (attempts apiCall random options fuel a lastError
                            (delayAt options a))) i
       = Some (sleepTime options e (delayAt options (a + i)) (random (a + i)%nat)).
Proof.
  induction fuel as [|fuel IH]; intros a lastError i Hi.
  - simpl in Hi. lia.
  - simpl in Hi |- *. destruct (apiCall a) as [e|v] eqn:He; [|simpl in Hi; lia].
    destruct ((maxRetries options <=? a)%nat || negb (isRetryable e)) eqn:Hstop;
      [simpl in Hi; lia|].
    apply orb_false_iff in Hstop. destruct Hstop as [_ Hr].
    apply negb_false_iff in Hr.
    simpl in Hi |- *. destruct i as [|i].
    + exists e. rewrite Nat.add_0_r. repeat split; assumption.
    + change (Math_min (delayAt options a * backoffMultiplier options) (maxDelay options))
        with (delayAt options (S a)) in Hi |- *.
      destruct (IH (S a) (Some e) i ltac:(lia)) as [e' [He' [Hr' Hnth]]].
      exists e'. replace (a + S i)%nat with (S a + i)%nat by lia.
      repeat split; assumption.
Qed.

(** One sleep between two invocations: a run that starts with fuel makes
    one call more than it sleeps. *)
Lemma attempts_calls fuel : forall a lastError delay,
  (fuel + a = maxRetries options)%nat ->
  calls (attempts apiCall random options (S fuel) a lastError delay)
  = S (List.length (sleeps (attempts apiCall random options (S fuel) a lastError delay))).
Proof.
  induction fuel as [|fuel IH]; intros a lastError delay Hfuel.
  - simpl. destruct (apiCall a) as [e|v]; [|reflexivity].
    replace (maxRetries options <=? a)%nat with true
      by (symmetry; apply Nat.leb_le; lia).
    reflexivity.
  - remember (S fuel) as n. simpl. destruct (apiCall a) as [e|v]; [|reflexivity].
    destruct (_ || _); [reflexivity|]. simpl. subst n. rewrite IH by lia. reflexivity.
Qed.

Lemma sleepTime_baseDelay (e : ApiError) (delay rnd : Q) :
  sleepTime options e delay rnd
  = JS.Math_min (baseDelay e delay + rnd * 2000) (maxDelay options).
Proof.
  unfold sleepTime, baseDelay, hintFalsy.
  destruct (getRetryDelay e) as [| |ms].
  - rewrite andb_true_r. destruct (isRateLimit e); reflexivity.
  - rewrite andb_true_r. destruct (isRateLimit e); reflexivity.
  - destruct (ms =? 0)%Z.
    + rewrite andb_true_r. destruct (isRateLimit e); reflexivity.
    + rewrite andb_false_r. reflexivity.
Qed.

Lemma sleepTime_le_maxDelay (e : ApiError) (delay rnd : Q) :
  sleepTime options e delay rnd <= maxDelay options.
Proof. rewrite sleepTime_baseDelay. apply Q.le_min_r. Qed.

End RetryDelays.

Lemma jitter_range (rnd : Q) : 0 <= rnd < 1 -> 0 <= rnd * 2000 < 2000.
Proof.
  intros [H0 H1]. split.
  - apply Qmult_le_0_compat; [exact H0|discriminate].
  - setoid_replace 2000 with (1 * 2000) at 2 by ring.
    apply Qmult_lt_compat_r; [reflexivity|exact H1].
Qed.

(** C8, as the code has it.  In every run of [withRetry] the k-th sleep
    follows the retryable failure of attempt k and lasts
    [min (base + jitter, maxDelay)], where the jitter is [Math.random()]
    times 2000, hence in [0, 2000), and the base is the provider's hint
    when the payload has one that parses to a non-zero number of
    milliseconds, and otherwise (no hint, a hint of zero, a hint that does
    not parse) the exponential delay of attempt k, times 1.5 after a
    rate-limit failure.  The exponential delay starts at [initialDelay]
    and after each retry is multiplied by [backoffMultiplier] and capped at
    [maxDelay].  There is one sleep between two invocations of the
    closure. *)
Theorem C8_retry_delay_schedule {A : Type}
    (apiCall : nat -> GeminiRetry.ApiError + A) (random : nat -> Q)
    (options : GeminiRetry.Options) :
  (forall k,
     (k < List.length (GeminiRetry.sleeps (GeminiRetry.withRetry apiCall random options)))%nat ->
     exists e, apiCall k = inl e /\ GeminiRetry.isRetryable e = true
       /\ nth_error (GeminiRetry.sleeps (GeminiRetry.withRetry apiCall random options)) k
          = Some (Math_min (GeminiRetry.baseDelay e (GeminiRetry.delayAt options k)
                            + random k * 2000)
                           (GeminiRetry.maxDelay options)))
  /\ GeminiRetry.calls (GeminiRetry.withRetry apiCall random options)
     = S (List.length (GeminiRetry.sleeps (GeminiRetry.withRetry apiCall random options)))
  /\ (forall e delay,
        (forall ms, GeminiRetry.getRetryDelay e = GeminiRetry.HintMs ms -> ms <> 0%Z ->
           GeminiRetry.baseDelay e delay = inject_Z ms)
        /\ ((forall ms, GeminiRetry.getRetryDelay e = GeminiRetry.HintMs ms -> ms = 0%Z) ->
            GeminiRetry.baseDelay e delay
            = if GeminiRetry.isRateLimit e then delay * (15 # 10) else delay))
  /\ (forall rnd, 0 <= rnd < 1 -> 0 <= rnd * 2000 < 2000)
  /\ (forall e delay rnd,
        GeminiRetry.sleepTime options e delay rnd <= GeminiRetry.maxDelay options)
  /\ GeminiRetry.delayAt options 0 = GeminiRetry.initialDelay options
  /\ (forall k, GeminiRetry.delayAt options (S k)
                = Math_min (GeminiRetry.delayAt options k * GeminiRetry.backoffMultiplier options)
                           (GeminiRetry.maxDelay options)).
Proof.
  split; [|split; [|split; [|split; [|split; [|split]]]]].
  - intros k Hk. unfold GeminiRetry.withRetry in *.
    change (GeminiRetry.initialDelay options) with (GeminiRetry.delayAt options 0) in *.
    destruct (attempts_sleeps apiCall random options _ 0 None k Hk) as [e [He [Hr Hn]]].
    exists e. simpl in He, Hn. rewrite <- sleepTime_baseDelay. repeat split; assumption.
  - apply attempts_calls. lia.
  - intros e delay. unfold GeminiRetry.baseDelay. split.
    + intros ms Hms Hnz. rewrite Hms.
      destruct (ms =? 0)%Z eqn:E; [apply Z.eqb_eq in E; contradiction|reflexivity].
    + intro Hz. destruct (GeminiRetry.getRetryDelay e) as [| |ms]; try reflexivity.
      rewrite (Hz ms eq_refl). reflexivity.
  - exact jitter_range.
  - intros. apply sleepTime_le_maxDelay.
  - reflexivity.
  - reflexivity.
Qed.

(** C8 as stated fails on a hint of zero seconds: the payload carries the
    hint "0s", yet the sleep is the exponential delay of 2000 ms and not
    the hint. *)
Lemma C8_zero_hint_counterexample :
  GeminiRetry.getRetryDelay Scenarios.zeroHint = GeminiRetry.HintMs 0
  /\ GeminiRetry.isRetryable Scenarios.zeroHint = true
  /\ GeminiRetry.sleeps
       (GeminiRetry.withRetry (Scenarios.failsOnce Scenarios.zeroHint) Scenarios.noJitter
          GeminiRetry.defaultOptions)
     = [GeminiRetry.sleepTime GeminiRetry.defaultOptions Scenarios.zeroHint 2000 0]
  /\ GeminiRetry.sleepTime GeminiRetry.defaultOptions Scenarios.zeroHint 2000 0 == 2000
  /\ GeminiRetry.statedSleep GeminiRetry.defaultOptions Scenarios.zeroHint 2000 0 == 0
  /\ ~ GeminiRetry.sleepTime GeminiRetry.defaultOptions Scenarios.zeroHint 2000 0
       == GeminiRetry.statedSleep GeminiRetry.defaultOptions Scenarios.zeroHint 2000 0.
Proof.
  repeat split; try reflexivity. intro H. vm_compute in H. discriminate.
Qed.

(** * The freshness cache *)
Section Newest.
Context {A : Type}.
Variable ts : A -> Z.

Lemma newest_spec (l : list A) : forall best r,
  DataService.newest ts best l = Some r ->
  (best = Some r \/ In r l)
  /\ (forall x, In x l -> (ts x <= ts r)%Z)
  /\ (forall b, best = Some b -> (ts b <= ts r)%Z).
Proof.
  induction l as [|x l IH]; intros best r H; simpl in H.
  - subst best. split; [left; reflexivity|]. split; [intros x []|].
    intros b Hb. injection Hb as ->. lia.
  - destruct best as [b|].
    + destruct (ts b <? ts x)%Z eqn:E.
      * apply IH in H. destruct H as [Hin [Hmax Hbest]].
        apply Z.ltb_lt in E. specialize (Hbest x eq_refl).
        split; [right; destruct Hin as [Hin|Hin]; [left; congruence|right; exact Hin]|].
        split.
        -- intros y [<-|Hy]; [exact Hbest|now apply Hmax].
        -- intros b' Hb'. injection Hb' as <-. lia.
      * apply IH in H. destruct H as [Hin [Hmax Hbest]].
        apply Z.ltb_ge in E. specialize (Hbest b eq_refl).
        split; [destruct Hin as [Hin|Hin]; [left; exact Hin|right; right; exact Hin]|].
        split.
        -- intros y [<-|Hy]; [lia|now apply Hmax].
        -- intros b' Hb'. injection Hb' as <-. exact Hbest.
    + apply IH in H. destruct H as [Hin [Hmax Hbest]].
      specialize (Hbest x eq_refl).
      split; [right; destruct Hin as [Hin|Hin]; [left; congruence|right; exact Hin]|].
      split.
      * intros y [<-|Hy]; [exact Hbest|now apply Hmax].
      * intros b' Hb'. discriminate.
Qed.

End Newest.



Lemma eqb_empty_false (s : string) : s <> EmptyString -> String.eqb s EmptyString = false.
Proof. intro H. now apply String.eqb_neq. Qed.

Lemma fetchAndStoreAqi_cached env now cityName state country w r :
  cityName <> EmptyString ->
  DataService.findLatestAqi cityName w = Some r ->
  DataService.ageHours now (AqiReading.timestamp r) < 6 ->
  DataService.fetchAndStoreAqi env now cityName state country false w = (inr r, w).
Proof.
  intros Hne Hfind Hage. unfold DataService.fetchAndStoreAqi.
  rewrite (eqb_empty_false _ Hne). unfold Async.bind, Async.get. cbn [negb]. cbv beta iota.
  rewrite Hfind. apply lt_true_iff in Hage. rewrite Hage. reflexivity.
Qed.

Lemma fetchAndStoreWeather_cached env now cityName w r :
  cityName <> EmptyString ->
  DataService.findLatestWeather cityName w = Some r ->
  DataService.ageHours now (WeatherReading.timestamp r) < 6 ->
  DataService.fetchAndStoreWeather env now cityName false w = (inr r, w).
Proof.
  intros Hne Hfind Hage. unfold DataService.fetchAndStoreWeather.
  rewrite (eqb_empty_false _ Hne). unfold Async.bind, Async.get. cbn [negb]. cbv beta iota.
  rewrite Hfind. apply lt_true_iff in Hage. rewrite Hage. reflexivity.
Qed.

(** Case analysis on whatever the goal branches on. *)
Ltac break_match :=
  match goal with
  | |- context [match ?x with _ => _ end] => destruct x eqn:?
  end.

Ltac unfold_async :=
  unfold Async.bind, Async.get, Async.modify, Async.tryCatch, Async.throw, Async.ret in *.

Lemma sameStores_refl w : Frame.sameStores w w.
Proof. repeat split. Qed.

Lemma sameStores_trans w1 w2 w3 :
  Frame.sameStores w1 w2 -> Frame.sameStores w2 w3 -> Frame.sameStores w1 w3.
Proof.
  unfold Frame.sameStores. intros (a & b & c & d & e) (a' & b' & c' & d' & e').
  repeat split; congruence.
Qed.

Lemma sameStores_log w request : Frame.sameStores w (World.logRequest request w).
Proof. repeat split. Qed.

Lemma calledOut_log w request : Frame.calledOut w (World.logRequest request w).
Proof. exists request, []. reflexivity. Qed.

Lemma calledOut_log2 w r1 r2 :
  Frame.calledOut w (World.logRequest r2 (World.logRequest r1 w)).
Proof. exists r1, [r2]. simpl. now rewrite <- app_assoc. Qed.

Create HintDb frame.

#[local] Hint Resolve sameStores_refl sameStores_log calledOut_log calledOut_log2 : frame.

Lemma airVisualExchange_frame env now coords w :
  exists response w',
    DataService.airVisualExchange env now coords w = (inr response, w')
    /\ Frame.sameStores w w' /\ Frame.calledOut w w'.
Proof.
  unfold DataService.airVisualExchange, DataService.fetch. unfold_async.
  repeat break_match;
    repeat match goal with H : (_, _) = (_, _) |- _ => inversion H; subst; clear H end;
    try discriminate;
    eexists; eexists; (split; [reflexivity|]); split; auto with frame;
    repeat split.
Qed.

Lemma readAirVisual_world response w :
  snd (DataService.readAirVisual response w) = w.
Proof.
  unfold DataService.readAirVisual. unfold_async. repeat break_match; reflexivity.
Qed.

Lemma readWeather_world response w :
  snd (DataService.readWeather response w) = w.
Proof.
  unfold DataService.readWeather. unfold_async. repeat break_match; reflexivity.
Qed.

(** What a call of [fetchAndStoreAqi] can do to the world: serve the
    cached reading and touch nothing; fail, leaving every collection as it
    was; or append one reading, after at least one provider request. *)
Lemma fetchAndStoreAqi_outcome env now cityName state country force w :
  match DataService.fetchAndStoreAqi env now cityName state country force w with
  | (inl e, w') => Frame.sameStores w w'
  | (inr r, w') =>
      (force = false /\ w' = w /\ DataService.findLatestAqi cityName w = Some r)
      \/ (exists w1, Frame.sameStores w w1 /\ Frame.calledOut w w1
                     /\ w' = World.saveAqi r w1
                     /\ AqiReading.location r = cityName
                     /\ AqiReading.source r = "airvisual"%string)
  end.
Proof.
  unfold DataService.fetchAndStoreAqi.
  destruct (String.eqb cityName "") eqn:Hcity; [apply sameStores_refl|].
  unfold_async.
  destruct (if negb force then _ else None) as [cached|] eqn:Hcached.
  - left. destruct force; [discriminate|]. simpl in Hcached.
    destruct (DataService.findLatestAqi cityName w) as [r|]; [|discriminate].
    destruct (lt _ 6); [|discriminate]. injection Hcached as <-. auto.
  - destruct (negb (truthy_str (Env.AIR_VISUAL_API_KEY env))); [apply sameStores_refl|].
    destruct (airVisualExchange_frame env now
                (DataService.getCityCoordinates env cityName state country) w)
      as (response & w1 & E & Hs & Hc).
    rewrite E.
    pose proof (readAirVisual_world response w1) as Hw.
    destruct (DataService.readAirVisual response w1) as [[e|[[[aqi pm25] pm10]|]] w2];
      simpl in Hw; subst w2; try exact Hs.
    right. exists w1. repeat split; try apply Hs; exact Hc.
Qed.

Lemma fetchAndStoreWeather_outcome env now cityName force w :
  match DataService.fetchAndStoreWeather env now cityName force w with
  | (inl e, w') => Frame.sameStores w w'
  | (inr r, w') =>
      (force = false /\ w' = w /\ DataService.findLatestWeather cityName w = Some r)
      \/ (w' = World.saveWeather r
                 (World.logRequest (Provider.OpenWeatherMap cityName) w)
          /\ WeatherReading.location r = cityName)
  end.
Proof.
  unfold DataService.fetchAndStoreWeather.
  destruct (String.eqb cityName "") eqn:Hcity; [apply sameStores_refl|].
  unfold_async.
  destruct (if negb force then _ else None) as [cached|] eqn:Hcached.
  - left. destruct force; [discriminate|]. simpl in Hcached.
    destruct (DataService.findLatestWeather cityName w) as [r|]; [|discriminate].
    destruct (lt _ 6); [|discriminate]. injection Hcached as <-. auto.
  - destruct (negb (truthy_str (Env.WEATHER_API_KEY env))); [apply sameStores_refl|].
    unfold DataService.fetch. unfold_async.
    pose proof (readWeather_world
                  (Env.openWeatherMap env now (Provider.OpenWeatherMap cityName))
                  (World.logRequest (Provider.OpenWeatherMap cityName) w)) as Hw.
    destruct (DataService.readWeather _ _) as [[e|[[[t h] ws] pr]] w2];
      simpl in Hw; subst w2.
    + apply sameStores_log.
    + right. split; reflexivity.
Qed.


Lemma fetchAndStoreWeather_forced_calls env now cityName w :
  cityName <> EmptyString ->
  truthy_str (Env.WEATHER_API_KEY env) = true ->
  World.network (snd (DataService.fetchAndStoreWeather env now cityName true w))
  = World.network w ++ [Provider.OpenWeatherMap cityName].
Proof.
  intros Hne Hkey. unfold DataService.fetchAndStoreWeather.
  rewrite (eqb_empty_false _ Hne). unfold_async. cbn [negb]. cbv beta iota.
  rewrite Hkey. cbn [negb]. cbv beta iota.
  unfold DataService.fetch. unfold_async.
  pose proof (readWeather_world
                (Env.openWeatherMap env now (Provider.OpenWeatherMap cityName))
                (World.logRequest (Provider.OpenWeatherMap cityName) w)) as Hw.
  destruct (DataService.readWeather _ _) as [[e|[[[t h] ws] pr]] w2];
    simpl in Hw; subst w2; reflexivity.
Qed.




(** * The outbreak reconciler *)

Lemma Qmax_cases (a b : Q) : Qmax a b = a \/ Qmax a b = b.
Proof.
  unfold Qmax, GenericMinMax.gmax. destruct (a ?= b); auto.
Qed.

Lemma Qmax_same (a : Q) : Qmax a a = a.
Proof. destruct (Qmax_cases a a); assumption. Qed.

Lemma Qmax_absorb (a b : Q) : Qmax (Qmax a b) b = Qmax a b.
Proof.
  unfold Qmax, GenericMinMax.gmax.
  destruct (a ?= b) eqn:E; rewrite ?E; try reflexivity.
  now rewrite (proj1 (Qeq_alt b b) (Qeq_refl b)).
Qed.

Lemma Math_round_integer (z : Z) : Math_round (inject_Z z) = inject_Z z.
Proof.
  unfold Math_round, inject_Z, Qfloor, Qplus. simpl Qnum. simpl Qden.
  f_equal. rewrite Z.mul_1_l.
  change (Z.pos (1 * 2)) with 2%Z. rewrite Z.div_add_l by lia.
  change (1 / 2)%Z with 0%Z. apply Z.add_0_r.
Qed.

Lemma Math_round_is_integer (x : Q) : exists z, Math_round x = inject_Z z.
Proof. eexists. reflexivity. Qed.

(** The step [old := max old (round (new || old))] reaches its fixed point
    at once. *)
Lemma max_step_idempotent (new : option Q) (old : Q) :
  let step v := Math_max v (Math_round (or_num new v)) in
  step (step old) = step old.
Proof.
  unfold Math_max, or_num. simpl.
  destruct new as [q|]; [destruct (Qeq_bool q 0)|].
  - destruct (Qmax_cases old (Math_round old)) as [E|E]; rewrite E.
    + exact E.
    + destruct (Math_round_is_integer old) as [z Hz]. rewrite Hz.
      rewrite Math_round_integer. apply Qmax_same.
  - apply Qmax_absorb.
  - destruct (Qmax_cases old (Math_round old)) as [E|E]; rewrite E.
    + exact E.
    + destruct (Math_round_is_integer old) as [z Hz]. rewrite Hz.
      rewrite Math_round_integer. apply Qmax_same.
Qed.

Lemma or_num_idempotent (new : option Q) (old : Q) :
  or_num new (or_num new old) = or_num new old.
Proof. unfold or_num. destruct new as [q|]; [destruct (Qeq_bool q 0)|]; reflexivity. Qed.

Lemma or_str_idempotent (new : option string) (old : string) :
  or_str new (or_str new old) = or_str new old.
Proof.
  unfold or_str. destruct new as [s|]; [destruct (String.eqb s "")|]; reflexivity.
Qed.

(** ** Sets as insertion-ordered lists *)
Section SetLemmas.

Lemma Set_has_In set x : Set_has set x = true <-> In x set.
Proof.
  unfold Set_has. rewrite existsb_exists. split.
  - intros [y [Hy E]]. apply String.eqb_eq in E. now subst.
  - intro H. exists x. split; [exact H|apply String.eqb_refl].
Qed.

Lemma Set_add_In set x y : In y (Set_add set x) <-> In y set \/ y = x.
Proof.
  unfold Set_add. destruct (Set_has set x) eqn:E.
  - apply Set_has_In in E. split; [auto|]. intros [H | ->]; assumption.
  - rewrite in_app_iff. simpl. intuition (subst; auto).
Qed.

Lemma Set_add_NoDup set x : NoDup set -> NoDup (Set_add set x).
Proof.
  intro H. unfold Set_add. destruct (Set_has set x) eqn:E; [exact H|].
  apply NoDup_app; [exact H|repeat constructor; intros []|].
  intros y Hy [<-|[]]. apply Set_has_In in Hy. congruence.
Qed.

Lemma addAll_cons set x items :
  addAll set (x :: items) = addAll (Set_add set x) items.
Proof. reflexivity. Qed.

Lemma addAll_In items : forall set y,
  In y (addAll set items) <-> In y set \/ In y items.
Proof.
  induction items as [|x items IH]; intros set y.
  - simpl. tauto.
  - rewrite addAll_cons, IH, Set_add_In. simpl. intuition (subst; auto).
Qed.

Lemma addAll_NoDup items : forall set, NoDup set -> NoDup (addAll set items).
Proof.
  induction items as [|x items IH]; intros set H; [exact H|].
  rewrite addAll_cons. apply IH. now apply Set_add_NoDup.
Qed.

Lemma addAll_subset items : forall set,
  (forall x, In x items -> In x set) -> addAll set items = set.
Proof.
  induction items as [|x items IH]; intros set H; [reflexivity|].
  rewrite addAll_cons. unfold Set_add.
  rewrite (proj2 (Set_has_In set x)) by (apply H; now left).
  apply IH. intros y Hy. apply H. now right.
Qed.

Lemma addAll_fresh items : forall set,
  NoDup (set ++ items) -> addAll set items = set ++ items.
Proof.
  induction items as [|x items IH]; intros set H.
  - unfold addAll. simpl. now rewrite app_nil_r.
  - rewrite addAll_cons. unfold Set_add.
    destruct (Set_has set x) eqn:E.
    + apply Set_has_In in E. apply NoDup_remove_2 in H.
      exfalso. apply H. apply in_or_app. now left.
    + rewrite IH; rewrite <- app_assoc; [reflexivity|exact H].
Qed.

Lemma newSet_NoDup l : NoDup (newSet l).
Proof. apply addAll_NoDup. constructor. Qed.

Lemma newSet_In l x : In x (newSet l) <-> In x l.
Proof.
  unfold newSet. change (fold_left Set_add l []) with (addAll [] l).
  rewrite addAll_In. simpl. tauto.
Qed.

(** Adding the second list again changes nothing. *)
Lemma newSet_union_again old new :
  newSet (newSet (old ++ new) ++ new) = newSet (old ++ new).
Proof.
  unfold newSet at 1. rewrite fold_left_app.
  change (fold_left Set_add (newSet (old ++ new)) []) with (addAll [] (newSet (old ++ new))).
  rewrite addAll_fresh by (simpl; apply newSet_NoDup). simpl.
  apply addAll_subset. intros x Hx. apply newSet_In. apply in_or_app. now right.
Qed.

End SetLemmas.

(** ** Creating and merging one record *)

Lemma newRecord_withinBounds now region surgeProbability analysis pandemic :
  Outbreak.withinBounds
    (PandemicService.newRecord now region surgeProbability analysis pandemic).
Proof.
  unfold Outbreak.withinBounds, PandemicService.newRecord, Math_max, Math_min. simpl.
  repeat split; try apply Q.le_max_l.
  - apply Q.min_glb; [discriminate|apply Q.le_max_l].
  - apply Q.le_min_l.
Qed.

Lemma mergeInto_sameDocument existing pandemic :
  Outbreak.sameDocument existing (PandemicService.mergeInto existing pandemic).
Proof. repeat split. Qed.

Lemma sameDocument_trans r0 r1 r2 :
  Outbreak.sameDocument r0 r1 -> Outbreak.sameDocument r1 r2 -> Outbreak.sameDocument r0 r2.
Proof.
  unfold Outbreak.sameDocument. intros (a & b & c & d) (a' & b' & c' & d').
  repeat split; congruence.
Qed.

Lemma sameDocument_refl r : Outbreak.sameDocument r r.
Proof. repeat split. Qed.

Lemma rateInRange_spec r : PandemicData.rateInRange r = true <-> 0 <= r <= 10.
Proof.
  unfold PandemicData.rateInRange. rewrite andb_true_iff, !Qle_bool_iff. tauto.
Qed.

Lemma mergeInto_withinBounds existing pandemic :
  Outbreak.withinBounds existing ->
  PandemicService.validateModified existing (PandemicService.mergeInto existing pandemic) = None ->
  Outbreak.withinBounds (PandemicService.mergeInto existing pandemic).
Proof.
  intros (Ha & Hn & Hr) Hv. unfold Outbreak.withinBounds. simpl.
  split; [|split].
  - eapply Qle_trans; [exact Ha|apply Q.le_max_l].
  - eapply Qle_trans; [exact Hn|apply Q.le_max_l].
  - unfold PandemicService.validateModified in Hv. simpl in Hv.
    destruct (_ && negb (PandemicData.inEnum _)); [discriminate|].
    destruct (Qeq_bool _ (PandemicData.transmissionRate existing)) eqn:E.
    + apply Qeq_bool_iff in E. rewrite E. exact Hr.
    + simpl in Hv. destruct (PandemicData.rateInRange _) eqn:R; [|discriminate].
      now apply rateInRange_spec.
Qed.

Lemma mergeInto_idempotent existing pandemic :
  PandemicService.mergeInto (PandemicService.mergeInto existing pandemic) pandemic
  = PandemicService.mergeInto existing pandemic.
Proof.
  unfold PandemicService.mergeInto. simpl.
  rewrite (max_step_idempotent (GeminiAnalysis.activeCases pandemic)
             (PandemicData.activeCases existing)).
  rewrite (max_step_idempotent (GeminiAnalysis.newCasesLast24h pandemic)
             (PandemicData.newCases existing)).
  rewrite or_str_idempotent, or_num_idempotent.
  destruct (GeminiAnalysis.requiredMedicines pandemic) as [[|m ms]|]; try reflexivity.
  now rewrite newSet_union_again.
Qed.

Lemma validateModified_same r : PandemicService.validateModified r r = None.
Proof.
  unfold PandemicService.validateModified.
  rewrite String.eqb_refl, (proj2 (Qeq_bool_iff _ _) (Qeq_refl _)). reflexivity.
Qed.

Lemma isRecent_mergeInto now region name existing pandemic :
  PandemicService.isRecent now region name (PandemicService.mergeInto existing pandemic)
  = PandemicService.isRecent now region name existing.
Proof. reflexivity. Qed.

(** ** [findOne] and [replaceFirst] *)
Section FindReplace.
Variable f : PandemicData.t -> bool.

Lemma findOne_Some l e : PandemicService.findOne f l = Some e -> In e l /\ f e = true.
Proof.
  induction l as [|p l IH]; simpl; [discriminate|].
  destruct (f p) eqn:E.
  - intro H. injection H as <-. auto.
  - intro H. apply IH in H. tauto.
Qed.

Lemma replaceFirst_length new l :
  List.length (PandemicService.replaceFirst f new l) = List.length l.
Proof.
  induction l as [|p l IH]; simpl; [reflexivity|].
  destruct (f p); simpl; congruence.
Qed.

Lemma replaceFirst_In new l r :
  In r (PandemicService.replaceFirst f new l) -> r = new \/ In r l.
Proof.
  induction l as [|p l IH]; simpl; [tauto|].
  destruct (f p); simpl; intuition.
Qed.

Lemma findOne_replaceFirst new l e :
  f new = true -> PandemicService.findOne f l = Some e ->
  PandemicService.findOne f (PandemicService.replaceFirst f new l) = Some new.
Proof.
  intro Hnew. induction l as [|p l IH]; simpl; [discriminate|].
  destruct (f p) eqn:E; simpl.
  - now rewrite Hnew.
  - rewrite E. exact IH.
Qed.

Lemma replaceFirst_again new l :
  f new = true ->
  PandemicService.replaceFirst f new (PandemicService.replaceFirst f new l)
  = PandemicService.replaceFirst f new l.
Proof.
  intro Hnew. induction l as [|p l IH]; simpl; [reflexivity|].
  destruct (f p) eqn:E; simpl.
  - now rewrite Hnew.
  - rewrite E. now f_equal.
Qed.

(** The documents before the replaced one, and after it, stay. *)
Lemma replaceFirst_others new l e :
  PandemicService.findOne f l = Some e ->
  exists before after,
    l = before ++ e :: after
    /\ PandemicService.replaceFirst f new l = before ++ new :: after
    /\ forall p, In p before -> f p = false.
Proof.
  induction l as [|p l IH]; simpl; [discriminate|].
  destruct (f p) eqn:E.
  - intro H. injection H as <-. exists [], l. repeat split. intros q [].
  - intro H. destruct (IH H) as (before & after & H1 & H2 & H3).
    exists (p :: before), after. simpl. rewrite <- H1, H2. repeat split.
    intros q [<-|Hq]; auto.
Qed.

End FindReplace.

(** ** One detection *)

Lemma reconcileOne_update now region sp analysis pandemic records w existing :
  PandemicService.findOne
    (PandemicService.isRecent now region (GeminiAnalysis.diseaseName pandemic))
    (World.pandemicData w) = Some existing ->
  PandemicService.validateModified existing (PandemicService.mergeInto existing pandemic) = None ->
  PandemicService.reconcileOne now region sp analysis pandemic records w
  = (inr records,
     World.setPandemicData
       (PandemicService.replaceFirst
          (PandemicService.isRecent now region (GeminiAnalysis.diseaseName pandemic))
          (PandemicService.mergeInto existing pandemic) (World.pandemicData w)) w).
Proof.
  intros Hfind Hvalid. unfold PandemicService.reconcileOne. unfold_async.
  rewrite Hfind, Hvalid. reflexivity.
Qed.

Lemma reconcileOne_rejected now region sp analysis pandemic records w existing e :
  PandemicService.findOne
    (PandemicService.isRecent now region (GeminiAnalysis.diseaseName pandemic))
    (World.pandemicData w) = Some existing ->
  PandemicService.validateModified existing (PandemicService.mergeInto existing pandemic)
    = Some e ->
  PandemicService.reconcileOne now region sp analysis pandemic records w = (inl e, w).
Proof.
  intros Hfind Hvalid. unfold PandemicService.reconcileOne. unfold_async.
  rewrite Hfind, Hvalid. reflexivity.
Qed.

Lemma reconcileOne_create now region sp analysis pandemic records w :
  PandemicService.findOne
    (PandemicService.isRecent now region (GeminiAnalysis.diseaseName pandemic))
    (World.pandemicData w) = None ->
  PandemicService.reconcileOne now region sp analysis pandemic records w
  = match PandemicService.validate (PandemicService.newRecord now region sp analysis pandemic) with
    | Some e => (inl e, w)
    | None =>
        (inr (records ++ [PandemicService.newRecord now region sp analysis pandemic]),
         World.setPandemicData
           (World.pandemicData w ++ [PandemicService.newRecord now region sp analysis pandemic])
           w)
    end.
Proof.
  intro Hfind. unfold PandemicService.reconcileOne, PandemicService.createPandemicData.
  unfold_async. rewrite Hfind.
  destruct (PandemicService.validate _); reflexivity.
Qed.

(** ** The loop and the whole reconciliation *)

Lemma onlyPandemicData_refl w : Frame.onlyPandemicData w w.
Proof. repeat split. Qed.

Lemma onlyPandemicData_set l w : Frame.onlyPandemicData w (World.setPandemicData l w).
Proof. repeat split. Qed.

Lemma onlyPandemicData_trans w1 w2 w3 :
  Frame.onlyPandemicData w1 w2 -> Frame.onlyPandemicData w2 w3 ->
  Frame.onlyPandemicData w1 w3.
Proof.
  unfold Frame.onlyPandemicData. intros (a & b & c & d & e) (a' & b' & c' & d' & e').
  repeat split; congruence.
Qed.

Lemma reconciled_refl store : Outbreak.reconciled store store.
Proof.
  exists store, []. split; [now rewrite app_nil_r|]. split; [|constructor].
  induction store as [|r store IH]; constructor; [apply sameDocument_refl|exact IH].
Qed.

(** Replacing one document of a reconciled collection by its merge. *)
Lemma reconciled_merge store0 before existing after pandemic :
  Outbreak.reconciled store0 (before ++ existing :: after) ->
  PandemicService.validateModified existing (PandemicService.mergeInto existing pandemic)
    = None ->
  Outbreak.reconciled store0
    (before ++ PandemicService.mergeInto existing pandemic :: after).
Proof.
  intros (kept & created & Heq & Hkept & Hcreated) Hvalid.
  symmetry in Heq. apply app_eq_app in Heq. destruct Heq as [l [[Hb Hc]|[Hk Hc]]].
  - destruct l as [|x l].
    + rewrite app_nil_r in Hb. simpl in Hc. subst before created.
      exists kept, (PandemicService.mergeInto existing pandemic :: after).
      split; [reflexivity|]. split; [exact Hkept|].
      inversion Hcreated; subst. constructor; [now apply mergeInto_withinBounds|assumption].
    + simpl in Hc. injection Hc as <- ->. subst kept.
      exists (before ++ PandemicService.mergeInto existing pandemic :: l), created.
      split; [now rewrite <- app_assoc|]. split; [|exact Hcreated].
      apply Forall2_app_inv_r in Hkept.
      destruct Hkept as (s1 & s2 & H1 & H2 & ->).
      inversion H2 as [|x0 y s2' l' Hx Hl]; subst.
      apply Forall2_app; [exact H1|]. constructor; [|exact Hl].
      eapply sameDocument_trans; [exact Hx|apply mergeInto_sameDocument].
  - subst before created.
    exists kept, (l ++ PandemicService.mergeInto existing pandemic :: after).
    split; [now rewrite <- app_assoc|]. split; [exact Hkept|].
    apply Forall_app in Hcreated. destruct Hcreated as [Hl Hrest].
    apply Forall_app. split; [exact Hl|].
    inversion Hrest; subst. constructor; [now apply mergeInto_withinBounds|assumption].
Qed.

Lemma reconcileOne_inv store0 now region sp analysis pandemic records w :
  Outbreak.reconciled store0 (World.pandemicData w) ->
  Forall Outbreak.withinBounds records ->
  Outbreak.reconciled store0
    (World.pandemicData (snd (PandemicService.reconcileOne now region sp analysis pandemic
                                records w)))
  /\ Frame.onlyPandemicData w
       (snd (PandemicService.reconcileOne now region sp analysis pandemic records w))
  /\ forall records',
       fst (PandemicService.reconcileOne now region sp analysis pandemic records w)
         = inr records' ->
       Forall Outbreak.withinBounds records'.
Proof.
  intros Hinv Hrec.
  destruct (PandemicService.findOne
              (PandemicService.isRecent now region (GeminiAnalysis.diseaseName pandemic))
              (World.pandemicData w)) as [existing|] eqn:Hfind.
  - destruct (PandemicService.validateModified existing
                (PandemicService.mergeInto existing pandemic)) as [e|] eqn:Hvalid.
    + rewrite (reconcileOne_rejected _ _ _ _ _ _ _ _ _ Hfind Hvalid). simpl.
      split; [exact Hinv|]. split; [apply onlyPandemicData_refl|discriminate].
    + rewrite (reconcileOne_update _ _ _ _ _ _ _ _ Hfind Hvalid). simpl.
      split; [|split; [apply onlyPandemicData_set|]].
      * destruct (replaceFirst_others _ (PandemicService.mergeInto existing pandemic) _ _
                    Hfind) as (before & after & H1 & H2 & _).
        rewrite H2. rewrite H1 in Hinv. now apply reconciled_merge.
      * intros records' H. injection H as <-. exact Hrec.
  - rewrite (reconcileOne_create _ _ _ _ _ _ _ Hfind).
    destruct (PandemicService.validate _) as [e|]; simpl.
    + split; [exact Hinv|]. split; [apply onlyPandemicData_refl|discriminate].
    + split; [|split; [apply onlyPandemicData_set|]].
      * destruct Hinv as (kept & created & -> & Hkept & Hcreated).
        exists kept, (created ++ [PandemicService.newRecord now region sp analysis pandemic]).
        split; [now rewrite <- app_assoc|]. split; [exact Hkept|].
        apply Forall_app. split; [exact Hcreated|].
        constructor; [apply newRecord_withinBounds|constructor].
      * intros records' H. injection H as <-. apply Forall_app. split; [exact Hrec|].
        constructor; [apply newRecord_withinBounds|constructor].
Qed.

Lemma reconcile_inv store0 now region sp analysis detected : forall records w,
  Outbreak.reconciled store0 (World.pandemicData w) ->
  Forall Outbreak.withinBounds records ->
  Outbreak.reconciled store0
    (World.pandemicData (snd (PandemicService.reconcile now region sp analysis detected
                                records w)))
  /\ Frame.onlyPandemicData w
       (snd (PandemicService.reconcile now region sp analysis detected records w))
  /\ forall records',
       fst (PandemicService.reconcile now region sp analysis detected records w)
         = inr records' ->
       Forall Outbreak.withinBounds records'.
Proof.
  induction detected as [|pandemic rest IH]; intros records w Hinv Hrec.
  - simpl. split; [exact Hinv|]. split; [apply onlyPandemicData_refl|].
    intros records' H. injection H as <-. exact Hrec.
  - simpl. unfold Async.bind.
    destruct (reconcileOne_inv store0 now region sp analysis pandemic records w Hinv Hrec)
      as (H1 & H2 & H3).
    destruct (PandemicService.reconcileOne now region sp analysis pandemic records w)
      as [[e|records1] w1]; simpl in *.
    + split; [exact H1|]. split; [exact H2|discriminate].
    + destruct (IH records1 w1 H1 (H3 records1 eq_refl)) as (K1 & K2 & K3).
      split; [exact K1|]. split; [|exact K3].
      eapply onlyPandemicData_trans; [exact H2|exact K2].
Qed.

Lemma filter_all {A} (l : list A) : l = filter (fun _ => true) l.
Proof. induction l as [|x l IH]; simpl; congruence. Qed.

Lemma clearOldData_inv now region w :
  Outbreak.purged (World.pandemicData w)
    (World.pandemicData (snd (PandemicService.clearOldData now region w)))
  /\ Frame.onlyPandemicData w (snd (PandemicService.clearOldData now region w))
  /\ fst (PandemicService.clearOldData now region w) = inr tt.
Proof.
  unfold PandemicService.clearOldData. unfold_async.
  destruct (PandemicService.findOne _ _); simpl.
  - split; [eexists; apply filter_all|]. split; [apply onlyPandemicData_refl|reflexivity].
  - split; [eexists; reflexivity|]. split; [apply onlyPandemicData_set|reflexivity].
Qed.

(** The reconciliation never throws; it changes the outbreak collection
    only; what it returns and what it creates is within bounds. *)
Lemma analyzeAndCreatePandemicData_spec env now region weather aqi sp w :
  exists records w',
    PandemicService.analyzeAndCreatePandemicData env now region weather aqi sp w
      = (inr records, w')
    /\ Frame.onlyPandemicData w w'
    /\ Forall Outbreak.withinBounds records
    /\ (Outbreak.reconciled (World.pandemicData w) (World.pandemicData w')
        \/ Outbreak.purged (World.pandemicData w) (World.pandemicData w')).
Proof.
  unfold PandemicService.analyzeAndCreatePandemicData, Async.tryCatch.
  destruct (lt sp 40).
  { exists [], w. split; [reflexivity|]. split; [apply onlyPandemicData_refl|].
    split; [constructor|left; apply reconciled_refl]. }
  unfold PandemicService.getActivePandemics. unfold_async.
  destruct (PandemicService.detectPandemicsWithGemini env now region weather aqi sp)
    as [[[[|p ps]|] analysis]|].
  2: {
    pose proof (reconcile_inv (World.pandemicData w) now region sp analysis (p :: ps) [] w
                  (reconciled_refl _) (Forall_nil _)) as (H1 & H2 & H3).
    destruct (PandemicService.reconcile now region sp analysis (p :: ps) [] w)
      as [[e|records] w']; simpl in *.
    - exists [], w'. split; [reflexivity|]. split; [exact H2|].
      split; [constructor|left; exact H1].
    - exists records, w'. split; [reflexivity|]. split; [exact H2|].
      split; [now apply H3|left; exact H1]. }
  all: destruct (clearOldData_inv now region w) as (H1 & H2 & H3);
    destruct (PandemicService.clearOldData now region w) as [[e|[]] w'];
    simpl in *; try discriminate;
    exists [], w'; (split; [reflexivity|]); (split; [exact H2|]);
    (split; [constructor|right; exact H1]).
Qed.

Lemma analyzeAndCreatePandemicData_below_threshold env now region weather aqi sp w :
  sp < 40 ->
  PandemicService.analyzeAndCreatePandemicData env now region weather aqi sp w = (inr [], w).
Proof.
  intro H. unfold PandemicService.analyzeAndCreatePandemicData, Async.tryCatch.
  apply lt_true_iff in H. rewrite H. reflexivity.
Qed.

(** C10. Whatever the reasoning service replies (fields missing, zero or
    negative included): every record the reconciler builds for insertion
    has [activeCases >= 0], [newCases >= 0] and [transmissionRate] in
    [0, 10]; so have the records that [analyzeAndCreatePandemicData]
    returns; the collection afterwards is the collection before, document
    by document (some merged into), followed by the created records, all
    within these bounds, unless nothing was detected, when it only loses
    stale documents; a later merge keeps a record with these bounds within
    them.  With a risk score strictly below 40 the
    call returns the empty list and leaves the world as it was: nothing is
    created and nothing is updated. *)
Theorem C10_created_records_within_bounds
    (env : Env.t) (now : Z) (region : string) (weather : WeatherReading.t)
    (aqi : AqiReading.t) (surgeProbability : Q) (w : World.t) :
  (forall analysis pandemic,
      Outbreak.withinBounds
        (PandemicService.newRecord now region surgeProbability analysis pandemic))
  /\ (exists records w',
        PandemicService.analyzeAndCreatePandemicData env now region weather aqi
          surgeProbability w = (inr records, w')
        /\ Forall Outbreak.withinBounds records
        /\ (Outbreak.reconciled (World.pandemicData w) (World.pandemicData w')
            \/ Outbreak.purged (World.pandemicData w) (World.pandemicData w'))
        /\ Frame.onlyPandemicData w w')
  /\ (forall existing pandemic,
        Outbreak.withinBounds existing ->
        PandemicService.validateModified existing
          (PandemicService.mergeInto existing pandemic) = None ->
        Outbreak.withinBounds (PandemicService.mergeInto existing pandemic))
  /\ (surgeProbability < 40 ->
      PandemicService.analyzeAndCreatePandemicData env now region weather aqi
        surgeProbability w = (inr [], w)).
Proof.
  split; [|split; [|split]].
  - intros. apply newRecord_withinBounds.
  - destruct (analyzeAndCreatePandemicData_spec env now region weather aqi surgeProbability w)
      as (records & w' & E & F & B & C).
    exists records, w'. auto.
  - intros. now apply mergeInto_withinBounds.
  - apply analyzeAndCreatePandemicData_below_threshold.
Qed.

(** C4, as the code has it.  When a detection for (region, disease) finds a
    record of that region and disease dated within the last 24 hours, and
    the new severity and transmission rate pass the schema's validators,
    no record is created: that record is replaced, in place, by its merge
    with the detection.  In the merge [activeCases] and [newCases] are the
    maximum of the old value and the rounded new value (the rounded old
    value when the new one is missing or zero), hence never decrease, and
    for a whole non-zero count the maximum of old and new; [severity] is
    the new one unless it is missing or empty; [transmissionRate] is the
    new one unless it is missing or zero; [requiredMedicines] becomes the
    duplicate-free union of both lists when the detection names at least
    one medicine and is left as it was otherwise.  Merging the same
    detection a second time changes nothing.  Two observations of
    influenza in Mumbai with 50 and 80 active cases, three hours apart,
    leave one record with 80 active cases. *)
Theorem C4_merge_within_window
    (now : Z) (region : string) (surgeProbability : Q) (analysis : option string)
    (pandemic : GeminiAnalysis.Detected) (pandemicRecords : list PandemicData.t)
    (w : World.t) (existing : PandemicData.t) :
  PandemicService.findOne
    (PandemicService.isRecent now region (GeminiAnalysis.diseaseName pandemic))
    (World.pandemicData w) = Some existing ->
  PandemicService.validateModified existing (PandemicService.mergeInto existing pandemic)
    = None ->
  let merged := PandemicService.mergeInto existing pandemic in
  let run := PandemicService.reconcileOne now region surgeProbability analysis pandemic
               pandemicRecords w in
  (PandemicData.region existing = region
   /\ GeminiAnalysis.diseaseName pandemic = Some (PandemicData.diseaseName existing)
   /\ (now - 24 * 60 * 60 * 1000 <= PandemicData.date existing)%Z)
  /\ fst run = inr pandemicRecords
  /\ (exists before after,
        World.pandemicData w = before ++ existing :: after
        /\ World.pandemicData (snd run) = before ++ merged :: after)
  /\ List.length (World.pandemicData (snd run)) = List.length (World.pandemicData w)
  /\ PandemicData.activeCases merged
     = Qmax (PandemicData.activeCases existing)
            (Math_round (or_num (GeminiAnalysis.activeCases pandemic)
                                (PandemicData.activeCases existing)))
  /\ PandemicData.newCases merged
     = Qmax (PandemicData.newCases existing)
            (Math_round (or_num (GeminiAnalysis.newCasesLast24h pandemic)
                                (PandemicData.newCases existing)))
  /\ PandemicData.activeCases existing <= PandemicData.activeCases merged
  /\ PandemicData.newCases existing <= PandemicData.newCases merged
  /\ (forall z, GeminiAnalysis.activeCases pandemic = Some (inject_Z z) -> z <> 0%Z ->
        PandemicData.activeCases merged
        = Qmax (PandemicData.activeCases existing) (inject_Z z))
  /\ (forall z, GeminiAnalysis.newCasesLast24h pandemic = Some (inject_Z z) -> z <> 0%Z ->
        PandemicData.newCases merged
        = Qmax (PandemicData.newCases existing) (inject_Z z))
  /\ PandemicData.severity merged
     = or_str (GeminiAnalysis.severity pandemic) (PandemicData.severity existing)
  /\ PandemicData.transmissionRate merged
     = or_num (GeminiAnalysis.transmissionRate pandemic)
              (PandemicData.transmissionRate existing)
  /\ (forall m ms, GeminiAnalysis.requiredMedicines pandemic = Some (m :: ms) ->
        NoDup (PandemicData.requiredMedicines merged)
        /\ forall x, In x (PandemicData.requiredMedicines merged)
                     <-> In x (PandemicData.requiredMedicines existing) \/ In x (m :: ms))
  /\ (GeminiAnalysis.requiredMedicines pandemic = None
      \/ GeminiAnalysis.requiredMedicines pandemic = Some [] ->
      PandemicData.requiredMedicines merged = PandemicData.requiredMedicines existing)
  /\ PandemicService.reconcileOne now region surgeProbability analysis pandemic
       pandemicRecords (snd run) = (inr pandemicRecords, snd run)
  /\ map (fun r => (PandemicData.diseaseName r, PandemicData.activeCases r))
         (World.pandemicData (Scenarios.afterSecond Scenarios.fifty Scenarios.eighty))
     = [("Influenza"%string, 80)].
Proof.
  intros Hfind Hvalid merged run.
  assert (Hrun : run = (inr pandemicRecords,
                        World.setPandemicData
                          (PandemicService.replaceFirst
                             (PandemicService.isRecent now region
                                (GeminiAnalysis.diseaseName pandemic))
                             merged (World.pandemicData w)) w))
    by (apply reconcileOne_update; assumption).
  assert (Hrecent : PandemicService.isRecent now region (GeminiAnalysis.diseaseName pandemic)
                      merged = true).
  { unfold merged. rewrite isRecent_mergeInto. now apply findOne_Some in Hfind. }
  rewrite Hrun. simpl fst. simpl snd.
  split.
  { apply findOne_Some in Hfind. destruct Hfind as [_ Hrec].
    unfold PandemicService.isRecent in Hrec.
    apply andb_true_iff in Hrec. destruct Hrec as [Hrec Hdate].
    apply andb_true_iff in Hrec. destruct Hrec as [Hregion Hname].
    split; [now apply String.eqb_eq|]. split; [|now apply Z.leb_le].
    destruct (GeminiAnalysis.diseaseName pandemic) as [name|]; [|discriminate].
    apply String.eqb_eq in Hname. now subst. }
  split; [reflexivity|]. split.
  { destruct (replaceFirst_others _ merged _ _ Hfind) as (before & after & H1 & H2 & _).
    exists before, after. simpl. auto. }
  split; [simpl; apply replaceFirst_length|].
  split; [reflexivity|]. split; [reflexivity|].
  split; [apply Q.le_max_l|]. split; [apply Q.le_max_l|].
  split.
  { intros z Hz Hnz. simpl. unfold Math_max, or_num. rewrite Hz.
    destruct (Qeq_bool (inject_Z z) 0) eqn:E.
    - apply Qeq_bool_iff in E. unfold Qeq in E. simpl in E. lia.
    - now rewrite Math_round_integer. }
  split.
  { intros z Hz Hnz. simpl. unfold Math_max, or_num. rewrite Hz.
    destruct (Qeq_bool (inject_Z z) 0) eqn:E.
    - apply Qeq_bool_iff in E. unfold Qeq in E. simpl in E. lia.
    - now rewrite Math_round_integer. }
  split; [reflexivity|]. split; [reflexivity|].
  split.
  { intros m ms Hm. simpl. rewrite Hm. split; [apply newSet_NoDup|].
    intro x. rewrite newSet_In, in_app_iff. simpl. tauto. }
  split.
  { intros [Hm|Hm]; simpl; rewrite Hm; reflexivity. }
  split.
  { rewrite reconcileOne_update with (existing := merged).
    - simpl. unfold merged at 1. rewrite mergeInto_idempotent. fold merged.
      rewrite replaceFirst_again by exact Hrecent. reflexivity.
    - simpl. eapply findOne_replaceFirst; eassumption.
    - unfold merged. rewrite mergeInto_idempotent. apply validateModified_same. }
  vm_compute. reflexivity.
Qed.

Lemma C4_merge_within_window_witness :
  fst (PandemicService.reconcileOne Scenarios.threeHours "Mumbai" 45
         (Some "seasonal influenza"%string) Scenarios.eighty []
         (Scenarios.afterFirst Scenarios.fifty Scenarios.eighty)) = inr []
  /\ List.length
       (World.pandemicData
          (snd (PandemicService.reconcileOne Scenarios.threeHours "Mumbai" 45
                  (Some "seasonal influenza"%string) Scenarios.eighty []
                  (Scenarios.afterFirst Scenarios.fifty Scenarios.eighty))))
     = 1%nat.
Proof.
  assert (Hfind :
    PandemicService.findOne
      (PandemicService.isRecent Scenarios.threeHours "Mumbai"
         (GeminiAnalysis.diseaseName Scenarios.eighty))
      (World.pandemicData (Scenarios.afterFirst Scenarios.fifty Scenarios.eighty))
    = Some (PandemicService.newRecord 0 "Mumbai" 45 (Some "seasonal influenza"%string)
              Scenarios.fifty)) by (vm_compute; reflexivity).
  assert (Hvalid :
    PandemicService.validateModified
      (PandemicService.newRecord 0 "Mumbai" 45 (Some "seasonal influenza"%string)
         Scenarios.fifty)
      (PandemicService.mergeInto
         (PandemicService.newRecord 0 "Mumbai" 45 (Some "seasonal influenza"%string)
            Scenarios.fifty)
         Scenarios.eighty) = None) by (vm_compute; reflexivity).
  destruct (C4_merge_within_window Scenarios.threeHours "Mumbai" 45
              (Some "seasonal influenza"%string) Scenarios.eighty [] _ _ Hfind Hvalid)
    as (_ & H1 & _ & H3 & _).
  split; [exact H1|]. rewrite H3. vm_compute. reflexivity.
Defined.

(** C4 as stated fails for the medicine list: the first reply names a
    medicine twice, the second reply names none; the record merged within
    the window has 80 active cases and still lists the medicine twice. *)
Lemma C4_repeated_medicine_counterexample :
  map (fun r => (PandemicData.diseaseName r, PandemicData.activeCases r,
                 PandemicData.requiredMedicines r))
      (World.pandemicData
         (Scenarios.afterSecond Scenarios.fiftyRepeated Scenarios.eightyBare))
  = [("Influenza"%string, 80, ["Oseltamivir"; "Oseltamivir"]%string)]
  /\ ~ NoDup ["Oseltamivir"; "Oseltamivir"]%string.
Proof.
  split; [vm_compute; reflexivity|].
  intro H. inversion H as [|x l Hnotin _]; subst. apply Hnotin. now left.
Qed.

(** * The estimated patient count *)

Lemma Math_round_compat (x y : Q) : x == y -> Math_round x = Math_round y.
Proof. intro E. unfold Math_round. now rewrite E. Qed.

Lemma calculatePatientCount_run now region base sp w :
  PandemicService.calculatePatientCountFromPandemics now region base sp w
  = (inr (Outbreak.estimate base sp
            (Outbreak.totalActiveCases now region (World.pandemicData w))), w).
Proof.
  unfold PandemicService.calculatePatientCountFromPandemics,
    PandemicService.getTotalActiveCases, PandemicService.getActivePandemics.
  unfold_async. unfold Outbreak.estimate, Outbreak.totalActiveCases, Math_max.
  do 4 f_equal. apply Math_round_compat. ring.
Qed.

Lemma getTotalActiveCases_run now region w :
  PandemicService.getTotalActiveCases now region w
  = (inr (Outbreak.totalActiveCases now region (World.pandemicData w)), w).
Proof. reflexivity. Qed.

(** Every active record is a stored record of the region, inside the
    window, with a positive count and a significant severity. *)
Lemma groupStep_values l : forall m p,
  In p (map snd (fold_left PandemicService.groupStep l m)) ->
  In p (map snd m) \/ In p l.
Proof.
  assert (Hset : forall (m : list (string * PandemicData.t)) k v p,
            In p (map snd (Map_set m k v)) -> In p (map snd m) \/ p = v).
  { induction m as [|[k' v'] m IH]; intros k v p; simpl.
    - intros [<-|[]]. now right.
    - destruct (String.eqb k' k); simpl.
      + intros [<-|H]; auto.
      + intros [<-|H]; auto. apply IH in H. tauto. }
  induction l as [|q l IH]; intros m p; simpl; [auto|].
  intro H. apply IH in H. destruct H as [H|H]; [|auto].
  unfold PandemicService.groupStep in H.
  destruct (Map_get m (PandemicData.diseaseName q)) as [old|].
  - destruct (PandemicData.date old <? PandemicData.date q)%Z; [|auto].
    apply Hset in H. destruct H as [H| ->]; auto.
  - apply Hset in H. destruct H as [H| ->]; auto.
Qed.

Lemma insertSorted_In p l x :
  In x (PandemicService.insertSorted p l) <-> x = p \/ In x l.
Proof.
  induction l as [|q l IH]; simpl.
  - intuition.
  - destruct (PandemicService.precedes p q); simpl; rewrite ?IH; intuition.
Qed.

Lemma sortPandemics_In l x : In x (PandemicService.sortPandemics l) <-> In x l.
Proof.
  induction l as [|p l IH]; simpl; [tauto|].
  rewrite insertSorted_In, IH. intuition.
Qed.

Lemma activePandemics_In now region days collection p :
  In p (PandemicService.activePandemics now region days collection) ->
  In p collection
  /\ PandemicData.region p = region
  /\ (now - days * PandemicService.day <= PandemicData.date p)%Z
  /\ 0 < PandemicData.activeCases p
  /\ In (PandemicData.severity p) ["moderate"; "high"; "critical"]%string.
Proof.
  unfold PandemicService.activePandemics. intro H.
  apply groupStep_values in H. destruct H as [[]|H].
  rewrite sortPandemics_In in H. apply filter_In in H. destruct H as [Hin Hact].
  unfold PandemicService.isActive in Hact.
  apply andb_true_iff in Hact. destruct Hact as [Hact Hsev].
  apply andb_true_iff in Hact. destruct Hact as [Hact Hcases].
  apply andb_true_iff in Hact. destruct Hact as [Hreg Hdate].
  split; [exact Hin|]. split; [now apply String.eqb_eq|].
  split; [now apply Z.leb_le|]. split; [now apply gt_true_iff|].
  apply existsb_exists in Hsev. destruct Hsev as (s & Hs & E).
  apply String.eqb_eq in E. now subst.
Qed.

(** One record per disease. *)
Lemma Map_set_keys {V} (m : list (string * V)) k v :
  map fst (Map_set m k v)
  = if existsb (String.eqb k) (map fst m) then map fst m else map fst m ++ [k].
Proof.
  induction m as [|[k' v'] m IH]; simpl; [reflexivity|].
  rewrite (String.eqb_sym k k'). destruct (String.eqb k' k); simpl; [reflexivity|].
  rewrite IH. destruct (existsb _ _); reflexivity.
Qed.

Lemma Map_set_NoDup {V} (m : list (string * V)) k v :
  NoDup (map fst m) -> NoDup (map fst (Map_set m k v)).
Proof.
  intro H. rewrite Map_set_keys. destruct (existsb _ _) eqn:E; [exact H|].
  apply NoDup_app; [exact H|repeat constructor; intros []|].
  intros x Hx [<-|[]].
  assert (existsb (String.eqb k) (map fst m) = true); [|congruence].
  apply existsb_exists. exists k. split; [exact Hx|apply String.eqb_refl].
Qed.

Lemma Map_set_key_of_value {V} (name : V -> string) (m : list (string * V)) v :
  Forall (fun kv => fst kv = name (snd kv)) m ->
  Forall (fun kv => fst kv = name (snd kv)) (Map_set m (name v) v).
Proof.
  induction m as [|[k' v'] m IH]; intro H; simpl.
  - repeat constructor.
  - inversion H; subst. destruct (String.eqb k' (name v)) eqn:E.
    + constructor; [simpl; now apply String.eqb_eq in E|assumption].
    + constructor; [assumption|now apply IH].
Qed.

Lemma groupStep_inv l : forall m,
  NoDup (map fst m) ->
  Forall (fun kv => fst kv = PandemicData.diseaseName (snd kv)) m ->
  NoDup (map fst (fold_left PandemicService.groupStep l m))
  /\ Forall (fun kv => fst kv = PandemicData.diseaseName (snd kv))
       (fold_left PandemicService.groupStep l m).
Proof.
  induction l as [|p l IH]; intros m Hnd Hk; simpl; [auto|].
  pose proof (Map_set_key_of_value PandemicData.diseaseName m p Hk) as Hk'.
  pose proof (Map_set_NoDup m (PandemicData.diseaseName p) p Hnd) as Hnd'.
  apply IH; unfold PandemicService.groupStep;
    destruct (Map_get m (PandemicData.diseaseName p)) as [old|];
    try destruct (PandemicData.date old <? PandemicData.date p)%Z;
    assumption.
Qed.

Lemma activePandemics_one_per_disease now region days collection :
  NoDup (map PandemicData.diseaseName
           (PandemicService.activePandemics now region days collection)).
Proof.
  unfold PandemicService.activePandemics.
  destruct (groupStep_inv
              (PandemicService.sortPandemics
                 (filter (PandemicService.isActive region (now - days * PandemicService.day))
                    collection)) [] (NoDup_nil _) (Forall_nil _)) as [Hnd Hk].
  set (m := fold_left _ _ _) in *. clearbody m.
  rewrite map_map.
  replace (map (fun x => PandemicData.diseaseName (snd x)) m) with (map fst m); [exact Hnd|].
  induction Hk as [|kv m Hkv Hk IH]; simpl; [reflexivity|].
  f_equal; [exact Hkv|]. apply IH. simpl in Hnd. now inversion Hnd.
Qed.

(** * The prediction assembler *)

Lemma getLatestAqi_run cityName w :
  cityName <> EmptyString ->
  DataService.getLatestAqi cityName w = (inr (DataService.findLatestAqi cityName w), w).
Proof.
  intro H. unfold DataService.getLatestAqi. now rewrite (eqb_empty_false _ H).
Qed.

Lemma getLatestWeather_run cityName w :
  cityName <> EmptyString ->
  DataService.getLatestWeather cityName w
  = (inr (DataService.findLatestWeather cityName w), w).
Proof.
  intro H. unfold DataService.getLatestWeather. now rewrite (eqb_empty_false _ H).
Qed.

Lemma getAqiHistory_run now cityName days w :
  exists history,
    DataService.getAqiHistory now cityName (Some days) w = (inr history, w).
Proof.
  unfold DataService.getAqiHistory. destruct (String.eqb cityName ""); eexists; reflexivity.
Qed.

Lemma getWeatherHistory_run now cityName days w :
  exists history,
    DataService.getWeatherHistory now cityName (Some days) w = (inr history, w).
Proof.
  unfold DataService.getWeatherHistory. destruct (String.eqb cityName ""); eexists; reflexivity.
Qed.

Lemma runOperationsAgent_world env now features sp w :
  snd (PredictionService.runOperationsAgent env now features sp w) = w.
Proof.
  unfold PredictionService.runOperationsAgent. unfold_async.
  repeat break_match; reflexivity.
Qed.

Lemma getRequiredMedicines_run now region w :
  exists medicines,
    PandemicService.getRequiredMedicinesFromPandemics now region w = (inr medicines, w).
Proof. eexists. reflexivity. Qed.











(** * Missing signals *)







(** A city that passes the check of a handler is the normalized name,
    valid and not empty. *)
Lemma checkCity_inr city lat lon checksCoordinates c :
  PredictionRoutes.checkCity city lat lon checksCoordinates = inr c ->
  LocationUtils.extractCityName city = Some c
  /\ LocationUtils.isValidCityName (Some c) = true
  /\ c <> EmptyString.
Proof.
  unfold PredictionRoutes.checkCity.
  destruct (LocationUtils.falsy city).
  { destruct (_ && _ && _); discriminate. }
  destruct (LocationUtils.extractCityName city) as [c'|]; [|simpl; discriminate].
  destruct (LocationUtils.isValidCityName (Some c')) eqn:V; simpl; [|discriminate].
  intro H. injection H as ->. split; [reflexivity|]. split; [exact V|].
  intro E. subst c. discriminate.
Qed.













(** * Validation of the location name *)

Lemma checkCity_invalid city lat lon checksCoordinates :
  LocationUtils.isValidCityName (LocationUtils.extractCityName city) = false ->
  exists message,
    PredictionRoutes.checkCity city lat lon checksCoordinates
    = inl (PredictionRoutes.failure 400 message).
Proof.
  intro H. unfold PredictionRoutes.checkCity.
  destruct (LocationUtils.falsy city).
  - destruct (_ && _ && _); eexists; reflexivity.
  - rewrite H. simpl. eexists. reflexivity.
Qed.

Lemma allChars_spec (p : ascii -> bool) (s : string) :
  allChars p s = true <-> Forall (fun c => p c = true) (list_ascii_of_string s).
Proof.
  induction s as [|c s IH]; simpl.
  - split; [constructor|reflexivity].
  - rewrite andb_true_iff, IH. split.
    + intros [H1 H2]. now constructor.
    + intro H. inversion H. auto.
Qed.

Lemma cityNameChar_spec (c : ascii) :
  LocationUtils.cityNameChar c = true <->
  (isLetter c = true \/ isWhiteSpace c = true
   \/ c = "-"%char \/ c = "'"%char \/ c = "."%char).
Proof.
  unfold LocationUtils.cityNameChar. rewrite !orb_true_iff, !Ascii.eqb_eq. tauto.
Qed.

Lemma isValidCityName_spec (name : option string) :
  LocationUtils.isValidCityName name = true <->
  exists n, name = Some n /\ n <> EmptyString
    /\ (2 <= String.length (trim n))%nat
    /\ Forall (fun c => isLetter c = true \/ isWhiteSpace c = true
                        \/ c = "-"%char \/ c = "'"%char \/ c = "."%char)
         (list_ascii_of_string (trim n)).
Proof.
  unfold LocationUtils.isValidCityName, LocationUtils.cityNameRegex_test. split.
  - destruct name as [n|]; [|discriminate].
    destruct (String.eqb n "") eqn:E; [discriminate|].
    intro H. apply andb_true_iff in H. destruct H as [Hlen Hchars].
    exists n. split; [reflexivity|]. split; [now apply String.eqb_neq|].
    split; [now apply Nat.leb_le|].
    apply allChars_spec in Hchars. eapply Forall_impl; [|exact Hchars].
    intros c Hc. now apply cityNameChar_spec.
  - intros (n & -> & Hne & Hlen & Hchars).
    rewrite (eqb_empty_false _ Hne). apply andb_true_iff. split; [now apply Nat.leb_le|].
    apply allChars_spec. eapply Forall_impl; [|exact Hchars].
    intros c Hc. now apply cityNameChar_spec.
Qed.

(** C9, as the code has it.  A request whose location name is missing or
    malformed (it fails [isValidCityName] after [extractCityName]) is
    answered by each of the eight prediction handlers with HTTP 400 and
    [success = false], the world left exactly as it was: no provider
    request, no write.  A name passes the validation exactly when it is a
    non-empty string that, trimmed, has at least 2 characters, all of them
    letters, white space, hyphens, apostrophes or periods. *)
Theorem C9_malformed_city_fails_fast
    (env : Env.t) (now : Z) (city lat lon : LocationUtils.Value) (w : World.t) :
  LocationUtils.isValidCityName (LocationUtils.extractCityName city) = false ->
  (forall date, exists message,
      PredictionRoutes.postPredict env now city lat lon date w
      = (PredictionRoutes.mkResponse 400 false (Some message) PredictionRoutes.NoData, w))
  /\ (exists message,
      PredictionRoutes.getLatest env now city lat lon w
      = (PredictionRoutes.mkResponse 400 false (Some message) PredictionRoutes.NoData, w))
  /\ (forall since forceFetch, exists message,
      PredictionRoutes.getAirQuality env now city since forceFetch w
      = (PredictionRoutes.mkResponse 400 false (Some message) PredictionRoutes.NoData, w))
  /\ (forall since, exists message,
      PredictionRoutes.getWeather env now city since w
      = (PredictionRoutes.mkResponse 400 false (Some message) PredictionRoutes.NoData, w))
  /\ (forall days, exists message,
      PredictionRoutes.getHistory env now city days w
      = (PredictionRoutes.mkResponse 400 false (Some message) PredictionRoutes.NoData, w))
  /\ (forall date, exists message,
      PredictionRoutes.getStaffAdvice env now city date w
      = (PredictionRoutes.mkResponse 400 false (Some message) PredictionRoutes.NoData, w))
  /\ (forall date, exists message,
      PredictionRoutes.getSupplyAdvice env now city date w
      = (PredictionRoutes.mkResponse 400 false (Some message) PredictionRoutes.NoData, w))
  /\ (forall days, exists message,
      PredictionRoutes.getDownload env now city days w
      = (PredictionRoutes.mkResponse 400 false (Some message) PredictionRoutes.NoData, w))
  /\ (forall name,
      LocationUtils.isValidCityName name = true <->
      exists n, name = Some n /\ n <> EmptyString
        /\ (2 <= String.length (trim n))%nat
        /\ Forall (fun c => isLetter c = true \/ isWhiteSpace c = true
                            \/ c = "-"%char \/ c = "'"%char \/ c = "."%char)
             (list_ascii_of_string (trim n))).
Proof.
  intro Hinvalid.
  destruct (checkCity_invalid city lat lon true Hinvalid) as [message H].
  destruct (checkCity_invalid city LocationUtils.Undefined LocationUtils.Undefined false
              Hinvalid) as [message' H'].
  split; [|split; [|split; [|split; [|split; [|split; [|split; [|split]]]]]]].
  - intro date. exists message. unfold PredictionRoutes.postPredict. now rewrite H.
  - exists message. unfold PredictionRoutes.getLatest. now rewrite H.
  - intros since forceFetch. exists message'.
    unfold PredictionRoutes.getAirQuality. now rewrite H'.
  - intro since. exists message'. unfold PredictionRoutes.getWeather. now rewrite H'.
  - intro days. exists message'. unfold PredictionRoutes.getHistory. now rewrite H'.
  - intro date. exists message'. unfold PredictionRoutes.getStaffAdvice. now rewrite H'.
  - intro date. exists message'. unfold PredictionRoutes.getSupplyAdvice. now rewrite H'.
  - intro days. exists message'. unfold PredictionRoutes.getDownload. now rewrite H'.
  - apply isValidCityName_spec.
Qed.

Lemma C9_malformed_city_fails_fast_witness :
  exists message,
    PredictionRoutes.postPredict Scenarios.online 0 (LocationUtils.Str "D3lhi")
      LocationUtils.Undefined LocationUtils.Undefined None World.empty
    = (PredictionRoutes.mkResponse 400 false (Some message) PredictionRoutes.NoData,
       World.empty).
Proof.
  exact (proj1 (C9_malformed_city_fails_fast Scenarios.online 0 (LocationUtils.Str "D3lhi")
                  LocationUtils.Undefined LocationUtils.Undefined World.empty eq_refl) None).
Defined.

(** C9 as stated fails for a name that is well formed but not recognized:
    "Atlantis" is not in the city table, yet it passes the validation, and
    [POST /predict] goes to the providers (two requests) and answers 200. *)
Lemma C9_unrecognized_city_counterexample :
  DataService.getCityStateMapping "Atlantis" = None
  /\ LocationUtils.isValidCityName
       (LocationUtils.extractCityName (LocationUtils.Str "Atlantis")) = true
  /\ PredictionRoutes.statusCode
       (fst (PredictionRoutes.postPredict Scenarios.online 0 (LocationUtils.Str "Atlantis")
               LocationUtils.Undefined LocationUtils.Undefined None World.empty)) = 200%Z
  /\ World.network
       (snd (PredictionRoutes.postPredict Scenarios.online 0 (LocationUtils.Str "Atlantis")
               LocationUtils.Undefined LocationUtils.Undefined None World.empty))
     = [Provider.AirVisualCity "Atlantis" "" "India"; Provider.OpenWeatherMap "Atlantis"].
Proof.
  repeat split; vm_compute; reflexivity.
Qed.

(** * Further properties of the services

    What follows goes beyond the statements above: properties of the same
    code, and of the code around it, read off the source. *)

Import Text RetryHint OutbreakStore ReadingsFrame Responses.

(** ** The call executor, for every closure *)
Section RetryRuns.
Import GeminiRetry.
Context {A : Type}.
Variable apiCall : nat -> ApiError + A.
Variable random : nat -> Q.
Variable options : Options.

Lemma attempts_outcome fuel : forall a lastError delay,
  (fuel + a = S (maxRetries options))%nat -> (0 < fuel)%nat ->
  let run := attempts apiCall random options fuel a lastError delay in
  (1 <= calls run <= fuel)%nat
  /\ (forall k, (S k < calls run)%nat ->
        exists e, apiCall (a + k)%nat = inl e /\ isRetryable e = true)
  /\ match completion run with
     | Returned v => apiCall (a + pred (calls run))%nat = inr v
     | Threw None => False
     | Threw (Some e) =>
         apiCall (a + pred (calls run))%nat = inl e
         /\ (isRetryable e = false \/ (a + calls run = S (maxRetries options))%nat)
     end.
Proof.
  induction fuel as [|fuel IH]; intros a lastError delay Hfuel Hpos; [lia|].
  simpl attempts. destruct (apiCall a) as [e|v] eqn:Hcall.
  - destruct ((maxRetries options <=? a)%nat || negb (isRetryable e)) eqn:Hstop.
    + simpl. rewrite Nat.add_0_r. split; [lia|]. split; [intros k Hk; lia|].
      split; [exact Hcall|].
      apply orb_true_iff in Hstop. destruct Hstop as [Hlast|Hnot].
      * right. apply Nat.leb_le in Hlast. lia.
      * left. now apply negb_true_iff.
    + apply orb_false_iff in Hstop. destruct Hstop as [Hlast Hretry].
      apply Nat.leb_gt in Hlast. apply negb_false_iff in Hretry.
      specialize (IH (S a) (Some e)
                    (Math_min (delay * backoffMultiplier options) (maxDelay options))
                    ltac:(lia) ltac:(lia)).
      cbv zeta in IH. destruct IH as [Hcalls [Hearlier Hend]].
      set (rest := attempts apiCall random options fuel (S a) (Some e)
                     (Math_min (delay * backoffMultiplier options) (maxDelay options)))
        in *.
      simpl. split; [lia|]. split.
      * intros [|k] Hk.
        -- rewrite Nat.add_0_r. exists e. now split.
        -- destruct (Hearlier k ltac:(lia)) as [e' He'].
           exists e'. now replace (a + S k)%nat with (S a + k)%nat by lia.
      * replace (a + calls rest)%nat with (S a + pred (calls rest))%nat by lia.
        destruct (completion rest) as [v|[e'|]]; [exact Hend| |exact Hend].
        destruct Hend as [He' Hwhy]. split; [exact He'|].
        destruct Hwhy as [Hwhy|Hwhy]; [now left|right; lia].
  - simpl. rewrite Nat.add_0_r. split; [lia|]. split; [intros k Hk; lia|exact Hcall].
Qed.

Lemma attempts_sleeps_bounded fuel : forall a lastError delay,
  Forall (fun s => s <= maxDelay options)
    (sleeps (attempts apiCall random options fuel a lastError delay)).
Proof.
  induction fuel as [|fuel IH]; intros a lastError delay; simpl; [constructor|].
  destruct (apiCall a) as [e|v]; [|constructor].
  destruct ((maxRetries options <=? a)%nat || negb (isRetryable e)); [constructor|].
  simpl. constructor; [apply Q.le_min_r|apply IH].
Qed.

End RetryRuns.

Lemma sum_bounded (bound : Q) (l : list Q) :
  Forall (fun s => s <= bound) l ->
  fold_right Qplus 0 l <= inject_Z (Z.of_nat (List.length l)) * bound.
Proof.
  induction 1 as [|s l Hs Hl IH].
  - simpl. rewrite Qmult_0_l. apply Qle_refl.
  - cbn [fold_right List.length]. rewrite Nat2Z.inj_succ. unfold Z.succ.
    rewrite inject_Z_plus. 
    setoid_replace ((inject_Z (Z.of_nat (List.length l)) + inject_Z 1) * bound)
      with (bound + inject_Z (Z.of_nat (List.length l)) * bound) by ring.
    now apply Qplus_le_compat.
Qed.

(** X1. Every run of [withRetry], whatever the closure does: the closure is
    invoked at least once and at most [maxRetries + 1] times; every
    invocation before the last failed with a retryable failure; a value
    returned is the value of the last invocation, an error thrown is the
    error of the last invocation, which either is not retryable or is
    invocation number [maxRetries + 1].  The [throw lastError] after the
    loop is never reached. *)
Theorem withRetry_outcome_sound {A : Type}
    (apiCall : nat -> GeminiRetry.ApiError + A) (random : nat -> Q)
    (options : GeminiRetry.Options) :
  let run := GeminiRetry.withRetry apiCall random options in
  (1 <= GeminiRetry.calls run <= S (GeminiRetry.maxRetries options))%nat
  /\ (forall k, (S k < GeminiRetry.calls run)%nat ->
        exists e, apiCall k = inl e /\ GeminiRetry.isRetryable e = true)
  /\ match GeminiRetry.completion run with
     | GeminiRetry.Returned v => apiCall (pred (GeminiRetry.calls run)) = inr v
     | GeminiRetry.Threw None => False
     | GeminiRetry.Threw (Some e) =>
         apiCall (pred (GeminiRetry.calls run)) = inl e
         /\ (GeminiRetry.isRetryable e = false
             \/ GeminiRetry.calls run = S (GeminiRetry.maxRetries options))
     end.
Proof.
  exact (attempts_outcome apiCall random options (S (GeminiRetry.maxRetries options)) 0 None
           (GeminiRetry.initialDelay options) ltac:(lia) ltac:(lia)).
Qed.

(** X2. The time [withRetry] spends asleep: no sleep is longer than
    [maxDelay], there are at most [maxRetries] of them, and so the total
    is at most [maxRetries * maxDelay]. *)
Theorem withRetry_total_wait {A : Type}
    (apiCall : nat -> GeminiRetry.ApiError + A) (random : nat -> Q)
    (options : GeminiRetry.Options) :
  0 <= GeminiRetry.maxDelay options ->
  let run := GeminiRetry.withRetry apiCall random options in
  Forall (fun s => s <= GeminiRetry.maxDelay options) (GeminiRetry.sleeps run)
  /\ (List.length (GeminiRetry.sleeps run) <= GeminiRetry.maxRetries options)%nat
  /\ fold_right Qplus 0 (GeminiRetry.sleeps run)
     <= inject_Z (Z.of_nat (GeminiRetry.maxRetries options)) * GeminiRetry.maxDelay options.
Proof.
  intros Hmax run.
  assert (Hbound : Forall (fun s => s <= GeminiRetry.maxDelay options)
                     (GeminiRetry.sleeps run))
    by apply attempts_sleeps_bounded.
  assert (Hlen : (List.length (GeminiRetry.sleeps run) <= GeminiRetry.maxRetries options)%nat).
  { pose proof (attempts_calls apiCall random options (GeminiRetry.maxRetries options) 0 None
                  (GeminiRetry.initialDelay options) ltac:(lia)) as Hcalls.
    destruct (attempts_outcome apiCall random options (S (GeminiRetry.maxRetries options))
                0 None (GeminiRetry.initialDelay options) ltac:(lia) ltac:(lia))
      as [Hle _].
    fold (GeminiRetry.withRetry apiCall random options) in Hcalls, Hle.
    fold run in Hcalls, Hle. lia. }
  split; [exact Hbound|]. split; [exact Hlen|].
  eapply Qle_trans; [apply sum_bounded; exact Hbound|].
  apply Qmult_le_compat_r; [|exact Hmax].
  rewrite <- Zle_Qle. lia.
Qed.

Lemma withRetry_total_wait_witness :
  fold_right Qplus 0
    (GeminiRetry.sleeps
       (GeminiRetry.withRetry Scenarios.failsTwice Scenarios.noJitter
          GeminiRetry.defaultOptions))
  <= inject_Z (Z.of_nat 4) * 60000.
Proof.
  apply (withRetry_total_wait Scenarios.failsTwice Scenarios.noJitter
           GeminiRetry.defaultOptions).
  discriminate.
Defined.
(** ** Decimal notation and [parseInt] *)














(** ** Names of cities *)


Lemma trimStart_length (s : string) : (String.length (trimStart s) <= String.length s)%nat.
Proof.
  induction s as [|c s IH]; simpl; [lia|].
  destruct (isWhiteSpace c); simpl; lia.
Qed.

Lemma trimStart_fixed (s : string) :
  trimStart s = s <-> startsClean (whiteSpaceAt s) = true.
Proof.
  destruct s as [|c s]; simpl; [tauto|].
  destruct (isWhiteSpace c); simpl; split; try reflexivity; try discriminate.
  intro H. pose proof (trimStart_length s) as Hl. rewrite H in Hl. simpl in Hl. lia.
Qed.

Lemma trimEnd_fixed (s : string) :
  trimEnd s = s <-> endsClean (whiteSpaceAt s) = true.
Proof.
  induction s as [|c s IH]; [simpl; tauto|].
  cbn [trimEnd whiteSpaceAt endsClean].
  destruct s as [|c' s].
  - simpl. destruct (isWhiteSpace c); simpl; split; congruence.
  - set (s' := String c' s) in *. 
    change (whiteSpaceAt s') with (isWhiteSpace c' :: whiteSpaceAt s) in *.
    cbv iota. rewrite <- IH. destruct (trimEnd s') eqn:E.
    + split; intro H.
      * destruct (isWhiteSpace c); discriminate H.
      * discriminate H.
    + split; intro H; [now inversion H|now rewrite H].
Qed.

Lemma trimStart_clean (s : string) : startsClean (whiteSpaceAt (trimStart s)) = true.
Proof.
  induction s as [|c s IH]; [reflexivity|].
  simpl. destruct (isWhiteSpace c) eqn:E; [exact IH|]. simpl. now rewrite E.
Qed.

Lemma trimEnd_startsClean (s : string) :
  startsClean (whiteSpaceAt s) = true -> startsClean (whiteSpaceAt (trimEnd s)) = true.
Proof.
  destruct s as [|c s]; [reflexivity|].
  cbn [whiteSpaceAt startsClean trimEnd]. intro H.
  destruct (trimEnd s); [|simpl; exact H].
  apply negb_true_iff in H. rewrite H. simpl. now rewrite H.
Qed.

Lemma trimEnd_clean (s : string) : endsClean (whiteSpaceAt (trimEnd s)) = true.
Proof.
  induction s as [|c s IH]; [reflexivity|].
  cbn [trimEnd]. destruct (trimEnd s) as [|c' t] eqn:E.
  - destruct (isWhiteSpace c) eqn:Ec; simpl; [reflexivity|now rewrite Ec].
  - cbn [whiteSpaceAt endsClean] in *. exact IH.
Qed.

Lemma trim_fixed (s : string) :
  startsClean (whiteSpaceAt s) = true -> endsClean (whiteSpaceAt s) = true -> trim s = s.
Proof.
  intros Hs He. unfold trim.
  apply trimStart_fixed in Hs. rewrite Hs. now apply trimEnd_fixed.
Qed.

Lemma trim_clean (s : string) :
  startsClean (whiteSpaceAt (trim s)) = true /\ endsClean (whiteSpaceAt (trim s)) = true.
Proof.
  unfold trim. split.
  - apply trimEnd_startsClean, trimStart_clean.
  - apply trimEnd_clean.
Qed.

(** [split] and [join]. *)
Lemma split_nonempty (sep : ascii) (s : string) : split sep s <> [].
Proof.
  destruct s as [|c s]; simpl; [discriminate|].
  destruct (Ascii.eqb c sep); [discriminate|]. destruct (split sep s); discriminate.
Qed.

Lemma split_lacks (sep : ascii) (s : string) :
  Forall (fun w => lacks sep w = true) (split sep s).
Proof.
  induction s as [|c s IH]; simpl.
  - repeat constructor.
  - destruct (Ascii.eqb c sep) eqn:E.
    + constructor; [reflexivity|exact IH].
    + destruct (split sep s) as [|w ws].
      { constructor; [unfold lacks; simpl; now rewrite E|constructor]. }
      inversion IH; subst. constructor; [|assumption].
      unfold lacks in *. simpl. now rewrite E.
Qed.

Lemma join_cons (sep w : string) (ws : list string) :
  ws <> [] -> join sep (w :: ws) = (w ++ sep ++ join sep ws)%string.
Proof. destruct ws; [congruence|reflexivity]. Qed.




Lemma join_split (s : string) : join " " (split " " s) = s.
Proof.
  induction s as [|c s IH]; [reflexivity|].
  cbn [split]. destruct (Ascii.eqb c " ") eqn:E.
  - apply Ascii.eqb_eq in E. subst c.
    rewrite join_cons by apply split_nonempty. now rewrite IH.
  - pose proof (split_nonempty " " s) as Hne.
    destruct (split " " s) as [|w ws]; [congruence|].
    destruct ws as [|w' ws].
    + simpl in *. now rewrite IH.
    + change (String c (join " " (w :: w' :: ws)) = String c s). now rewrite IH.
Qed.



Lemma toUpperChar_class (c : ascii) :
  isWhiteSpace (toUpperChar c) = isWhiteSpace c
  /\ Ascii.eqb (toUpperChar c) " " = Ascii.eqb c " "
  /\ Ascii.eqb (toUpperChar c) "," = Ascii.eqb c ","
  /\ LocationUtils.cityNameChar (toUpperChar c) = LocationUtils.cityNameChar c.
Proof. destruct c as [[] [] [] [] [] [] [] []]; repeat split. Qed.

Lemma toLowerChar_class (c : ascii) :
  isWhiteSpace (toLowerChar c) = isWhiteSpace c
  /\ Ascii.eqb (toLowerChar c) " " = Ascii.eqb c " "
  /\ Ascii.eqb (toLowerChar c) "," = Ascii.eqb c ","
  /\ LocationUtils.cityNameChar (toLowerChar c) = LocationUtils.cityNameChar c.
Proof. destruct c as [[] [] [] [] [] [] [] []]; repeat split. Qed.



(** Capitalizing changes letters only: each character keeps its class. *)
Section CharClass.
Variable p : ascii -> bool.
Hypothesis upper : forall c, p (toUpperChar c) = p c.
Hypothesis lower : forall c, p (toLowerChar c) = p c.

Lemma capitalize_class (w : string) :
  map p (list_ascii_of_string (LocationUtils.capitalize w))
  = map p (list_ascii_of_string w).
Proof.
  destruct w as [|c w]; [reflexivity|].
  unfold LocationUtils.capitalize, toUpperCase, toLowerCase.
  cbn [charAt0 slice1 mapString append list_ascii_of_string map].
  rewrite upper. f_equal.
  induction w as [|c' w IH]; cbn [mapString list_ascii_of_string map]; [reflexivity|].
  now rewrite lower, IH.
Qed.

Lemma chars_append (a b : string) :
  list_ascii_of_string (a ++ b) = list_ascii_of_string a ++ list_ascii_of_string b.
Proof. induction a as [|c a IH]; simpl; congruence. Qed.

Lemma join_capitalize_class (ws : list string) :
  map p (list_ascii_of_string (join " " (map LocationUtils.capitalize ws)))
  = map p (list_ascii_of_string (join " " ws)).
Proof.
  induction ws as [|w ws IH]; [reflexivity|].
  destruct ws as [|w' ws].
  - simpl. apply capitalize_class.
  - change (map LocationUtils.capitalize (w :: w' :: ws))
      with (LocationUtils.capitalize w :: map LocationUtils.capitalize (w' :: ws)).
    rewrite !join_cons by discriminate.
    rewrite !chars_append, !map_app, capitalize_class. do 2 f_equal. exact IH.
Qed.

End CharClass.

Lemma whiteSpaceAt_map (s : string) :
  whiteSpaceAt s = map isWhiteSpace (list_ascii_of_string s).
Proof. induction s as [|c s IH]; simpl; congruence. Qed.

Lemma allChars_map (p : ascii -> bool) (s : string) :
  allChars p s = forallb (fun b => b) (map p (list_ascii_of_string s)).
Proof. induction s as [|c s IH]; simpl; congruence. Qed.


Lemma allChars_trimStart (p : ascii -> bool) (s : string) :
  allChars p s = true -> allChars p (trimStart s) = true.
Proof.
  induction s as [|c s IH]; [reflexivity|]. cbn [allChars trimStart]. intro H.
  apply andb_true_iff in H. destruct H as [Hc Hs].
  destruct (isWhiteSpace c); [auto|]. cbn [allChars]. now rewrite Hc, Hs.
Qed.

Lemma allChars_trimEnd (p : ascii -> bool) (s : string) :
  allChars p s = true -> allChars p (trimEnd s) = true.
Proof.
  induction s as [|c s IH]; [reflexivity|]. cbn [allChars trimEnd]. intro H.
  apply andb_true_iff in H. destruct H as [Hc Hs]. specialize (IH Hs).
  destruct (trimEnd s).
  - destruct (isWhiteSpace c); [reflexivity|]. cbn [allChars]. now rewrite Hc.
  - cbn [allChars] in *. now rewrite Hc, IH.
Qed.

Lemma includes_char (c : ascii) (s : string) :
  includes s (String c EmptyString) = negb (lacks c s).
Proof.
  induction s as [|c' s IH]; [reflexivity|].
  unfold lacks in *. cbn [includes allChars String.prefix]. rewrite IH.
  destruct (ascii_dec c c') as [->|Hne].
  - rewrite Ascii.eqb_refl. destruct s; reflexivity.
  - assert (E : Ascii.eqb c' c = false) by (apply Ascii.eqb_neq; congruence).
    rewrite E. reflexivity.
Qed.

(** The words of a name, capitalized and put together again. *)
Lemma normalized_class (p : ascii -> bool) (u : string) :
  (forall c, p (toUpperChar c) = p c) -> (forall c, p (toLowerChar c) = p c) ->
  map p (list_ascii_of_string (join " " (map LocationUtils.capitalize (split " " u))))
  = map p (list_ascii_of_string u).
Proof.
  intros Hup Hlow. rewrite join_capitalize_class by assumption. now rewrite join_split.
Qed.



Lemma normalized_trimmed (s : string) :
  let t := join " " (map LocationUtils.capitalize (split " " (trim s))) in
  trim t = t.
Proof.
  cbv zeta. apply trim_fixed.
  - rewrite whiteSpaceAt_map, normalized_class, <- whiteSpaceAt_map.
    + apply trim_clean.
    + intro c. apply toUpperChar_class.
    + intro c. apply toLowerChar_class.
  - rewrite whiteSpaceAt_map, normalized_class, <- whiteSpaceAt_map.
    + apply trim_clean.
    + intro c. apply toUpperChar_class.
    + intro c. apply toLowerChar_class.
Qed.


Lemma normalizeCityName_lacks (sep : ascii) (s t : string) :
  sep <> " "%char ->
  (forall c, Ascii.eqb (toUpperChar c) sep = Ascii.eqb c sep) ->
  (forall c, Ascii.eqb (toLowerChar c) sep = Ascii.eqb c sep) ->
  lacks sep s = true ->
  LocationUtils.normalizeCityName (LocationUtils.Str s) = Some t ->
  lacks sep t = true.
Proof.
  unfold LocationUtils.normalizeCityName. intros Hsep Hup Hlow Hs H.
  destruct (String.eqb s EmptyString); [discriminate|]. injection H as <-.
  unfold lacks in *. rewrite allChars_map, normalized_class, <- allChars_map.
  - unfold trim. now apply allChars_trimEnd, allChars_trimStart.
  - intro c. now rewrite Hup.
  - intro c. now rewrite Hlow.
Qed.

Lemma extractCityName_source (location city : string) :
  LocationUtils.extractCityName (LocationUtils.Str location) = Some city ->
  exists s, lacks "," s = true
    /\ LocationUtils.normalizeCityName (LocationUtils.Str s) = Some city.
Proof.
  intro H. unfold LocationUtils.extractCityName in H.
  destruct (String.eqb location EmptyString); [discriminate|].
  destruct (includes location ",") eqn:Hcomma.
  - exists (hd EmptyString (split "," location)). split; [|exact H].
    pose proof (split_lacks "," location) as Hall.
    destruct (split "," location); [reflexivity|]. now inversion Hall.
  - exists location. split; [|exact H].
    rewrite includes_char in Hcomma. now apply negb_false_iff in Hcomma.
Qed.

Lemma normalizeCityName_trimmed (s t : string) :
  LocationUtils.normalizeCityName (LocationUtils.Str s) = Some t -> trim t = t.
Proof.
  unfold LocationUtils.normalizeCityName.
  destruct (String.eqb s EmptyString); [discriminate|]. intro H. injection H as <-.
  apply normalized_trimmed.
Qed.

Lemma normalizeCityName_no_comma (s t : string) :
  lacks "," s = true ->
  LocationUtils.normalizeCityName (LocationUtils.Str s) = Some t ->
  includes t "," = false.
Proof.
  intros Hs H. rewrite includes_char.
  rewrite (normalizeCityName_lacks "," s t); try assumption; [reflexivity|discriminate| |];
    intro c; [apply toUpperChar_class|apply toLowerChar_class].
Qed.





(** ** Sorting *)
Section SortBy.
Context {A : Type}.
Variable le : A -> A -> bool.
Hypothesis le_total : forall a b, le a b = false -> le b a = true.







End SortBy.







(** ** What a fetch stores *)

Lemma or_num_nonzero (x : option Q) (d : Q) : ~ d == 0 -> ~ or_num x d == 0.
Proof.
  intros Hd. unfold or_num. destruct x as [q|]; [|exact Hd].
  destruct (Qeq_bool q 0) eqn:E; [exact Hd|]. now apply Qeq_bool_neq.
Qed.

Lemma or_num_cases (x : option Q) (d : Q) : ~ or_num x d == 0 \/ or_num x d = d.
Proof.
  unfold or_num. destruct x as [q|]; [|now right].
  destruct (Qeq_bool q 0) eqn:E; [now right|left; now apply Qeq_bool_neq].
Qed.

(** The requests of one Air Visual exchange: the city endpoint, the
    nearest station, or the first followed by the second. *)
Lemma airVisualExchange_requests env now coords w :
  exists response requests,
    DataService.airVisualExchange env now coords w
    = (inr response,
       World.mk (World.aqiReadings w) (World.weatherReadings w) (World.hospitalStats w)
         (World.pandemicData w) (World.predictions w) (World.network w ++ requests))
    /\ (1 <= List.length requests <= 2)%nat
    /\ (forall request, In request requests ->
          request = Provider.AirVisualCity (DataService.city coords) (DataService.state coords)
                      (DataService.country coords)
          \/ exists lat lon, request = Provider.AirVisualNearestStation lat lon).
Proof.
  unfold DataService.airVisualExchange, DataService.fetch. unfold_async.
  unfold World.logRequest.
  repeat break_match;
    repeat match goal with H : (_, _) = (_, _) |- _ => inversion H; subst; clear H end;
    try discriminate; cbn [World.aqiReadings World.weatherReadings World.hospitalStats
                           World.pandemicData World.predictions World.network];
    rewrite <- ?app_assoc;
    eexists; eexists; (split; [reflexivity|]); (split; [simpl; lia|]);
    simpl; intros request Hin; intuition (subst; eauto).
Qed.

Lemma readAirVisual_some response w aqi pm25 pm10 w1 :
  DataService.readAirVisual response w = (inr (Some (aqi, pm25, pm10)), w1) ->
  w1 = w
  /\ ~ aqi == 0
  /\ (~ pm25 == 0 \/ pm25 = Math_round (aqi * (6 # 10)))
  /\ (~ pm10 == 0 \/ pm10 = Math_round (aqi * (8 # 10))).
Proof.
  unfold DataService.readAirVisual. unfold_async.
  destruct response as [message|ok status [message|body]]; try discriminate.
  destruct (ok && _); [|discriminate].
  destruct (Provider.avData body) as [data|]; [|discriminate].
  destruct (Provider.pollution data) as [pollution|]; [|discriminate].
  intro H. inversion H; subst. split; [reflexivity|].
  split; [apply or_num_nonzero, or_num_nonzero; discriminate|].
  split; apply or_num_cases.
Qed.

Lemma fetchAndStoreAqi_fresh env now cityName state country w r w' :
  DataService.fetchAndStoreAqi env now cityName state country true w = (inr r, w') ->
  exists requests aqi pm25 pm10,
    r = AqiReading.mk cityName now aqi pm25 pm10 "airvisual"
    /\ ~ aqi == 0
    /\ (~ pm25 == 0 \/ pm25 = Math_round (aqi * (6 # 10)))
    /\ (~ pm10 == 0 \/ pm10 = Math_round (aqi * (8 # 10)))
    /\ w' = World.mk (World.aqiReadings w ++ [r]) (World.weatherReadings w)
              (World.hospitalStats w) (World.pandemicData w) (World.predictions w)
              (World.network w ++ requests)
    /\ (1 <= List.length requests <= 2)%nat.
Proof.
  unfold DataService.fetchAndStoreAqi.
  destruct (String.eqb cityName "") eqn:Hcity; [discriminate|].
  unfold_async. cbn [negb]. cbv beta iota.
  destruct (negb (truthy_str (Env.AIR_VISUAL_API_KEY env))); [discriminate|].
  destruct (airVisualExchange_requests env now
              (DataService.getCityCoordinates env cityName state country) w)
    as (response & requests & E & Hlen & _).
  rewrite E. clear E.
  destruct (DataService.readAirVisual response _) as [[e|[[[aqi pm25] pm10]|]] w2] eqn:Hread;
    try discriminate.
  apply readAirVisual_some in Hread. destruct Hread as (-> & Haqi & Hpm25 & Hpm10).
  intro H. inversion H; subst. exists requests, aqi, pm25, pm10.
  repeat split; try assumption; lia.
Qed.



Lemma readWeather_some response w temperature humidity windSpeed precipitation w1 :
  DataService.readWeather response w
  = (inr (temperature, humidity, windSpeed, precipitation), w1) ->
  w1 = w
  /\ exists status data temp hum,
       response = Provider.Responded true status (inr data)
       /\ Provider.mainTemp data = Some temp
       /\ Provider.mainHumidity data = Some hum
       /\ temperature = Math_round (temp * 10) / 10
       /\ humidity = Math_round hum
       /\ windSpeed = Math_round (or_num (Provider.windSpeed data) 0 * (36 # 10) * 10) / 10
       /\ precipitation
          = Math_round (or_num (Provider.rain1h data) (or_num (Provider.rain3h data) 0) * 10)
            / 10.
Proof.
  unfold DataService.readWeather. unfold_async.
  destruct response as [message|[|] status [message|data]]; try discriminate.
  match goal with |- context [if ?b then _ else _] => destruct b end; [discriminate|].
  destruct (Provider.mainTemp data) as [temp|] eqn:Et; [|discriminate].
  destruct (Provider.mainHumidity data) as [hum|] eqn:Eh; [|discriminate].
  intro H. inversion H; subst. split; [reflexivity|].
  exists status, data, temp, hum. repeat split; assumption.
Qed.

Lemma fetchAndStoreWeather_fresh env now cityName w r w' :
  DataService.fetchAndStoreWeather env now cityName true w = (inr r, w') ->
  exists status data temp hum,
    Env.openWeatherMap env now (Provider.OpenWeatherMap cityName)
    = Provider.Responded true status (inr data)
    /\ Provider.mainTemp data = Some temp
    /\ Provider.mainHumidity data = Some hum
    /\ r = WeatherReading.mk cityName now
             (Math_round (temp * 10) / 10)
             (Math_round hum)
             (Math_round (or_num (Provider.windSpeed data) 0 * (36 # 10) * 10) / 10)
             (Math_round (or_num (Provider.rain1h data) (or_num (Provider.rain3h data) 0) * 10)
              / 10)
    /\ w' = World.mk (World.aqiReadings w) (World.weatherReadings w ++ [r])
              (World.hospitalStats w) (World.pandemicData w) (World.predictions w)
              (World.network w ++ [Provider.OpenWeatherMap cityName]).
Proof.
  unfold DataService.fetchAndStoreWeather.
  destruct (String.eqb cityName "") eqn:Hcity; [discriminate|].
  unfold_async. cbn [negb]. cbv beta iota.
  destruct (negb (truthy_str (Env.WEATHER_API_KEY env))); [discriminate|].
  unfold DataService.fetch. unfold_async.
  destruct (DataService.readWeather _ _) as [[e|[[[t h] ws] pr]] w2] eqn:Hread;
    [discriminate|].
  apply readWeather_some in Hread.
  destruct Hread as (-> & status & data & temp & hum & E & Et & Eh & -> & -> & -> & ->).
  intro H. inversion H; subst. exists status, data, temp, hum.
  repeat split; assumption.
Qed.

(** X7. A forced fetch of the air quality that succeeds appends exactly one
    reading: of the city asked for, stamped with the instant of the call,
    of source "airvisual".  Its index is never 0 (a missing or zero US
    index gives way to the China index, and that to 50), and a
    particulate value that is missing or zero is estimated from the
    index.  No other collection changes. *)
Theorem aqi_fetch_appends_one_reading
    (env : Env.t) (now : Z) (cityName state country : string) (w w' : World.t)
    (r : AqiReading.t) :
  DataService.fetchAndStoreAqi env now cityName state country true w = (inr r, w') ->
  AqiReading.location r = cityName
  /\ AqiReading.timestamp r = now
  /\ AqiReading.source r = "airvisual"%string
  /\ ~ AqiReading.aqi r == 0
  /\ (~ AqiReading.pm25 r == 0
      \/ AqiReading.pm25 r = Math_round (AqiReading.aqi r * (6 # 10)))
  /\ (~ AqiReading.pm10 r == 0
      \/ AqiReading.pm10 r = Math_round (AqiReading.aqi r * (8 # 10)))
  /\ World.aqiReadings w' = World.aqiReadings w ++ [r]
  /\ World.weatherReadings w' = World.weatherReadings w
  /\ World.hospitalStats w' = World.hospitalStats w
  /\ World.pandemicData w' = World.pandemicData w
  /\ World.predictions w' = World.predictions w.
Proof.
  intro H. apply fetchAndStoreAqi_fresh in H.
  destruct H as (requests & aqi & pm25 & pm10 & -> & Haqi & Hpm25 & Hpm10 & -> & _).
  repeat split; assumption.
Qed.

Lemma aqi_fetch_appends_one_reading_witness :
  exists r w',
    DataService.fetchAndStoreAqi Scenarios.online 0 "Delhi" "" "India" true World.empty
    = (inr r, w')
    /\ ~ AqiReading.aqi r == 0
    /\ World.aqiReadings w' = [r].
Proof.
  destruct (DataService.fetchAndStoreAqi Scenarios.online 0 "Delhi" "" "India" true
              World.empty) as [[e|r] w'] eqn:E; [vm_compute in E; discriminate E|].
  exists r, w'. split; [reflexivity|].
  destruct (aqi_fetch_appends_one_reading Scenarios.online 0 "Delhi" "" "India"
              World.empty w' r E) as (_ & _ & _ & Haqi & _ & _ & Hstore & _).
  now split.
Defined.



(** ** The latest reading *)
Section NewestLast.
Context {A : Type}.
Variable ts : A -> Z.

Lemma newest_snoc (l : list A) (r : A) : forall best,
  DataService.newest ts best (l ++ [r])
  = match DataService.newest ts best l with
    | Some b => if (ts b <? ts r)%Z then Some r else Some b
    | None => Some r
    end.
Proof.
  induction l as [|x l IH]; intro best; simpl.
  - destruct best as [b|]; [|reflexivity]. destruct (ts b <? ts r)%Z; reflexivity.
  - destruct best as [b|]; [destruct (ts b <? ts x)%Z|]; apply IH.
Qed.

Lemma newest_snoc_later (l : list A) (r : A) :
  (forall x, In x l -> (ts x < ts r)%Z) ->
  DataService.newest ts None (l ++ [r]) = Some r.
Proof.
  intro Hl. rewrite newest_snoc.
  destruct (DataService.newest ts None l) as [b|] eqn:E; [|reflexivity].
  apply newest_spec in E. destruct E as [[E|E] _]; [discriminate|].
  apply Hl in E. apply Z.ltb_lt in E. now rewrite E.
Qed.

End NewestLast.

Lemma ageHours_fresh (now later : Z) :
  (later - now < 21600000)%Z -> DataService.ageHours later now < 6.
Proof.
  intro H. unfold DataService.ageHours.
  apply Qlt_shift_div_r; [reflexivity|].
  change (6 * 3600000) with (inject_Z 21600000). rewrite <- Zlt_Qlt. exact H.
Qed.

(** X9. Store, then read: after a forced fetch has stored a reading, and if
    the readings of the city stored before are older than the call, that
    reading is the latest one, and for the next six hours a fetch that is
    not forced returns it without touching the world. *)
Theorem fresh_reading_is_latest_and_cached
    (env : Env.t) (now : Z) (cityName : string) (w w' : World.t) :
  (forall state country r,
      DataService.fetchAndStoreAqi env now cityName state country true w = (inr r, w') ->
      (forall old, In old (World.aqiReadings w) -> AqiReading.location old = cityName ->
         (AqiReading.timestamp old < now)%Z) ->
      DataService.getLatestAqi cityName w' = (inr (Some r), w')
      /\ forall env' later state' country',
           (later - now < 21600000)%Z ->
           DataService.fetchAndStoreAqi env' later cityName state' country' false w'
           = (inr r, w'))
  /\ (forall r,
      DataService.fetchAndStoreWeather env now cityName true w = (inr r, w') ->
      (forall old, In old (World.weatherReadings w) -> WeatherReading.location old = cityName ->
         (WeatherReading.timestamp old < now)%Z) ->
      DataService.getLatestWeather cityName w' = (inr (Some r), w')
      /\ forall env' later,
           (later - now < 21600000)%Z ->
           DataService.fetchAndStoreWeather env' later cityName false w' = (inr r, w')).
Proof.
  split.
  - intros state country r H Hold.
    assert (Hne : cityName <> EmptyString).
    { intro E. subst. discriminate H. }
    apply fetchAndStoreAqi_fresh in H.
    destruct H as (requests & aqi & pm25 & pm10 & -> & _ & _ & _ & -> & _).
    assert (Hlatest : DataService.findLatestAqi cityName
              (World.mk (World.aqiReadings w
                         ++ [AqiReading.mk cityName now aqi pm25 pm10 "airvisual"])
                 (World.weatherReadings w) (World.hospitalStats w) (World.pandemicData w)
                 (World.predictions w) (World.network w ++ requests))
            = Some (AqiReading.mk cityName now aqi pm25 pm10 "airvisual")).
    { unfold DataService.findLatestAqi. cbn [World.aqiReadings].
      rewrite filter_app. cbn [filter AqiReading.location]. rewrite String.eqb_refl.
      apply newest_snoc_later. intros x Hx. apply filter_In in Hx.
      destruct Hx as [Hx Hloc]. apply String.eqb_eq in Hloc. now apply Hold. }
    split.
    + rewrite getLatestAqi_run by exact Hne. now rewrite Hlatest.
    + intros env' later state' country' Hage.
      apply fetchAndStoreAqi_cached; [exact Hne|exact Hlatest|].
      now apply ageHours_fresh.
  - intros r H Hold.
    assert (Hne : cityName <> EmptyString).
    { intro E. subst. discriminate H. }
    apply fetchAndStoreWeather_fresh in H.
    destruct H as (status & data & temp & hum & _ & _ & _ & -> & ->).
    match goal with
    | |- context [World.mk _ (_ ++ [?reading]) _ _ _ _] => set (r := reading) in *
    end.
    assert (Hlatest : DataService.findLatestWeather cityName
              (World.mk (World.aqiReadings w) (World.weatherReadings w ++ [r])
                 (World.hospitalStats w) (World.pandemicData w) (World.predictions w)
                 (World.network w ++ [Provider.OpenWeatherMap cityName]))
            = Some r).
    { unfold DataService.findLatestWeather. cbn [World.weatherReadings].
      rewrite filter_app. cbn [filter]. unfold r at 1. cbn [WeatherReading.location].
      rewrite String.eqb_refl. fold r.
      apply newest_snoc_later. intros x Hx. apply filter_In in Hx.
      destruct Hx as [Hx Hloc]. apply String.eqb_eq in Hloc. now apply Hold. }
    split.
    + rewrite getLatestWeather_run by exact Hne. now rewrite Hlatest.
    + intros env' later Hage.
      apply fetchAndStoreWeather_cached; [exact Hne|exact Hlatest|].
      now apply ageHours_fresh.
Qed.

(** ** The requests a fetch sends *)
Lemma fetchAndStoreAqi_requests env now cityName state country forceFetch w :
  exists requests,
    World.network
      (snd (DataService.fetchAndStoreAqi env now cityName state country forceFetch w))
    = World.network w ++ requests
    /\ (List.length requests <= 2)%nat
    /\ (forall request, In request requests ->
          forall q, request <> Provider.OpenWeatherMap q)
    /\ (truthy_str (Env.AIR_VISUAL_API_KEY env) = false -> requests = [])
    /\ (cityName = EmptyString -> requests = []).
Proof.
  unfold DataService.fetchAndStoreAqi.
  destruct (String.eqb cityName "") eqn:Hcity.
  { exists []. simpl. rewrite app_nil_r. repeat split; auto; intros ? []. }
  assert (Hne : cityName <> EmptyString) by now apply String.eqb_neq.
  unfold_async.
  destruct (if negb forceFetch then _ else None) as [cached|].
  { exists []. simpl. rewrite app_nil_r. repeat split; auto; intros ? []. }
  destruct (truthy_str (Env.AIR_VISUAL_API_KEY env)) eqn:Hkey; cbn [negb]; cbv iota.
  2:{ exists []. simpl. rewrite app_nil_r. repeat split; auto; intros ? []. }
  destruct (airVisualExchange_requests env now
              (DataService.getCityCoordinates env cityName state country) w)
    as (response & requests & E & Hlen & Hkind).
  rewrite E.
  pose proof (readAirVisual_world response
                (World.mk (World.aqiReadings w) (World.weatherReadings w)
                   (World.hospitalStats w) (World.pandemicData w) (World.predictions w)
                   (World.network w ++ requests))) as Hw.
  destruct (DataService.readAirVisual response _) as [[e|[[[aqi pm25] pm10]|]] w2];
    simpl in Hw; subst w2; exists requests; simpl;
    (split; [reflexivity|]); (split; [lia|]);
    (split; [|split; [discriminate|congruence]]);
    intros request Hin q; destruct (Hkind request Hin) as [->|(lat & lon & ->)];
    discriminate.
Qed.

Lemma fetchAndStoreWeather_requests env now cityName forceFetch w :
  exists requests,
    World.network (snd (DataService.fetchAndStoreWeather env now cityName forceFetch w))
    = World.network w ++ requests
    /\ (requests = [] \/ requests = [Provider.OpenWeatherMap cityName])
    /\ (truthy_str (Env.WEATHER_API_KEY env) = false -> requests = [])
    /\ (cityName = EmptyString -> requests = []).
Proof.
  unfold DataService.fetchAndStoreWeather.
  destruct (String.eqb cityName "") eqn:Hcity.
  { exists []. simpl. rewrite app_nil_r. repeat split; auto. }
  assert (Hne : cityName <> EmptyString) by now apply String.eqb_neq.
  unfold_async.
  destruct (if negb forceFetch then _ else None) as [cached|].
  { exists []. simpl. rewrite app_nil_r. repeat split; auto. }
  destruct (truthy_str (Env.WEATHER_API_KEY env)) eqn:Hkey; cbn [negb]; cbv iota.
  2:{ exists []. simpl. rewrite app_nil_r. repeat split; auto. }
  unfold DataService.fetch. unfold_async.
  pose proof (readWeather_world
                (Env.openWeatherMap env now (Provider.OpenWeatherMap cityName))
                (World.logRequest (Provider.OpenWeatherMap cityName) w)) as Hw.
  destruct (DataService.readWeather _ _) as [[e|[[[t h] ws] pr]] w2];
    simpl in Hw; subst w2; exists [Provider.OpenWeatherMap cityName]; simpl;
    repeat split; auto; try discriminate; congruence.
Qed.

(** X10. The requests one call sends, whatever the providers answer: a call of
    [fetchAndStoreAqi] sends at most two requests, none of them to the
    weather provider; a call of [fetchAndStoreWeather] sends none or the
    one request for the city; neither sends any without its API key or
    for an empty city name.  Requests are only ever added to the log. *)
Theorem provider_request_budget
    (env : Env.t) (now : Z) (cityName state country : string) (forceFetch : bool)
    (w : World.t) :
  (exists requests,
      World.network
        (snd (DataService.fetchAndStoreAqi env now cityName state country forceFetch w))
      = World.network w ++ requests
      /\ (List.length requests <= 2)%nat
      /\ (forall request, In request requests ->
            forall q, request <> Provider.OpenWeatherMap q)
      /\ (truthy_str (Env.AIR_VISUAL_API_KEY env) = false -> requests = [])
      /\ (cityName = EmptyString -> requests = []))
  /\ (exists requests,
      World.network (snd (DataService.fetchAndStoreWeather env now cityName forceFetch w))
      = World.network w ++ requests
      /\ (requests = [] \/ requests = [Provider.OpenWeatherMap cityName])
      /\ (truthy_str (Env.WEATHER_API_KEY env) = false -> requests = [])
      /\ (cityName = EmptyString -> requests = [])).
Proof.
  split; [apply fetchAndStoreAqi_requests|apply fetchAndStoreWeather_requests].
Qed.

(** ** Invariants of the outbreak collection *)
Section StoreInvariant.
Variable now : Z.
Variable region : string.
Variable P : list PandemicData.t -> Prop.

Hypothesis P_merge : forall l pandemic existing,
  P l ->
  PandemicService.findOne
    (PandemicService.isRecent now region (GeminiAnalysis.diseaseName pandemic)) l
  = Some existing ->
  PandemicService.validateModified existing (PandemicService.mergeInto existing pandemic)
  = None ->
  P (PandemicService.replaceFirst
       (PandemicService.isRecent now region (GeminiAnalysis.diseaseName pandemic))
       (PandemicService.mergeInto existing pandemic) l).

Hypothesis P_create : forall l sp analysis pandemic,
  P l ->
  PandemicService.findOne
    (PandemicService.isRecent now region (GeminiAnalysis.diseaseName pandemic)) l = None ->
  PandemicService.validate (PandemicService.newRecord now region sp analysis pandemic)
  = None ->
  P (l ++ [PandemicService.newRecord now region sp analysis pandemic]).

Hypothesis P_clear : forall l, P l -> P (filter (fun p => negb (stale now region p)) l).

Lemma reconcileOne_preserves sp analysis pandemic records w :
  P (World.pandemicData w) ->
  P (World.pandemicData
       (snd (PandemicService.reconcileOne now region sp analysis pandemic records w))).
Proof.
  intro H.
  destruct (PandemicService.findOne
              (PandemicService.isRecent now region (GeminiAnalysis.diseaseName pandemic))
              (World.pandemicData w)) as [existing|] eqn:Hfind.
  - destruct (PandemicService.validateModified existing
                (PandemicService.mergeInto existing pandemic)) as [e|] eqn:Hvalid.
    + now rewrite (reconcileOne_rejected _ _ _ _ _ _ _ _ _ Hfind Hvalid).
    + rewrite (reconcileOne_update _ _ _ _ _ _ _ _ Hfind Hvalid). simpl.
      now apply P_merge.
  - rewrite (reconcileOne_create _ _ _ _ _ _ _ Hfind).
    destruct (PandemicService.validate _) as [e|] eqn:Hvalid; [exact H|].
    simpl. now apply P_create.
Qed.

Lemma reconcile_preserves sp analysis detected : forall records w,
  P (World.pandemicData w) ->
  P (World.pandemicData
       (snd (PandemicService.reconcile now region sp analysis detected records w))).
Proof.
  induction detected as [|pandemic detected IH]; intros records w H; [exact H|].
  cbn [PandemicService.reconcile]. unfold Async.bind at 1.
  pose proof (reconcileOne_preserves sp analysis pandemic records w H) as H1.
  destruct (PandemicService.reconcileOne now region sp analysis pandemic records w)
    as [[e|records'] w1]; [exact H1|]. now apply IH.
Qed.

Lemma clearOldData_preserves w :
  P (World.pandemicData w) ->
  P (World.pandemicData (snd (PandemicService.clearOldData now region w))).
Proof.
  intro H. unfold PandemicService.clearOldData. unfold_async.
  destruct (PandemicService.findOne _ _); [exact H|]. simpl. now apply P_clear.
Qed.

Lemma analyze_preserves env weather aqi sp w :
  P (World.pandemicData w) ->
  P (World.pandemicData
       (snd (PandemicService.analyzeAndCreatePandemicData env now region weather aqi sp w))).
Proof.
  intro H. unfold PandemicService.analyzeAndCreatePandemicData.
  unfold Async.tryCatch.
  destruct (lt sp 40); [exact H|].
  unfold PandemicService.getActivePandemics. unfold Async.bind at 1. unfold Async.bind at 1.
  unfold Async.get, Async.ret at 1.
  destruct (PandemicService.detectPandemicsWithGemini env now region weather aqi sp)
    as [[[[|p ps]|] analysis]|].
  2:{ pose proof (reconcile_preserves sp analysis (p :: ps) [] w H) as H1.
      destruct (PandemicService.reconcile now region sp analysis (p :: ps) [] w)
        as [[e|records] w1]; exact H1. }
  all: unfold Async.bind;
    pose proof (clearOldData_preserves w H) as H1;
    destruct (PandemicService.clearOldData now region w) as [[e|[]] w1]; exact H1.
Qed.

End StoreInvariant.

Section FindNone.
Variable f : PandemicData.t -> bool.

Lemma findOne_None l :
  PandemicService.findOne f l = None -> forall p, In p l -> f p = false.
Proof.
  induction l as [|q l IH]; simpl; [intros _ p []|].
  destruct (f q) eqn:E; [discriminate|].
  intros H p [<-|Hp]; [exact E|now apply IH].
Qed.

Lemma replaceFirst_sameDocument new l e :
  PandemicService.findOne f l = Some e -> Outbreak.sameDocument e new ->
  Forall2 Outbreak.sameDocument l (PandemicService.replaceFirst f new l).
Proof.
  intros Hfind Hnew. revert Hfind.
  induction l as [|q l IH]; simpl; [discriminate|].
  destruct (f q).
  - intro H. injection H as ->. constructor; [exact Hnew|].
    clear. induction l; constructor; [apply sameDocument_refl|assumption].
  - intro H. constructor; [apply sameDocument_refl|now apply IH].
Qed.

End FindNone.

(** *** Every stored record passes the schema's validation *)

Lemma Qle_bool_compat (a a' b b' : Q) : a == a' -> b == b' -> Qle_bool a b = Qle_bool a' b'.
Proof.
  intros Ha Hb. destruct (Qle_bool a b) eqn:E; symmetry.
  - apply Qle_bool_iff. rewrite <- Ha, <- Hb. now apply Qle_bool_iff.
  - destruct (Qle_bool a' b') eqn:E'; [|reflexivity].
    apply Qle_bool_iff in E'. rewrite <- Ha, <- Hb in E'. apply Qle_bool_iff in E'.
    congruence.
Qed.

Lemma mergeInto_valid existing pandemic :
  PandemicService.validate existing = None ->
  PandemicService.validateModified existing (PandemicService.mergeInto existing pandemic)
  = None ->
  PandemicService.validate (PandemicService.mergeInto existing pandemic) = None.
Proof.
  unfold PandemicService.validate, PandemicService.validateModified.
  cbn [PandemicService.mergeInto PandemicData.region PandemicData.diseaseName
       PandemicData.severity PandemicData.transmissionRate].
  destruct (String.eqb (PandemicData.region existing) ""); [discriminate|].
  destruct (String.eqb (PandemicData.diseaseName existing) ""); [discriminate|].
  destruct (PandemicData.inEnum (PandemicData.severity existing)) eqn:Hsev;
    [|discriminate].
  destruct (PandemicData.rateInRange (PandemicData.transmissionRate existing)) eqn:Hrate;
    [|discriminate].
  intros _.
  set (severity := or_str _ _). set (rate := or_num _ _).
  destruct (String.eqb severity (PandemicData.severity existing)) eqn:E1.
  - apply String.eqb_eq in E1. rewrite E1, Hsev. cbn [negb andb].
    destruct (Qeq_bool rate (PandemicData.transmissionRate existing)) eqn:E2.
    + apply Qeq_bool_iff in E2. unfold PandemicData.rateInRange in *.
      rewrite (Qle_bool_compat 0 0 rate _ (Qeq_refl 0) E2).
      rewrite (Qle_bool_compat rate _ 10 10 E2 (Qeq_refl 10)). now rewrite Hrate.
    + cbn [negb andb]. destruct (PandemicData.rateInRange rate); [reflexivity|discriminate].
  - cbn [negb andb]. destruct (PandemicData.inEnum severity); [|discriminate].
    cbn [negb].
    destruct (Qeq_bool rate (PandemicData.transmissionRate existing)) eqn:E2.
    + apply Qeq_bool_iff in E2. unfold PandemicData.rateInRange in *.
      rewrite (Qle_bool_compat 0 0 rate _ (Qeq_refl 0) E2).
      rewrite (Qle_bool_compat rate _ 10 10 E2 (Qeq_refl 10)). now rewrite Hrate.
    + cbn [negb andb]. destruct (PandemicData.rateInRange rate); [reflexivity|discriminate].
Qed.

Lemma valid_spec (r : PandemicData.t) :
  valid r <->
  PandemicData.region r <> EmptyString
  /\ PandemicData.diseaseName r <> EmptyString
  /\ In (PandemicData.severity r) PandemicData.severityEnum
  /\ 0 <= PandemicData.transmissionRate r <= 10.
Proof.
  unfold valid, PandemicService.validate.
  rewrite <- rateInRange_spec.
  assert (Henum : PandemicData.inEnum (PandemicData.severity r) = true
                  <-> In (PandemicData.severity r) PandemicData.severityEnum).
  { unfold PandemicData.inEnum. rewrite existsb_exists. split.
    - intros (s & Hs & E). apply String.eqb_eq in E. now subst.
    - intro H. exists (PandemicData.severity r). split; [exact H|apply String.eqb_refl]. }
  rewrite <- Henum.
  destruct (String.eqb (PandemicData.region r) "") eqn:E1.
  { apply String.eqb_eq in E1. split; [discriminate|]. intros (H & _). congruence. }
  destruct (String.eqb (PandemicData.diseaseName r) "") eqn:E2.
  { apply String.eqb_eq in E2. split; [discriminate|]. intros (_ & H & _). congruence. }
  apply String.eqb_neq in E1. apply String.eqb_neq in E2.
  destruct (PandemicData.inEnum (PandemicData.severity r)); cbn [negb].
  2:{ split; [discriminate|]. intros (_ & _ & H & _). discriminate H. }
  destruct (PandemicData.rateInRange (PandemicData.transmissionRate r)); cbn [negb].
  - split; [now repeat split|reflexivity].
  - split; [discriminate|]. intros (_ & _ & _ & H). discriminate H.
Qed.

(** X11. The outbreak collection keeps passing the schema's validation: if
    every stored record has a region, a disease name, a severity of the
    enumeration and a transmission rate between 0 and 10, then so has
    every record after [analyzeAndCreatePandemicData] (which merges,
    creates and cleans up) and after [createPandemicData]. *)
Theorem outbreak_store_stays_valid
    (env : Env.t) (now : Z) (region : string) (weather : WeatherReading.t)
    (aqi : AqiReading.t) (surgeProbability : Q) (w : World.t) :
  Forall valid (World.pandemicData w) ->
  Forall valid
    (World.pandemicData
       (snd (PandemicService.analyzeAndCreatePandemicData env now region weather aqi
               surgeProbability w)))
  /\ (forall data,
        Forall valid (World.pandemicData (snd (PandemicService.createPandemicData data w))))
  /\ (forall r, valid r <->
        PandemicData.region r <> EmptyString
        /\ PandemicData.diseaseName r <> EmptyString
        /\ In (PandemicData.severity r) PandemicData.severityEnum
        /\ 0 <= PandemicData.transmissionRate r <= 10).
Proof.
  intro Hstore. split; [|split; [|apply valid_spec]].
  2:{ intro data. unfold PandemicService.createPandemicData.
      destruct (PandemicService.validate data) eqn:Hdata; [exact Hstore|].
      unfold_async. simpl. apply Forall_app. split; [exact Hstore|]. now constructor. }
  revert Hstore.
  apply (analyze_preserves now region (Forall valid)).
  - intros l pandemic existing Hl Hfind Hvalid.
    apply Forall_forall. intros r Hr. apply replaceFirst_In in Hr.
    rewrite Forall_forall in Hl. destruct Hr as [->|Hr]; [|now apply Hl].
    apply mergeInto_valid; [|exact Hvalid].
    apply Hl. now apply (findOne_Some _ _ _ Hfind).
  - intros l sp analysis pandemic Hl _ Hvalid.
    apply Forall_app. split; [exact Hl|]. now constructor.
  - intros l Hl. apply Forall_forall. intros r Hr. apply filter_In in Hr.
    rewrite Forall_forall in Hl. now apply Hl.
Qed.

Lemma outbreak_store_stays_valid_witness :
  Forall valid
    (World.pandemicData
       (snd (PandemicService.analyzeAndCreatePandemicData
               (Scenarios.reasoning Scenarios.fifty Scenarios.eighty) Scenarios.threeHours
               "Mumbai" Scenarios.mumbaiWeather Scenarios.mumbaiAqi 45 Examples.mumbaiWorld))).
Proof.
  apply (outbreak_store_stays_valid
           (Scenarios.reasoning Scenarios.fifty Scenarios.eighty) Scenarios.threeHours
           "Mumbai" Scenarios.mumbaiWeather Scenarios.mumbaiAqi 45 Examples.mumbaiWorld).
  constructor; [reflexivity|constructor].
Defined.

(** *** One record per outbreak and day *)

Section OrdPairs.
Context {A : Type}.
Variable R : A -> A -> Prop.

Lemma ForallOrdPairs_snoc (l : list A) (x : A) :
  ForallOrdPairs R l -> Forall (fun a => R a x) l -> ForallOrdPairs R (l ++ [x]).
Proof.
  induction 1 as [|a l Ha Hl IH]; intro Hx; simpl.
  - repeat constructor.
  - inversion Hx; subst. constructor; [|now apply IH].
    apply Forall_app. split; [exact Ha|]. now constructor.
Qed.

Lemma ForallOrdPairs_filter (keep : A -> bool) (l : list A) :
  ForallOrdPairs R l -> ForallOrdPairs R (filter keep l).
Proof.
  induction 1 as [|a l Ha Hl IH]; simpl; [constructor|].
  destruct (keep a); [|exact IH]. constructor; [|exact IH].
  apply Forall_forall. intros x Hx. apply filter_In in Hx.
  rewrite Forall_forall in Ha. now apply Ha.
Qed.

End OrdPairs.

Lemma spaced_sameDocument (l l' : list PandemicData.t) :
  Forall2 Outbreak.sameDocument l l' -> spaced l -> spaced l'.
Proof.
  unfold spaced. induction 1 as [|a a' l l' Ha Hl IH]; intro H; [constructor|].
  inversion H as [|? ? Hhead Htail]; subst. constructor; [|now apply IH].
  clear IH H Htail. induction Hl as [|b b' l l' Hb Hl IH]; [constructor|].
  inversion Hhead; subst. constructor; [|now apply IH].
  destruct Ha as (Ra & Da & Na & _). destruct Hb as (Rb & Db & Nb & _).
  unfold sameOutbreak in *. rewrite Ra, Da, Na, Rb, Db, Nb. assumption.
Qed.

(** X12. Reconciliation never leaves two records of the same region and
    disease dated within 24 hours of each other, when the collection had
    none before: an observation inside the window of a record is merged
    into it, and a record is only created outside every window. *)
Theorem outbreak_records_stay_a_day_apart
    (env : Env.t) (now : Z) (region : string) (weather : WeatherReading.t)
    (aqi : AqiReading.t) (surgeProbability : Q) (w : World.t) :
  spaced (World.pandemicData w) ->
  spaced (World.pandemicData
            (snd (PandemicService.analyzeAndCreatePandemicData env now region weather aqi
                    surgeProbability w))).
Proof.
  apply (analyze_preserves now region spaced).
  - intros l pandemic existing Hl Hfind _.
    apply (spaced_sameDocument l); [|exact Hl].
    apply (replaceFirst_sameDocument _ _ _ existing Hfind).
    apply mergeInto_sameDocument.
  - intros l sp analysis pandemic Hl Hfind Hvalid.
    apply ForallOrdPairs_snoc; [exact Hl|].
    apply Forall_forall. intros a Ha [Hregion Hname]. left.
    pose proof (findOne_None _ _ Hfind a Ha) as Hrecent.
    unfold PandemicService.isRecent in Hrecent.
    unfold PandemicService.validate in Hvalid.
    cbn [PandemicService.newRecord PandemicData.region PandemicData.diseaseName
         PandemicData.date] in *.
    destruct (GeminiAnalysis.diseaseName pandemic) as [name|].
    + rewrite Hregion, Hname, !String.eqb_refl in Hrecent. cbn [andb] in Hrecent.
      apply Z.leb_gt in Hrecent. unfold PandemicService.day. lia.
    + change (String.eqb "" "") with true in Hvalid.
      destruct (String.eqb region ""); discriminate Hvalid.
  - intros l Hl. now apply ForallOrdPairs_filter.
Qed.

Lemma outbreak_records_stay_a_day_apart_witness :
  spaced
    (World.pandemicData
       (snd (PandemicService.analyzeAndCreatePandemicData
               (Scenarios.reasoning Scenarios.fifty Scenarios.eighty) Scenarios.threeHours
               "Mumbai" Scenarios.mumbaiWeather Scenarios.mumbaiAqi 45 Examples.mumbaiWorld))).
Proof.
  apply (outbreak_records_stay_a_day_apart
           (Scenarios.reasoning Scenarios.fifty Scenarios.eighty) Scenarios.threeHours
           "Mumbai" Scenarios.mumbaiWeather Scenarios.mumbaiAqi 45 Examples.mumbaiWorld).
  repeat constructor.
Defined.

(** *** What is never deleted *)

Lemma filter_replaceFirst (f g : PandemicData.t -> bool) new l e :
  PandemicService.findOne f l = Some e -> g e = false -> g new = false ->
  filter g (PandemicService.replaceFirst f new l) = filter g l.
Proof.
  intros Hfind He Hnew.
  destruct (replaceFirst_others f new l e Hfind) as (before & after & -> & -> & _).
  rewrite !filter_app. simpl. now rewrite He, Hnew.
Qed.

Lemma filter_filter_absorb {A} (keep g : A -> bool) (l : list A) :
  (forall p, keep p = false -> g p = false) -> filter g (filter keep l) = filter g l.
Proof.
  intro H. induction l as [|p l IH]; simpl; [reflexivity|].
  destruct (keep p) eqn:E; simpl; [now rewrite IH|].
  now rewrite (H p E).
Qed.

Lemma stale_sameDocument now region r0 r :
  Outbreak.sameDocument r0 r -> stale now region r = stale now region r0.
Proof. intros (Hr & Hd & _ & Hs). unfold stale. now rewrite Hr, Hd, Hs. Qed.

(** X13. What [analyzeAndCreatePandemicData] for a region leaves alone: the
    records of every other region are exactly as before, in the same
    order; and of the region's own records only those can disappear that
    come from the basic analysis and are older than 7 days - every other
    record is still there, as the same document (possibly merged
    into). *)
Theorem analyze_deletes_only_stale_records
    (env : Env.t) (now : Z) (region : string) (weather : WeatherReading.t)
    (aqi : AqiReading.t) (surgeProbability : Q) (w : World.t) :
  let w' := snd (PandemicService.analyzeAndCreatePandemicData env now region weather aqi
                   surgeProbability w) in
  filter (fun p => negb (String.eqb (PandemicData.region p) region)) (World.pandemicData w')
  = filter (fun p => negb (String.eqb (PandemicData.region p) region)) (World.pandemicData w)
  /\ (forall r0, In r0 (World.pandemicData w) -> stale now region r0 = false ->
        exists r, In r (World.pandemicData w') /\ Outbreak.sameDocument r0 r).
Proof.
  cbv zeta. split.
  - apply (analyze_preserves now region
             (fun l => filter (fun p => negb (String.eqb (PandemicData.region p) region)) l
                       = filter (fun p => negb (String.eqb (PandemicData.region p) region))
                           (World.pandemicData w))); [| | |reflexivity].
    + intros l pandemic existing Hl Hfind _. rewrite <- Hl.
      apply (filter_replaceFirst _ _ _ _ existing Hfind).
      * apply findOne_Some in Hfind. destruct Hfind as [_ Hrecent].
        unfold PandemicService.isRecent in Hrecent.
        apply andb_true_iff in Hrecent. destruct Hrecent as [Hrecent _].
        apply andb_true_iff in Hrecent. destruct Hrecent as [Hrecent _].
        now rewrite Hrecent.
      * cbn [PandemicService.mergeInto PandemicData.region].
        apply findOne_Some in Hfind. destruct Hfind as [_ Hrecent].
        unfold PandemicService.isRecent in Hrecent.
        apply andb_true_iff in Hrecent. destruct Hrecent as [Hrecent _].
        apply andb_true_iff in Hrecent. destruct Hrecent as [Hrecent _].
        now rewrite Hrecent.
    + intros l sp analysis pandemic Hl _ _. rewrite filter_app, Hl.
      cbn [filter PandemicService.newRecord PandemicData.region].
      rewrite String.eqb_refl. cbn [negb]. apply app_nil_r.
    + intros l Hl. rewrite <- Hl. apply filter_filter_absorb.
      intros p Hp. apply negb_false_iff in Hp. unfold stale in Hp.
      apply andb_true_iff in Hp. destruct Hp as [Hp _].
      apply andb_true_iff in Hp. destruct Hp as [Hp _]. now rewrite Hp.
  - apply (analyze_preserves now region
             (fun l => forall r0, In r0 (World.pandemicData w) -> stale now region r0 = false ->
                 exists r, In r l /\ Outbreak.sameDocument r0 r)).
    + intros l pandemic existing Hl Hfind _ r0 Hr0 Hkeep.
      destruct (Hl r0 Hr0 Hkeep) as (r & Hr & Hsame).
      destruct (replaceFirst_others _ (PandemicService.mergeInto existing pandemic) l
                  existing Hfind) as (before & after & -> & -> & _).
      apply in_app_or in Hr. destruct Hr as [Hr|[<-|Hr]].
      * exists r. split; [apply in_or_app; now left|exact Hsame].
      * exists (PandemicService.mergeInto existing pandemic).
        split; [apply in_or_app; right; now left|].
        eapply sameDocument_trans; [exact Hsame|apply mergeInto_sameDocument].
      * exists r. split; [apply in_or_app; right; now right|exact Hsame].
    + intros l sp analysis pandemic Hl _ _ r0 Hr0 Hkeep.
      destruct (Hl r0 Hr0 Hkeep) as (r & Hr & Hsame).
      exists r. split; [apply in_or_app; now left|exact Hsame].
    + intros l Hl r0 Hr0 Hkeep.
      destruct (Hl r0 Hr0 Hkeep) as (r & Hr & Hsame).
      exists r. split; [|exact Hsame]. apply filter_In. split; [exact Hr|].
      rewrite (stale_sameDocument now region r0 r Hsame), Hkeep. reflexivity.
    + intros r0 Hr0 _. exists r0. split; [exact Hr0|apply sameDocument_refl].
Qed.

(** ** The risk score as a function of its inputs *)

Lemma gt_monotone (a b t : Q) : a <= b -> gt a t = true -> gt b t = true.
Proof.
  intros Hab Ha. apply gt_true_iff in Ha. apply gt_true_iff.
  eapply Qlt_le_trans; eassumption.
Qed.

(** The score before clamping, as the sum of the bonuses. *)
Lemma bonus_monotone (c c' : bool) (points : Q) :
  0 <= points -> (c = true -> c' = true) -> bonus c points <= bonus c' points.
Proof.
  intros Hp Hc. unfold bonus. destruct c; [rewrite Hc by reflexivity; apply Qle_refl|].
  destruct c'; [exact Hp|apply Qle_refl].
Qed.

Lemma pollutant_bonus_monotone (a b : Q) :
  a <= b -> pollutant_bonus a <= pollutant_bonus b.
Proof.
  intro Hab. unfold pollutant_bonus.
  destruct (gt a 150) eqn:E1; [rewrite (gt_monotone a b 150 Hab E1); apply Qle_refl|].
  destruct (gt a 100) eqn:E2.
  { rewrite (gt_monotone a b 100 Hab E2). destruct (gt b 150); discriminate. }
  destruct (gt a 50) eqn:E3.
  { rewrite (gt_monotone a b 50 Hab E3). destruct (gt b 150), (gt b 100); discriminate. }
  destruct (gt b 150), (gt b 100), (gt b 50); discriminate.
Qed.

Lemma clamp_monotone (x y : Q) : x <= y -> clamp 0 100 x <= clamp 0 100 y.
Proof.
  intro H. rewrite <- !clamp_spec. unfold Math_min, Math_max.
  apply Q.min_le_compat_l. now apply Q.max_le_compat_l.
Qed.


Lemma reference_score_monotone (f g : Features.t) :
  Risk.noMilder f g -> reference_score f <= reference_score g.
Proof.
  intros (Haqi & Htemp & Hhum & Hrain & Hadm & Hbase & Hfest & Hmult).
  unfold reference_score. apply clamp_monotone.
  repeat apply Qplus_le_compat; try apply Qle_refl.
  - now apply pollutant_bonus_monotone.
  - apply bonus_monotone; [discriminate|now apply gt_monotone].
  - apply bonus_monotone; [discriminate|now apply gt_monotone].
  - apply bonus_monotone; [discriminate|now apply gt_monotone].
  - apply bonus_monotone; [discriminate|].
    rewrite (gt_compat _ (Features.admissionsLast7dAvg g) ((12 # 10) * Features.baselineAdmissions g)
               ((12 # 10) * Features.baselineAdmissions f)); [|reflexivity|now rewrite Hbase].
    now apply gt_monotone.
  - rewrite Hfest. unfold bonus. destruct (Features.isFestival f); [|apply Qle_refl].
    rewrite Hmult. apply Qle_refl.
Qed.

Lemma calculateSurgeProbability_reference (f : Features.t) :
  calculateSurgeProbability f == reference_score f.
Proof.
  unfold calculateSurgeProbability, reference_score.
  rewrite clamp_spec. apply clamp_compat.
  unfold pollutant_bonus, bonus.
  rewrite (gt_compat (Features.admissionsLast7dAvg f) (Features.admissionsLast7dAvg f)
             (Features.baselineAdmissions f * (12 # 10))
             ((12 # 10) * Features.baselineAdmissions f)) by (reflexivity || ring).
  destruct (gt (Features.aqi f) 150), (gt (Features.aqi f) 100), (gt (Features.aqi f) 50),
    (gt (Features.temperature f) 35), (gt (Features.humidity f) 80),
    (gt (Features.precipitation f) 5),
    (gt (Features.admissionsLast7dAvg f) ((12 # 10) * Features.baselineAdmissions f)),
    (Features.isFestival f); ring.
Qed.

(** Without a festival the score is one of 20, 25, ..., 95. *)
Lemma score_without_festival (f : Features.t) :
  Features.isFestival f = false ->
  exists steps : Z, (4 <= steps <= 19)%Z /\ calculateSurgeProbability f = inject_Z (5 * steps).
Proof.
  intro Hfest. unfold calculateSurgeProbability. rewrite Hfest.
  destruct (gt (Features.aqi f) 150), (gt (Features.aqi f) 100), (gt (Features.aqi f) 50),
    (gt (Features.temperature f) 35), (gt (Features.humidity f) 80),
    (gt (Features.precipitation f) 5),
    (gt (Features.admissionsLast7dAvg f) (Features.baselineAdmissions f * (12 # 10)));
    match goal with
    | |- exists steps, _ /\ ?score = _ =>
        let v := eval vm_compute in (Qnum score / 5)%Z in
        exists v; split; [lia|vm_compute; reflexivity]
    end.
Qed.

(** X14. The risk score never falls when a condition worsens: with a higher
    pollutant index, temperature, humidity, precipitation or admission
    average, everything else the same, the score is at least what it
    was.  Without a festival it is one of 20, 25, ..., 95. *)
Theorem risk_score_monotone_and_stepped (f g : Features.t) :
  (Risk.noMilder f g -> calculateSurgeProbability f <= calculateSurgeProbability g)
  /\ (Features.isFestival f = false ->
      20 <= calculateSurgeProbability f <= 95
      /\ exists steps : Z, calculateSurgeProbability f = inject_Z (5 * steps)).
Proof.
  split.
  - intro H. rewrite !calculateSurgeProbability_reference.
    now apply reference_score_monotone.
  - intro Hfest. destruct (score_without_festival f Hfest) as (steps & Hsteps & ->).
    split; [|now exists steps].
    split; [change 20 with (inject_Z 20)|change 95 with (inject_Z 95)];
      rewrite <- Zle_Qle; lia.
Qed.

(** ** The fallback lists of diseases and medicines *)

Lemma NoDup_by_newSet (l : list string) : newSet l = l -> NoDup l.
Proof. intro H. rewrite <- H. apply newSet_NoDup. Qed.

(** X15. The fallback lists of [getDefaultDiseases] and [getDefaultMedicines]
    are never empty and name nothing twice; they are what
    [getDiseasesForConditions] and [getMedicinesForDiseases] answer
    without an API key, and what the first answers when the reasoning
    service gives nothing usable. *)
Theorem default_advice_lists
    (env : Env.t) (now : Z) (weather : WeatherReading.t) (aqi : AqiReading.t)
    (surgeProbability : Q) :
  DiseaseMedicineService.getDefaultDiseases weather aqi <> []
  /\ NoDup (DiseaseMedicineService.getDefaultDiseases weather aqi)
  /\ DiseaseMedicineService.getDefaultMedicines weather aqi <> []
  /\ NoDup (DiseaseMedicineService.getDefaultMedicines weather aqi)
  /\ (truthy_str (Env.GEMINI_API_KEY env) = false ->
      DiseaseMedicineService.getDiseasesForConditions env now weather aqi surgeProbability
      = DiseaseMedicineService.getDefaultDiseases weather aqi
      /\ forall diseases,
           DiseaseMedicineService.getMedicinesForDiseases env now diseases weather aqi
           = DiseaseMedicineService.getDefaultMedicines weather aqi)
  /\ (Env.geminiDiseases env now weather aqi surgeProbability = None ->
      DiseaseMedicineService.getDiseasesForConditions env now weather aqi surgeProbability
      = DiseaseMedicineService.getDefaultDiseases weather aqi).
Proof.
  unfold DiseaseMedicineService.getDefaultDiseases, DiseaseMedicineService.getDefaultMedicines.
  split; [|split; [|split; [|split; [|split; [intro H; split|intro H]]]]].
  - destruct (gt (AqiReading.aqi aqi) 100), (gt (WeatherReading.temperature weather) 35),
      (lt (WeatherReading.temperature weather) 15), (gt (WeatherReading.humidity weather) 80),
      (gt (WeatherReading.precipitation weather) 5); discriminate.
  - destruct (gt (AqiReading.aqi aqi) 100), (gt (WeatherReading.temperature weather) 35),
      (lt (WeatherReading.temperature weather) 15), (gt (WeatherReading.humidity weather) 80),
      (gt (WeatherReading.precipitation weather) 5);
      apply NoDup_by_newSet; vm_compute; reflexivity.
  - destruct (gt (AqiReading.aqi aqi) 100), (gt (WeatherReading.temperature weather) 35),
      (lt (WeatherReading.temperature weather) 15), (gt (WeatherReading.humidity weather) 80);
      discriminate.
  - destruct (gt (AqiReading.aqi aqi) 100), (gt (WeatherReading.temperature weather) 35),
      (lt (WeatherReading.temperature weather) 15), (gt (WeatherReading.humidity weather) 80);
      apply NoDup_by_newSet; vm_compute; reflexivity.
  - unfold DiseaseMedicineService.getDiseasesForConditions. now rewrite H.
  - intro diseases. unfold DiseaseMedicineService.getMedicinesForDiseases. now rewrite H.
  - unfold DiseaseMedicineService.getDiseasesForConditions. rewrite H.
    destruct (negb _); reflexivity.
Qed.

(** ** The estimated patient count *)

Lemma Math_round_monotone (x y : Q) : x <= y -> Math_round x <= Math_round y.
Proof.
  intro H. unfold Math_round. rewrite <- Zle_Qle. apply Qfloor_resp_le.
  now apply Qplus_le_l.
Qed.

Lemma estimate_monotone (base sp sp' total total' : Q) :
  0 <= base -> sp <= sp' -> total <= total' ->
  Outbreak.estimate base sp total <= Outbreak.estimate base sp' total'.
Proof.
  intros Hbase Hsp Htotal. unfold Outbreak.estimate.
  apply Q.max_le_compat_l. apply Qplus_le_compat; apply Math_round_monotone.
  - setoid_replace (base * (1 + sp / 100 * (5 # 10))) with (base + base * sp * (1 # 200))
      by field.
    setoid_replace (base * (1 + sp' / 100 * (5 # 10))) with (base + base * sp' * (1 # 200))
      by field.
    apply Qplus_le_r. apply Qmult_le_compat_r; [|discriminate].
    rewrite (Qmult_comm base sp), (Qmult_comm base sp').
    now apply Qmult_le_compat_r.
  - rewrite (Qmult_comm _ total), (Qmult_comm _ total').
    apply Qmult_le_compat_r; [exact Htotal|discriminate].
Qed.

Lemma sum_activeCases_nonneg (l : list PandemicData.t) : forall acc,
  0 <= acc -> Forall (fun p => 0 < PandemicData.activeCases p) l ->
  0 <= fold_left (fun sum p => sum + PandemicData.activeCases p) l acc.
Proof.
  induction l as [|p l IH]; intros acc Hacc Hl; [exact Hacc|].
  inversion Hl; subst. simpl. apply IH; [|assumption].
  apply Qle_trans with (0 + 0); [discriminate|].
  apply Qplus_le_compat; [exact Hacc|now apply Qlt_le_weak].
Qed.

(** X16. The estimated patient count never falls when the risk score or the
    number of active cases rises (for a non-negative baseline); the
    number of active cases is never negative. *)
Theorem patient_count_monotone
    (now : Z) (region : string) (basePatientCount sp sp' : Q) (w w' : World.t) :
  0 <= basePatientCount ->
  sp <= sp' ->
  Outbreak.totalActiveCases now region (World.pandemicData w)
  <= Outbreak.totalActiveCases now region (World.pandemicData w') ->
  exists count count',
    PandemicService.calculatePatientCountFromPandemics now region basePatientCount sp w
    = (inr count, w)
    /\ PandemicService.calculatePatientCountFromPandemics now region basePatientCount sp' w'
       = (inr count', w')
    /\ count <= count'
    /\ 0 <= Outbreak.totalActiveCases now region (World.pandemicData w).
Proof.
  intros Hbase Hsp Htotal. eexists _, _.
  rewrite !calculatePatientCount_run. split; [reflexivity|]. split; [reflexivity|].
  split; [now apply estimate_monotone|].
  unfold Outbreak.totalActiveCases. apply sum_activeCases_nonneg; [discriminate|].
  apply Forall_forall. intros p Hp. now apply activePandemics_In in Hp.
Qed.

Lemma patient_count_monotone_witness :
  exists count count',
    PandemicService.calculatePatientCountFromPandemics 0 "Mumbai" 100 45 World.empty
    = (inr count, World.empty)
    /\ PandemicService.calculatePatientCountFromPandemics 0 "Mumbai" 100 70
         Examples.mumbaiWorld
       = (inr count', Examples.mumbaiWorld)
    /\ count <= count'.
Proof.
  destruct (patient_count_monotone 0 "Mumbai" 100 45 70 World.empty Examples.mumbaiWorld)
    as (count & count' & H1 & H2 & Hle & _); [discriminate|discriminate|discriminate|].
  exists count, count'. repeat split; assumption.
Defined.

(** ** The medicines of the active outbreaks *)

Lemma fold_addAll_spec (lists : list (list string)) : forall set,
  NoDup set ->
  NoDup (fold_left addAll lists set)
  /\ forall m, In m (fold_left addAll lists set)
               <-> In m set \/ exists l, In l lists /\ In m l.
Proof.
  induction lists as [|l lists IH]; intros set Hset; simpl.
  - split; [exact Hset|]. intro m. split; [now left|]. intros [H|(l & [] & _)]. exact H.
  - destruct (IH (addAll set l) (addAll_NoDup l set Hset)) as [Hnodup Hin].
    split; [exact Hnodup|]. intro m. rewrite Hin, addAll_In. split.
    + intros [[H|H]|(l' & Hl' & Hm)]; [now left| |].
      * right. exists l. split; [now left|exact H].
      * right. exists l'. split; [now right|exact Hm].
    + intros [H|(l' & [<-|Hl'] & Hm)]; [left; now left|left; now right|].
      right. exists l'. now split.
Qed.

(** X17. [getRequiredMedicinesFromPandemics] gives the medicines of the active
    outbreaks of the region: every medicine some active record requires,
    nothing else, each once; none without an active outbreak. *)
Theorem required_medicines_are_the_union (now : Z) (region : string) (w : World.t) :
  exists medicines,
    PandemicService.getRequiredMedicinesFromPandemics now region w = (inr medicines, w)
    /\ NoDup medicines
    /\ (forall m, In m medicines <->
          exists p, In p (PandemicService.activePandemics now region 7 (World.pandemicData w))
                    /\ In m (PandemicData.requiredMedicines p))
    /\ (PandemicService.activePandemics now region 7 (World.pandemicData w) = [] ->
        medicines = []).
Proof.
  eexists. split; [reflexivity|].
  set (active := PandemicService.activePandemics now region 7 (World.pandemicData w)).
  assert (E : fold_left
                (fun medicinesSet p =>
                   fold_left Set_add (PandemicData.requiredMedicines p) medicinesSet)
                active []
              = fold_left addAll (map PandemicData.requiredMedicines active) []).
  { generalize (@nil string). induction active as [|p l IH]; intro set; [reflexivity|].
    simpl. apply IH. }
  rewrite E. destruct (fold_addAll_spec (map PandemicData.requiredMedicines active) []
                         (NoDup_nil _)) as [Hnodup Hin].
  split; [exact Hnodup|]. split.
  - intro m. rewrite Hin. split.
    + intros [[]|(l & Hl & Hm)]. apply in_map_iff in Hl. destruct Hl as (p & <- & Hp).
      now exists p.
    + intros (p & Hp & Hm). right. exists (PandemicData.requiredMedicines p).
      split; [now apply in_map|exact Hm].
  - intro Hnone. now rewrite Hnone.
Qed.

(** ** The order of two observations *)








(** ** The prediction assembler: what a run leaves behind *)

Lemma onlyReadings_refl w : onlyReadings w w.
Proof. repeat split. Qed.

Lemma onlyReadings_trans w1 w2 w3 :
  onlyReadings w1 w2 -> onlyReadings w2 w3 -> onlyReadings w1 w3.
Proof.
  unfold onlyReadings. intros (a & b & c) (a' & b' & c'). repeat split; congruence.
Qed.

Lemma sameStores_onlyReadings w w' : Frame.sameStores w w' -> onlyReadings w w'.
Proof. intros (_ & _ & a & b & c). now repeat split. Qed.

Lemma fetchAndStoreAqi_onlyReadings env now cityName state country force w :
  onlyReadings w (snd (DataService.fetchAndStoreAqi env now cityName state country force w)).
Proof.
  pose proof (fetchAndStoreAqi_outcome env now cityName state country force w) as H.
  destruct (DataService.fetchAndStoreAqi env now cityName state country force w)
    as [[e|r] w']; simpl.
  - now apply sameStores_onlyReadings.
  - destruct H as [(_ & -> & _)|(w1 & Hs & _ & -> & _)]; [apply onlyReadings_refl|].
    apply sameStores_onlyReadings in Hs. destruct Hs as (a & b & c). now repeat split.
Qed.

Lemma fetchAndStoreWeather_onlyReadings env now cityName force w :
  onlyReadings w (snd (DataService.fetchAndStoreWeather env now cityName force w)).
Proof.
  pose proof (fetchAndStoreWeather_outcome env now cityName force w) as H.
  destruct (DataService.fetchAndStoreWeather env now cityName force w)
    as [[e|r] w']; simpl.
  - now apply sameStores_onlyReadings.
  - destruct H as [(_ & -> & _)|(-> & _)]; [apply onlyReadings_refl|]. repeat split.
Qed.

Lemma getLatestAqi_total cityName w :
  exists latest, DataService.getLatestAqi cityName w = (inr latest, w).
Proof.
  unfold DataService.getLatestAqi. destruct (String.eqb cityName ""); eexists; reflexivity.
Qed.

Lemma getLatestWeather_total cityName w :
  exists latest, DataService.getLatestWeather cityName w = (inr latest, w).
Proof.
  unfold DataService.getLatestWeather. destruct (String.eqb cityName ""); eexists; reflexivity.
Qed.

Lemma resolveReadings_onlyReadings env now cityName w :
  onlyReadings w (snd (PredictionService.resolveReadings env now cityName w)).
Proof.
  unfold PredictionService.resolveReadings.
  unfold Async.bind at 1. destruct (getLatestAqi_total cityName w) as [aqi ->].
  unfold Async.bind at 1. destruct (getLatestWeather_total cityName w) as [weather ->].
  assert (Haqi : forall weather' w1, onlyReadings w w1 ->
            onlyReadings w
              (snd (Async.bind
                      (match aqi with
                       | Some aqi => Async.ret aqi
                       | None =>
                           Async.tryCatch
                             (DataService.fetchAndStoreAqi env now cityName "" "India" true)
                             (fun _ => Async.ret
                                (PredictionService.estimatedAqi now cityName weather'))
                       end)
                      (fun aqi => Async.ret (aqi, weather')) w1))).
  { intros weather' w1 H1. unfold Async.bind, Async.ret.
    destruct aqi as [aqi|]; [exact H1|]. unfold Async.tryCatch.
    pose proof (fetchAndStoreAqi_onlyReadings env now cityName "" "India" true w1) as H.
    destruct (DataService.fetchAndStoreAqi env now cityName "" "India" true w1)
      as [[e|r] w2]; simpl in *; eapply onlyReadings_trans; eassumption. }
  destruct weather as [weather|].
  - unfold Async.bind at 1, Async.ret at 1. apply Haqi, onlyReadings_refl.
  - unfold Async.bind at 1, Async.tryCatch at 1, Async.throw.
    pose proof (fetchAndStoreWeather_onlyReadings env now cityName true w) as H.
    destruct (DataService.fetchAndStoreWeather env now cityName true w) as [[e|r] w1];
      [exact H|]. now apply Haqi.
Qed.



Lemma Math_ceil_between (lo hi : Z) (x : Q) :
  inject_Z lo <= x -> x <= inject_Z hi ->
  inject_Z lo <= Math_ceil x /\ Math_ceil x <= inject_Z hi.
Proof.
  intros Hlo Hhi. unfold Math_ceil. split.
  - eapply Qle_trans; [exact Hlo|apply Qle_ceiling].
  - rewrite <- Zle_Qle. rewrite <- (Qceiling_Z hi). now apply Qceiling_resp_le.
Qed.

Ltac ceil_bounds lo hi :=
  apply (Math_ceil_between lo hi);
  unfold inject_Z, Qdiv; change (/ 100) with (1 # 100); lra.

Lemma generatePrediction_shape
    (env : Env.t) (now : Z) (cityName : string) (date : Z) (w w' : World.t)
    (prediction : Prediction.t) :
  PredictionService.generatePrediction env now cityName date w = (inr prediction, w') ->
  (Prediction.region prediction = cityName /\ cityName <> EmptyString)
  /\ Prediction.date prediction = date
  /\ Prediction.modelVersion prediction = PredictionService.GEMINI_MODEL
  /\ 20 <= Prediction.surgeProbability prediction <= 95
  /\ Prediction.surgeProbability prediction
     = calculateSurgeProbability (Prediction.inputSnapshot prediction)
  /\ Features.isFestival (Prediction.inputSnapshot prediction) = false
  /\ (12 <= Prediction.doctors (Prediction.staffAdvice prediction) <= 20
      /\ 24 <= Prediction.nurses (Prediction.staffAdvice prediction) <= 39
      /\ 6 <= Prediction.supportStaff (Prediction.staffAdvice prediction) <= 10)
  /\ (1200 <= Prediction.oxygen (Prediction.supplyAdvice prediction) <= 1950
      /\ 600 <= Prediction.ppe (Prediction.supplyAdvice prediction) <= 975)
  /\ Prediction.medicines (Prediction.supplyAdvice prediction)
     = Prediction.suggestedMedicines prediction
  /\ NoDup (Prediction.suggestedMedicines prediction)
  /\ NoDup (map Prediction.diseaseName (Prediction.activePandemics prediction))
  /\ World.predictions w' = World.predictions w ++ [prediction]
  /\ World.hospitalStats w' = World.hospitalStats w.
Proof.
  unfold PredictionService.generatePrediction.
  destruct (String.eqb cityName "") eqn:Hcity; [discriminate|].
  assert (Hne : cityName <> EmptyString) by now apply String.eqb_neq.
  unfold Async.bind at 1.
  pose proof (resolveReadings_onlyReadings env now cityName w) as Hframe.
  destruct (PredictionService.resolveReadings env now cityName w)
    as [[e|[aqi weather]] w1]; [discriminate|].
  simpl in Hframe. destruct Hframe as (Hstats & _ & Hpredictions).
  unfold Async.bind at 1.
  destruct (getAqiHistory_run now cityName 7 w1) as [ah ->].
  unfold Async.bind at 1.
  destruct (getWeatherHistory_run now cityName 7 w1) as [wh ->].
  unfold Async.bind at 1, Async.get at 1.
  set (features := PredictionService.buildFeatures _ _ _ _ _).
  assert (Hfest : Features.isFestival features = false) by reflexivity.
  destruct (score_without_festival features Hfest) as (steps & Hsteps & Hscore).
  assert (Hrange : 20 <= calculateSurgeProbability features <= 95).
  { rewrite Hscore.
    split; [change 20 with (inject_Z 20)|change 95 with (inject_Z 95)];
      rewrite <- Zle_Qle; lia. }
  set (surgeProbability := calculateSurgeProbability features) in *.
  unfold Async.bind at 1.
  pose proof (runOperationsAgent_world env now features surgeProbability w1) as Hagent.
  destruct (PredictionService.runOperationsAgent env now features surgeProbability w1)
    as [[e|agentResponse] w1']; simpl in Hagent; subst w1'; [discriminate|].
  unfold Async.bind at 1.
  destruct (analyzeAndCreatePandemicData_spec env now cityName weather aqi
              surgeProbability w1)
    as (records & w2 & -> & Hpandemic & _).
  destruct Hpandemic as (_ & _ & Hstats2 & Hpredictions2 & _).
  unfold Async.bind at 1.
  change (PandemicService.getActivePandemics now cityName 7 w2)
    with (@inr Async.Error _ (PandemicService.activePandemics now cityName 7
                                (World.pandemicData w2)), w2).
  cbv iota.
  unfold Async.bind at 1.
  destruct (getRequiredMedicines_run now cityName w2) as [medicines ->].
  unfold Async.bind at 1.
  rewrite calculatePatientCount_run.
  unfold Async.bind, Async.modify, Async.ret.
  intro H. injection H as <- <-.
  cbn [Prediction.region Prediction.date Prediction.modelVersion
       Prediction.surgeProbability Prediction.inputSnapshot Prediction.staffAdvice
       Prediction.supplyAdvice Prediction.suggestedMedicines Prediction.activePandemics
       Prediction.doctors Prediction.nurses Prediction.supportStaff Prediction.oxygen
       Prediction.ppe Prediction.medicines World.savePrediction World.predictions
       World.hospitalStats].
  split; [now split|]. split; [reflexivity|]. split; [reflexivity|].
  split; [exact Hrange|]. split; [reflexivity|]. split; [exact Hfest|].
  split; [split; [|split]|].
  - ceil_bounds 12%Z 20%Z.
  - ceil_bounds 24%Z 39%Z.
  - ceil_bounds 6%Z 10%Z.
  - split; [split|].
    + ceil_bounds 1200%Z 1950%Z.
    + ceil_bounds 600%Z 975%Z.
    + split; [reflexivity|]. split; [apply newSet_NoDup|]. split.
      * rewrite map_map. cbn [Prediction.diseaseName].
        apply activePandemics_one_per_disease.
      * split; congruence.
Qed.

(** X20. What a successful call of [generatePrediction] stores: one
    prediction, appended, for the city and date asked for.  Its risk
    score is the score of its input snapshot; no festival is ever
    assumed, so the score lies between 20 and 95 and passes the schema's
    range check, and the advice follows: 12 to 20 doctors, 24 to 39
    nurses, 6 to 10 support staff, 1200 to 1950 units of oxygen, 600 to
    975 of protective equipment.  The suggested medicines are those of
    the supply advice and name nothing twice, and no disease appears
    twice among the active outbreaks. *)
Theorem generated_prediction_is_well_formed
    (env : Env.t) (now : Z) (cityName : string) (date : Z) (w w' : World.t)
    (prediction : Prediction.t) :
  PredictionService.generatePrediction env now cityName date w = (inr prediction, w') ->
  (Prediction.region prediction = cityName /\ cityName <> EmptyString)
  /\ Prediction.date prediction = date
  /\ Prediction.modelVersion prediction = PredictionService.GEMINI_MODEL
  /\ 20 <= Prediction.surgeProbability prediction <= 95
  /\ Prediction.surgeProbability prediction
     = calculateSurgeProbability (Prediction.inputSnapshot prediction)
  /\ Features.isFestival (Prediction.inputSnapshot prediction) = false
  /\ (12 <= Prediction.doctors (Prediction.staffAdvice prediction) <= 20
      /\ 24 <= Prediction.nurses (Prediction.staffAdvice prediction) <= 39
      /\ 6 <= Prediction.supportStaff (Prediction.staffAdvice prediction) <= 10)
  /\ (1200 <= Prediction.oxygen (Prediction.supplyAdvice prediction) <= 1950
      /\ 600 <= Prediction.ppe (Prediction.supplyAdvice prediction) <= 975)
  /\ Prediction.medicines (Prediction.supplyAdvice prediction)
     = Prediction.suggestedMedicines prediction
  /\ NoDup (Prediction.suggestedMedicines prediction)
  /\ NoDup (map Prediction.diseaseName (Prediction.activePandemics prediction))
  /\ World.predictions w' = World.predictions w ++ [prediction]
  /\ World.hospitalStats w' = World.hospitalStats w.
Proof. apply generatePrediction_shape. Qed.

Lemma generated_prediction_is_well_formed_witness :
  exists prediction w',
    PredictionService.generatePrediction Scenarios.puneEnv 0 "Pune" 0 Scenarios.puneWorld
    = (inr prediction, w')
    /\ 20 <= Prediction.surgeProbability prediction <= 95
    /\ World.predictions w' = [prediction].
Proof.
  destruct (PredictionService.generatePrediction Scenarios.puneEnv 0 "Pune" 0
              Scenarios.puneWorld) as [[e|prediction] w'] eqn:E;
    [vm_compute in E; discriminate E|].
  exists prediction, w'. split; [reflexivity|].
  destruct (generated_prediction_is_well_formed Scenarios.puneEnv 0 "Pune" 0
              Scenarios.puneWorld w' prediction E)
    as (_ & _ & _ & Hscore & _ & _ & _ & _ & _ & _ & _ & Hstore & _).
  now split.
Defined.

(** X21. Store, then read: a prediction just generated, dated later than the
    stored predictions of the city, is the latest one, and it is what the
    advice handlers answer from. *)
Theorem new_prediction_is_latest
    (env : Env.t) (now : Z) (cityName : string) (date : Z) (w w' : World.t)
    (prediction : Prediction.t) :
  PredictionService.generatePrediction env now cityName date w = (inr prediction, w') ->
  (forall old, In old (World.predictions w) -> Prediction.region old = cityName ->
     (Prediction.date old < date)%Z) ->
  PredictionService.getLatestPrediction cityName w' = (inr (Some prediction), w')
  /\ (forall env' now' date',
        PredictionRoutes.latestOrNew env' now' cityName date' w' = (inr prediction, w')).
Proof.
  intros H Hold.
  destruct (generatePrediction_shape env now cityName date w w' prediction H)
    as ((Hregion & Hne) & Hdate & _ & _ & _ & _ & _ & _ & _ & _ & _ & Hstore & _).
  assert (Hlatest : PredictionService.getLatestPrediction cityName w'
                    = (inr (Some prediction), w')).
  { unfold PredictionService.getLatestPrediction. rewrite (eqb_empty_false _ Hne).
    unfold Async.bind, Async.get, Async.ret. rewrite Hstore, filter_app.
    cbn [filter]. rewrite Hregion, String.eqb_refl.
    rewrite newest_snoc_later; [reflexivity|].
    intros x Hx. apply filter_In in Hx. destruct Hx as [Hx Hloc].
    apply String.eqb_eq in Hloc. rewrite Hdate. now apply Hold. }
  split; [exact Hlatest|].
  intros env' now' date'. unfold PredictionRoutes.latestOrNew.
  unfold Async.bind. now rewrite Hlatest.
Qed.

Lemma new_prediction_is_latest_witness :
  exists prediction w',
    PredictionService.generatePrediction Scenarios.puneEnv 0 "Pune" 0 Scenarios.puneWorld
    = (inr prediction, w')
    /\ PredictionService.getLatestPrediction "Pune" w' = (inr (Some prediction), w').
Proof.
  destruct (PredictionService.generatePrediction Scenarios.puneEnv 0 "Pune" 0
              Scenarios.puneWorld) as [[e|prediction] w'] eqn:E;
    [vm_compute in E; discriminate E|].
  exists prediction, w'. split; [reflexivity|].
  apply (new_prediction_is_latest Scenarios.puneEnv 0 "Pune" 0 Scenarios.puneWorld w'
           prediction E).
  intros old [].
Defined.

(** ** The handlers' responses *)

Lemma refused_400 m : refused (PredictionRoutes.failure 400 m).
Proof. repeat split; [now left|discriminate]. Qed.

Lemma refused_500 m : refused (PredictionRoutes.failure 500 m).
Proof. repeat split; [now right|discriminate]. Qed.

Lemma answers_bind {A} P (m : Async.M A) (k : A -> Async.M PredictionRoutes.Response) :
  (forall a, answers P (k a)) -> answers P (Async.bind m k).
Proof.
  intros Hk w r w'. unfold Async.bind. destruct (m w) as [[e|a] w1]; [discriminate|].
  apply Hk.
Qed.

Lemma answers_ret (P : PredictionRoutes.Response -> Prop) r : P r -> answers P (Async.ret r).
Proof. intros Hr w r' w' H. injection H as <- _. exact Hr. Qed.

Lemma answers_throw P e : answers P (Async.throw e).
Proof. intros w r w' H. discriminate H. Qed.

Lemma respond_answers (P : PredictionRoutes.Response -> Prop) body w :
  (forall m, P (PredictionRoutes.failure 500 m)) ->
  answers P body -> P (fst (PredictionRoutes.respond body w)).
Proof.
  intros H500 H. unfold PredictionRoutes.respond.
  destruct (body w) as [[e|r] w1] eqn:E; simpl.
  - apply H500.
  - exact (H w r w1 E).
Qed.

Lemma checkCity_inl city lat lon checksCoordinates bad :
  PredictionRoutes.checkCity city lat lon checksCoordinates = inl bad ->
  exists message, bad = PredictionRoutes.failure 400 message.
Proof.
  unfold PredictionRoutes.checkCity.
  repeat break_match; intro H; inversion H; subst; eexists; reflexivity.
Qed.

Ltac answers :=
  repeat first
    [ apply answers_bind; intro
    | apply answers_ret;
      first [ left; repeat split; discriminate
            | left; split; [reflexivity|eexists; reflexivity]
            | right; apply refused_500 ]
    | apply answers_throw
    | match goal with |- answers _ (match ?x with _ => _ end) => destruct x end ].

Ltac handler :=
  match goal with
  | |- context [PredictionRoutes.checkCity ?c ?la ?lo ?b] =>
      let E := fresh "E" in
      let m := fresh "m" in
      destruct (PredictionRoutes.checkCity c la lo b) as [bad|accepted] eqn:E;
      [ apply checkCity_inl in E; destruct E as [m ->]; right; apply refused_400
      | apply respond_answers; [intro; right; apply refused_500|answers] ]
  end.

(** X22. Whatever the request and whatever the providers and the database
    hold, each of the seven JSON handlers answers with status 200 and
    [success: true], or with status 400 or 500, [success: false], a
    message and no data; the download handler sends the file with status
    200, or such a refusal. *)
Theorem handlers_answer_well_formed
    (env : Env.t) (now : Z) (city lat lon : LocationUtils.Value) (date : option Z)
    (days since forceFetch : option string) (w : World.t) :
  wellFormed (fst (PredictionRoutes.postPredict env now city lat lon date w))
  /\ wellFormed (fst (PredictionRoutes.getLatest env now city lat lon w))
  /\ wellFormed (fst (PredictionRoutes.getHistory env now city days w))
  /\ wellFormed (fst (PredictionRoutes.getAirQuality env now city since forceFetch w))
  /\ wellFormed (fst (PredictionRoutes.getWeather env now city since w))
  /\ wellFormed (fst (PredictionRoutes.getStaffAdvice env now city date w))
  /\ wellFormed (fst (PredictionRoutes.getSupplyAdvice env now city date w))
  /\ fileOrRefusal (fst (PredictionRoutes.getDownload env now city days w)).
Proof.
  unfold PredictionRoutes.postPredict, PredictionRoutes.getLatest,
    PredictionRoutes.getHistory, PredictionRoutes.getAirQuality,
    PredictionRoutes.getWeather, PredictionRoutes.getStaffAdvice,
    PredictionRoutes.getSupplyAdvice, PredictionRoutes.getDownload.
  repeat split; handler.
Qed.

Lemma refresh_before_predict env now city w :
  exists w1,
    Async.tryCatch
      (Async.bind (DataService.fetchAndStoreAqi env now city "" "India" true)
         (fun _ => Async.bind (DataService.fetchAndStoreWeather env now city true)
                     (fun _ => Async.ret tt)))
      (fun _ => Async.ret tt) w = (inr tt, w1)
    /\ onlyReadings w w1.
Proof.
  unfold Async.tryCatch, Async.bind, Async.ret.
  pose proof (fetchAndStoreAqi_onlyReadings env now city "" "India" true w) as H1.
  destruct (DataService.fetchAndStoreAqi env now city "" "India" true w) as [[e|r] w1];
    [now exists w1|].
  pose proof (fetchAndStoreWeather_onlyReadings env now city true w1) as H2.
  destruct (DataService.fetchAndStoreWeather env now city true w1) as [[e|r'] w2];
    exists w2; (split; [reflexivity|]); eapply onlyReadings_trans; eassumption.
Qed.

(** X23. When [POST /predict] answers 200, the city passed the check, and the
    prediction sent is for that city and the date asked for (the instant
    of the call without one) and is the one prediction the call added to
    the collection. *)
Theorem postPredict_stores_what_it_returns
    (env : Env.t) (now : Z) (city lat lon : LocationUtils.Value) (date : option Z)
    (w w' : World.t) (response : PredictionRoutes.Response) :
  PredictionRoutes.postPredict env now city lat lon date w = (response, w') ->
  PredictionRoutes.statusCode response = 200%Z ->
  exists cityName prediction,
    PredictionRoutes.checkCity city lat lon true = inr cityName
    /\ PredictionRoutes.data response = PredictionRoutes.PredictionData prediction
    /\ Prediction.region prediction = cityName
    /\ Prediction.date prediction = match date with Some d => d | None => now end
    /\ World.predictions w' = World.predictions w ++ [prediction]
    /\ World.hospitalStats w' = World.hospitalStats w.
Proof.
  unfold PredictionRoutes.postPredict.
  destruct (PredictionRoutes.checkCity city lat lon true) as [bad|cityName] eqn:Hcity.
  { intros H Hstatus. injection H as <- <-.
    apply checkCity_inl in Hcity. destruct Hcity as [message ->]. discriminate Hstatus. }
  unfold PredictionRoutes.respond. unfold Async.bind at 1.
  destruct (refresh_before_predict env now cityName w) as (w1 & -> & Hs1 & _ & Hp1).
  unfold Async.bind, Async.ret.
  destruct (PredictionService.generatePrediction env now cityName
              match date with Some d => d | None => now end w1)
    as [[e|prediction] w2] eqn:Hgen.
  { intros H Hstatus. injection H as <- <-. discriminate Hstatus. }
  intros H _. injection H as <- <-.
  apply generatePrediction_shape in Hgen.
  destruct Hgen as ((Hregion & _) & Hdate & _ & _ & _ & _ & _ & _ & _ & _ & _ & Hstore & Hstats).
  exists cityName, prediction. repeat split; try assumption; congruence.
Qed.

Lemma postPredict_stores_what_it_returns_witness :
  exists prediction,
    PredictionRoutes.data
      (fst (PredictionRoutes.postPredict Scenarios.online 0 (LocationUtils.Str "Atlantis")
              LocationUtils.Undefined LocationUtils.Undefined None World.empty))
    = PredictionRoutes.PredictionData prediction
    /\ Prediction.region prediction = "Atlantis"%string.
Proof.
  destruct (PredictionRoutes.postPredict Scenarios.online 0 (LocationUtils.Str "Atlantis")
              LocationUtils.Undefined LocationUtils.Undefined None World.empty)
    as [response w'] eqn:E.
  assert (Hstatus : PredictionRoutes.statusCode response = 200%Z).
  { change response with (fst (response, w')). rewrite <- E. vm_compute. reflexivity. }
  destruct (postPredict_stores_what_it_returns Scenarios.online 0
              (LocationUtils.Str "Atlantis") LocationUtils.Undefined LocationUtils.Undefined
              None World.empty w' response E Hstatus)
    as (cityName & prediction & Hcity & Hdata & Hregion & _).
  exists prediction. split; [exact Hdata|].
  rewrite Hregion. vm_compute in Hcity. now injection Hcity as <-.
Defined.

(** ** The scheduled update *)

Lemma fetchAndStoreWeather_network env now cityName w :
  exists more,
    World.network (snd (DataService.fetchAndStoreWeather env now cityName true w))
    = World.network w ++ more
    /\ (cityName <> EmptyString -> truthy_str (Env.WEATHER_API_KEY env) = true ->
        In (Provider.OpenWeatherMap cityName) more).
Proof.
  destruct (String.eqb cityName "") eqn:Hcity.
  - apply String.eqb_eq in Hcity. subst. exists []. simpl. rewrite app_nil_r.
    split; [reflexivity|congruence].
  - apply String.eqb_neq in Hcity.
    destruct (truthy_str (Env.WEATHER_API_KEY env)) eqn:Hkey.
    + exists [Provider.OpenWeatherMap cityName]. split; [|intros; now left].
      now apply fetchAndStoreWeather_forced_calls.
    + exists []. split; [|discriminate]. unfold DataService.fetchAndStoreWeather.
      rewrite (eqb_empty_false _ Hcity). unfold_async. cbn [negb]. cbv iota beta.
      rewrite Hkey. simpl. now rewrite app_nil_r.
Qed.

Lemma fetchAndStoreAqi_network env now cityName state country force w :
  exists more,
    World.network (snd (DataService.fetchAndStoreAqi env now cityName state country force w))
    = World.network w ++ more.
Proof.
  destruct (fetchAndStoreAqi_requests env now cityName state country force w)
    as (requests & H & _). now exists requests.
Qed.


Lemma settled_aqi env now city w :
  exists fulfilled w',
    AqiScheduler.settled (DataService.fetchAndStoreAqi env now city "" "India" true) w
    = (inr fulfilled, w')
    /\ onlyReadings w w'
    /\ readingCount w' = (readingCount w + Nat.b2n fulfilled)%nat
    /\ exists more, World.network w' = World.network w ++ more.
Proof.
  unfold AqiScheduler.settled, Async.tryCatch, Async.bind, Async.ret.
  pose proof (fetchAndStoreAqi_outcome env now city "" "India" true w) as Hout.
  pose proof (fetchAndStoreAqi_network env now city "" "India" true w) as Hnet.
  pose proof (fetchAndStoreAqi_onlyReadings env now city "" "India" true w) as Hframe.
  destruct (DataService.fetchAndStoreAqi env now city "" "India" true w) as [[e|r] w'] eqn:E.
  - exists false, w'. split; [reflexivity|]. split; [now apply sameStores_onlyReadings|].
    split; [|exact Hnet]. destruct Hout as (a & b & _). unfold readingCount.
    rewrite a, b. simpl. lia.
  - exists true, w'. split; [reflexivity|].
    split; [exact Hframe|]. split; [|exact Hnet].
    apply fetchAndStoreAqi_fresh in E.
    destruct E as (requests & aqi & pm25 & pm10 & _ & _ & _ & _ & -> & _).
    unfold readingCount. simpl. rewrite length_app. simpl. lia.
Qed.

Lemma settled_weather env now city w :
  exists fulfilled w',
    AqiScheduler.settled (DataService.fetchAndStoreWeather env now city true) w
    = (inr fulfilled, w')
    /\ onlyReadings w w'
    /\ readingCount w' = (readingCount w + Nat.b2n fulfilled)%nat
    /\ exists more, World.network w' = World.network w ++ more
         /\ (city <> EmptyString -> truthy_str (Env.WEATHER_API_KEY env) = true ->
             In (Provider.OpenWeatherMap city) more).
Proof.
  unfold AqiScheduler.settled, Async.tryCatch, Async.bind, Async.ret.
  pose proof (fetchAndStoreWeather_outcome env now city true w) as Hout.
  pose proof (fetchAndStoreWeather_network env now city w) as Hnet.
  pose proof (fetchAndStoreWeather_onlyReadings env now city true w) as Hframe.
  destruct (DataService.fetchAndStoreWeather env now city true w) as [[e|r] w'] eqn:E.
  - exists false, w'. split; [reflexivity|]. split; [exact Hframe|].
    split; [|exact Hnet]. destruct Hout as (a & b & _). unfold readingCount.
    rewrite a, b. simpl. lia.
  - exists true, w'. split; [reflexivity|]. split; [exact Hframe|]. split; [|exact Hnet].
    apply fetchAndStoreWeather_fresh in E.
    destruct E as (status & data & temp & hum & _ & _ & _ & _ & ->).
    unfold readingCount. simpl. rewrite length_app. simpl. lia.
Qed.

(** X24. The scheduled update never fails and no city's failure stops the
    others: the count it reports is the number of readings added to the
    two collections, at most two per city; nothing but readings is
    touched; and with the weather key configured the weather provider is
    asked about every (non-empty) city of the list. *)
Theorem scheduled_update_isolates_failures
    (env : Env.t) (now : Z) (cities : list string) (w : World.t) :
  exists successCount w',
    AqiScheduler.update env now cities w = (inr successCount, w')
    /\ (successCount <= 2 * List.length cities)%nat
    /\ readingCount w' = (readingCount w + successCount)%nat
    /\ onlyReadings w w'
    /\ exists requests,
         World.network w' = World.network w ++ requests
         /\ (truthy_str (Env.WEATHER_API_KEY env) = true ->
             forall city, In city cities -> city <> EmptyString ->
               In (Provider.OpenWeatherMap city) requests).
Proof.
  revert w. induction cities as [|city cities IH]; intro w.
  - exists 0%nat, w. split; [reflexivity|]. split; [simpl; lia|].
    split; [lia|]. split; [apply onlyReadings_refl|].
    exists []. split; [now rewrite app_nil_r|]. intros _ city [].
  - cbn [AqiScheduler.update]. unfold Async.bind at 1.
    destruct (settled_aqi env now city w) as (a & w1 & -> & Hf1 & Hc1 & more1 & Hn1).
    unfold Async.bind at 1.
    destruct (settled_weather env now city w1)
      as (b & w2 & -> & Hf2 & Hc2 & more2 & Hn2 & Hasked).
    unfold Async.bind at 1.
    destruct (IH w2) as (n & w3 & -> & Hle & Hc3 & Hf3 & more3 & Hn3 & Hrest).
    unfold Async.ret. eexists _, _. split; [reflexivity|].
    split; [destruct a, b; simpl; lia|]. split; [lia|].
    split; [eapply onlyReadings_trans; [|exact Hf3];
            eapply onlyReadings_trans; eassumption|].
    exists (more1 ++ more2 ++ more3). split.
    + rewrite Hn3, Hn2, Hn1. now rewrite <- !app_assoc.
    + intros Hkey c [<-|Hc] Hne.
      * apply in_or_app. right. apply in_or_app. left. now apply Hasked.
      * apply in_or_app. right. apply in_or_app. right. now apply Hrest.
Qed.


(** ** The latest prediction of a city *)

Lemma newest_none {A} (ts : A -> Z) (l : list A) :
  DataService.newest ts None l = None -> l = [].
Proof.
  destruct l as [|x l]; [reflexivity|]. simpl.
  assert (H : forall best rest, DataService.newest ts (Some best) rest <> None).
  { intros best rest. revert best.
    induction rest as [|y rest IH]; intro best; simpl; [discriminate|].
    destruct (ts best <? ts y)%Z; apply IH. }
  intro E. now apply H in E.
Qed.

Lemma getLatestPrediction_run cityName w :
  cityName <> EmptyString ->
  PredictionService.getLatestPrediction cityName w
  = (inr (DataService.newest Prediction.date None
            (filter (fun p => String.eqb (Prediction.region p) cityName)
               (World.predictions w))), w).
Proof.
  intro H. unfold PredictionService.getLatestPrediction. now rewrite (eqb_empty_false _ H).
Qed.

Lemma generatePrediction_failure_predictions env now cityName date w message w' :
  PredictionService.generatePrediction env now cityName date w = (inl message, w') ->
  World.predictions w' = World.predictions w.
Proof.
  unfold PredictionService.generatePrediction.
  destruct (String.eqb cityName "") eqn:Hcity.
  { intro H. now injection H as <- <-. }
  unfold Async.bind at 1.
  pose proof (resolveReadings_onlyReadings env now cityName w) as Hframe.
  destruct (PredictionService.resolveReadings env now cityName w)
    as [[e|[aqi weather]] w1].
  { intro H. injection H as <- <-. apply Hframe. }
  simpl in Hframe.
  unfold Async.bind at 1.
  destruct (getAqiHistory_run now cityName 7 w1) as [ah ->].
  unfold Async.bind at 1.
  destruct (getWeatherHistory_run now cityName 7 w1) as [wh ->].
  unfold Async.bind at 1, Async.get at 1.
  set (features := PredictionService.buildFeatures _ _ _ _ _).
  unfold Async.bind at 1.
  pose proof (runOperationsAgent_world env now features
                (calculateSurgeProbability features) w1) as Hagent.
  destruct (PredictionService.runOperationsAgent env now features
              (calculateSurgeProbability features) w1) as [[e|agentResponse] w1'];
    simpl in Hagent; subst w1'.
  { intro H. injection H as <- <-. apply Hframe. }
  unfold Async.bind at 1.
  destruct (analyzeAndCreatePandemicData_spec env now cityName weather aqi
              (calculateSurgeProbability features) w1)
    as (records & w2 & -> & _).
  unfold Async.bind at 1.
  change (PandemicService.getActivePandemics now cityName 7 w2)
    with (@inr Async.Error _ (PandemicService.activePandemics now cityName 7
                                (World.pandemicData w2)), w2).
  cbv iota.
  unfold Async.bind at 1.
  destruct (getRequiredMedicines_run now cityName w2) as [medicines ->].
  unfold Async.bind at 1.
  rewrite calculatePatientCount_run.
  unfold Async.bind, Async.modify, Async.ret. discriminate.
Qed.

(** The refresh of [GET /latest]: the two forced fetches, each in its own
    [try], touch readings and the request log only. *)
Lemma latest_refresh_fetches env now city w :
  exists w1 w2,
    (Async.tryCatch
       (Async.bind (DataService.fetchAndStoreWeather env now city true)
          (fun _ => Async.ret tt))
       (fun weatherError => Async.ret tt) w = (inr tt, w1))
    /\ (Async.tryCatch
          (Async.bind (DataService.fetchAndStoreAqi env now city "" "India" true)
             (fun _ => Async.ret tt))
          (fun aqiError => Async.ret tt) w1 = (inr tt, w2))
    /\ onlyReadings w w2.
Proof.
  pose proof (fetchAndStoreWeather_onlyReadings env now city true w) as H1.
  unfold Async.tryCatch, Async.bind, Async.ret.
  destruct (DataService.fetchAndStoreWeather env now city true w) as [[e|r] w1];
    simpl in H1; exists w1;
    pose proof (fetchAndStoreAqi_onlyReadings env now city "" "India" true w1) as H2;
    destruct (DataService.fetchAndStoreAqi env now city "" "India" true w1) as [[e'|r'] w2];
    simpl in H2; exists w2;
    (split; [reflexivity|]); (split; [reflexivity|]);
    eapply onlyReadings_trans; eassumption.
Qed.

(** The last statements of [GET /latest]: the two reads and the answer. *)
Ltac latest_answer c w3 Hne :=
  unfold Async.bind at 1; rewrite (getLatestAqi_run c w3 Hne);
  unfold Async.bind at 1; rewrite (getLatestWeather_run c w3 Hne);
  unfold Async.ret;
  let Hweather := fresh "Hweather" in
  destruct (DataService.findLatestWeather c w3) as [weather|] eqn:Hweather;
  [ eexists _, w3; split; [reflexivity|]; right;
    eexists _, _, weather; split; [reflexivity|];
    rewrite (getLatestPrediction_run c w3 Hne); cbn [fst];
    split; [|split; [exact Hweather|];
             destruct (DataService.findLatestAqi c w3);
             [left; reflexivity|right; split; reflexivity]]
  | eexists _, w3; split; [reflexivity|]; left; apply refused_500 ].

Lemma getLatest_outcome env now city lat lon c w :
  PredictionRoutes.checkCity city lat lon true = inr c ->
  exists response w',
    PredictionRoutes.getLatest env now city lat lon w = (response, w')
    /\ (refused response
        \/ exists prediction aqi weather,
             response
             = PredictionRoutes.ok
                 (PredictionRoutes.LatestData (Some prediction) aqi weather)
             /\ fst (PredictionService.getLatestPrediction c w') = inr (Some prediction)
             /\ DataService.findLatestWeather c w' = Some weather
             /\ (DataService.findLatestAqi c w' = Some aqi
                 \/ DataService.findLatestAqi c w' = None
                    /\ aqi = PredictionService.estimatedAqi now c weather)).
Proof.
  intro Hcheck. unfold PredictionRoutes.getLatest. rewrite Hcheck.
  destruct (checkCity_inr _ _ _ _ _ Hcheck) as (_ & _ & Hne).
  unfold PredictionRoutes.respond.
  unfold Async.bind at 1. rewrite (getLatestPrediction_run c w Hne).
  set (stored := filter (fun p => String.eqb (Prediction.region p) c) (World.predictions w)).
  destruct (latest_refresh_fetches env now c w) as (w1 & w2 & Hf1 & Hf2 & Hframe).
  destruct (DataService.newest Prediction.date None stored) as [old|] eqn:Hold.
  - destruct (6 * 60 * 60 * 1000 <? now - Prediction.date old)%Z eqn:Hstale.
    + cbv zeta iota. unfold Async.bind at 1. unfold Async.bind at 1.
      rewrite Hf1. unfold Async.bind at 1. rewrite Hf2.
      unfold Async.tryCatch at 1. unfold Async.bind at 1.
      destruct (PredictionService.generatePrediction env now c now w2)
        as [[e|new] w3] eqn:Hgen.
      * apply generatePrediction_failure_predictions in Hgen.
        unfold Async.ret at 1. latest_answer c w3 Hne.
        rewrite Hgen. destruct Hframe as (_ & _ & ->). fold stored. now rewrite Hold.
      * unfold Async.ret at 1.
        destruct (generatePrediction_shape env now c now w2 w3 new Hgen)
          as ((Hregion & _) & Hdate & _ & _ & _ & _ & _ & _ & _ & _ & _ & Hstore & _).
        latest_answer c w3 Hne.
        rewrite Hstore. destruct Hframe as (_ & _ & ->). rewrite filter_app. fold stored.
        cbn [filter]. rewrite Hregion, String.eqb_refl.
        rewrite newest_snoc_later; [reflexivity|].
        intros x Hx. apply newest_spec in Hold. destruct Hold as (_ & Hmax & _).
        apply Hmax in Hx. apply Z.ltb_lt in Hstale. lia.
    + cbv zeta iota. unfold Async.bind at 1. unfold Async.ret at 1.
      latest_answer c w Hne. fold stored. now rewrite Hold.
  - cbv zeta iota. unfold Async.bind at 1. unfold Async.bind at 1.
    rewrite Hf1. unfold Async.bind at 1. rewrite Hf2.
    unfold Async.tryCatch at 1. unfold Async.bind at 1.
    destruct (PredictionService.generatePrediction env now c now w2)
      as [[e|new] w3] eqn:Hgen.
    + unfold Async.throw. eexists _, w3. split; [reflexivity|]. left. apply refused_500.
    + unfold Async.ret at 1.
      destruct (generatePrediction_shape env now c now w2 w3 new Hgen)
        as ((Hregion & _) & Hdate & _ & _ & _ & _ & _ & _ & _ & _ & _ & Hstore & _).
      latest_answer c w3 Hne.
      rewrite Hstore. destruct Hframe as (_ & _ & ->). rewrite filter_app. fold stored.
      cbn [filter]. rewrite Hregion, String.eqb_refl.
      apply newest_none in Hold. now rewrite Hold.
Qed.

(** X25. [GET /latest] answers from the store.  Whenever it does not refuse,
    the prediction it sends is the latest stored prediction of the city
    when it answers (the one it found, or the one it has just generated
    and stored), the weather is the city's latest stored weather reading,
    and the air quality is the city's latest stored reading or, when none
    is stored, the estimate from the weather. *)
Theorem latest_answers_from_the_store
    (env : Env.t) (now : Z) (city lat lon : LocationUtils.Value) (w : World.t) :
  let response := fst (PredictionRoutes.getLatest env now city lat lon w) in
  let w' := snd (PredictionRoutes.getLatest env now city lat lon w) in
  refused response
  \/ exists c prediction aqi weather,
       PredictionRoutes.checkCity city lat lon true = inr c
       /\ response
          = PredictionRoutes.ok
              (PredictionRoutes.LatestData (Some prediction) aqi weather)
       /\ fst (PredictionService.getLatestPrediction c w') = inr (Some prediction)
       /\ DataService.findLatestWeather c w' = Some weather
       /\ (DataService.findLatestAqi c w' = Some aqi
           \/ DataService.findLatestAqi c w' = None
              /\ aqi = PredictionService.estimatedAqi now c weather).
Proof.
  cbv zeta.
  destruct (PredictionRoutes.checkCity city lat lon true) as [bad|c] eqn:Hcheck.
  - left. unfold PredictionRoutes.getLatest. rewrite Hcheck.
    apply checkCity_inl in Hcheck. destruct Hcheck as [m ->]. apply refused_400.
  - destruct (getLatest_outcome env now city lat lon c w Hcheck)
      as (response & w' & -> & [Hrefused|(prediction & aqi & weather & H)]).
    + now left.
    + right. now exists c, prediction, aqi, weather.
Qed.

(** X26. The six-hour cache of [GET /latest]: when the city's latest stored
    prediction is dated at most six hours before now (a prediction stored
    with a later date counts too), the handler asks no provider and
    changes nothing, and it answers with that very prediction if a
    weather reading of the city is stored, with status 500 if none is. *)
Theorem latest_reuses_recent_prediction
    (env : Env.t) (now : Z) (city lat lon : LocationUtils.Value) (c : string)
    (p : Prediction.t) (w : World.t) :
  PredictionRoutes.checkCity city lat lon true = inr c ->
  fst (PredictionService.getLatestPrediction c w) = inr (Some p) ->
  (now - Prediction.date p <= 6 * 60 * 60 * 1000)%Z ->
  snd (PredictionRoutes.getLatest env now city lat lon w) = w
  /\ match DataService.findLatestWeather c w with
     | Some weather =>
         exists aqi,
           fst (PredictionRoutes.getLatest env now city lat lon w)
           = PredictionRoutes.ok (PredictionRoutes.LatestData (Some p) aqi weather)
     | None =>
         PredictionRoutes.statusCode
           (fst (PredictionRoutes.getLatest env now city lat lon w)) = 500%Z
     end.
Proof.
  intros Hcheck Hlatest Hrecent.
  destruct (checkCity_inr _ _ _ _ _ Hcheck) as (_ & _ & Hne).
  rewrite (getLatestPrediction_run c w Hne) in Hlatest. cbn [fst] in Hlatest.
  injection Hlatest as Hlatest.
  apply Z.ltb_ge in Hrecent.
  assert (Hrun : PredictionRoutes.getLatest env now city lat lon w
                 = (match DataService.findLatestWeather c w with
                    | Some weather =>
                        PredictionRoutes.ok
                          (PredictionRoutes.LatestData (Some p)
                             match DataService.findLatestAqi c w with
                             | Some aqi => aqi
                             | None => PredictionService.estimatedAqi now c weather
                             end weather)
                    | None =>
                        PredictionRoutes.failure 500
                          ("Weather data is required but not available for " ++ c
                           ++ ". Please check your WEATHER_API_KEY configuration.")
                    end, w)).
  { unfold PredictionRoutes.getLatest. rewrite Hcheck.
    unfold PredictionRoutes.respond.
    unfold Async.bind at 1. rewrite (getLatestPrediction_run c w Hne), Hlatest.
    rewrite Hrecent. cbv zeta iota.
    unfold Async.bind at 1. unfold Async.ret at 1.
    unfold Async.bind at 1. rewrite (getLatestAqi_run c w Hne).
    unfold Async.bind at 1. rewrite (getLatestWeather_run c w Hne).
    now destruct (DataService.findLatestWeather c w). }
  rewrite Hrun. cbn [fst snd]. split; [reflexivity|].
  destruct (DataService.findLatestWeather c w) as [weather|]; [|reflexivity].
  eexists. reflexivity.
Qed.

Lemma latest_reuses_recent_prediction_witness :
  exists p,
    fst (PredictionService.getLatestPrediction "Pune"
           (snd (PredictionService.generatePrediction Scenarios.puneEnv 0 "Pune" 0
                   Scenarios.puneWorld)))
    = inr (Some p)
    /\ snd (PredictionRoutes.getLatest Scenarios.offline 1000
              (LocationUtils.Str "Pune") LocationUtils.Undefined LocationUtils.Undefined
              (snd (PredictionService.generatePrediction Scenarios.puneEnv 0 "Pune" 0
                      Scenarios.puneWorld)))
       = snd (PredictionService.generatePrediction Scenarios.puneEnv 0 "Pune" 0
                Scenarios.puneWorld).
Proof.
  eexists. split.
  - vm_compute. reflexivity.
  - refine (proj1 (latest_reuses_recent_prediction Scenarios.offline 1000
                      (LocationUtils.Str "Pune") LocationUtils.Undefined
                      LocationUtils.Undefined "Pune" _ _ _ _ _)).
    + vm_compute. reflexivity.
    + vm_compute. reflexivity.
    + vm_compute. discriminate.
Defined.

(** ** The Air Visual requests for an accepted city *)

Lemma lookup_In {V} (key : string) (table : list (string * V)) (v : V) :
  DataService.lookup key table = Some v -> In (key, v) table.
Proof.
  induction table as [|[k v'] table IH]; simpl; [discriminate|].
  destruct (String.eqb k key) eqn:E.
  - apply String.eqb_eq in E. intro H. injection H as ->. subst. now left.
  - intro H. right. now apply IH.
Qed.

(** Every entry of the table names its own city, a state, India and
    coordinates. *)
Lemma cityStateMap_entries (key : string) (mapped : DataService.Coordinates) :
  DataService.lookup key DataService.cityStateMap = Some mapped ->
  DataService.city mapped = key
  /\ String.eqb (DataService.state mapped) "" = false
  /\ DataService.country mapped = "India"%string
  /\ DataService.truthyCoord (DataService.lat mapped) = true
  /\ DataService.truthyCoord (DataService.lon mapped) = true.
Proof.
  intro H. apply lookup_In in H.
  assert (Hall : Forall (fun entry : string * DataService.Coordinates =>
                    DataService.city (snd entry) = fst entry
                    /\ String.eqb (DataService.state (snd entry)) "" = false
                    /\ DataService.country (snd entry) = "India"%string
                    /\ DataService.truthyCoord (DataService.lat (snd entry)) = true
                    /\ DataService.truthyCoord (DataService.lon (snd entry)) = true)
                  DataService.cityStateMap).
  { unfold DataService.cityStateMap. repeat constructor. }
  rewrite Forall_forall in Hall. exact (Hall _ H).
Qed.

Lemma accepted_name_shape city lat lon checksCoordinates c :
  PredictionRoutes.checkCity city lat lon checksCoordinates = inr c ->
  c <> EmptyString /\ trim c = c /\ includes c "," = false.
Proof.
  intro H. destruct (checkCity_inr _ _ _ _ _ H) as (Hextract & _ & Hne).
  split; [exact Hne|].
  destruct city as [|location|]; try discriminate.
  destruct (extractCityName_source location c Hextract) as [s [Hs Hc]].
  split; [exact (normalizeCityName_trimmed s c Hc)|exact (normalizeCityName_no_comma s c Hs Hc)].
Qed.

(** X27. What the Air Visual provider is asked about a city the handlers
    accept.  Coordinates are never read out of the name (it has no
    comma).  For one of the ten cities of the table the city endpoint is
    asked with the table's state, and the nearest station of the table's
    coordinates only after a response that is not OK; for any other city
    the one request is the city endpoint with an empty state. *)
Theorem accepted_city_air_quality_requests
    (env : Env.t) (now : Z) (city lat lon : LocationUtils.Value)
    (checksCoordinates : bool) (c : string) (w : World.t) :
  PredictionRoutes.checkCity city lat lon checksCoordinates = inr c ->
  truthy_str (Env.AIR_VISUAL_API_KEY env) = true ->
  exists state rest,
    World.network (snd (DataService.fetchAndStoreAqi env now c "" "India" true w))
    = World.network w ++ Provider.AirVisualCity c state "India" :: rest
    /\ match DataService.lookup c DataService.cityStateMap with
       | Some mapped =>
           state = DataService.state mapped /\ state <> EmptyString
           /\ exists x y,
                DataService.lat mapped = Some x /\ DataService.lon mapped = Some y
                /\ rest = match Env.airVisual env now
                                  (Provider.AirVisualCity c state "India") with
                          | Provider.Responded false _ (inr _) =>
                              [Provider.AirVisualNearestStation x y]
                          | _ => []
                          end
       | None => state = EmptyString /\ rest = []
       end.
Proof.
  intros Hcheck Hkey.
  destruct (accepted_name_shape _ _ _ _ _ Hcheck) as (Hne & Htrim & Hcomma).
  unfold DataService.fetchAndStoreAqi.
  rewrite (eqb_empty_false _ Hne). unfold_async. cbn [negb]. cbv beta iota.
  rewrite Hkey. cbn [negb]. cbv beta iota.
  unfold DataService.getCityCoordinates, DataService.getCityStateMapping.
  rewrite Htrim, Hcomma. cbn [andb]. cbv iota.
  set (coords := match DataService.lookup c DataService.cityStateMap with
                 | Some mapped => mapped
                 | None => DataService.mkCoords c "" "India" None None
                 end).
  assert (Hexchange : exists state rest,
            World.network (snd (DataService.airVisualExchange env now coords w))
            = World.network w ++ Provider.AirVisualCity c state "India" :: rest
            /\ match DataService.lookup c DataService.cityStateMap with
               | Some mapped =>
                   state = DataService.state mapped /\ state <> EmptyString
                   /\ exists x y,
                        DataService.lat mapped = Some x /\ DataService.lon mapped = Some y
                        /\ rest = match Env.airVisual env now
                                          (Provider.AirVisualCity c state "India") with
                                  | Provider.Responded false _ (inr _) =>
                                      [Provider.AirVisualNearestStation x y]
                                  | _ => []
                                  end
               | None => state = EmptyString /\ rest = []
               end).
  { subst coords. unfold DataService.airVisualExchange, DataService.fetch. unfold_async.
    destruct (DataService.lookup c DataService.cityStateMap) as [mapped|] eqn:Hmapped.
    - destruct (cityStateMap_entries c mapped Hmapped)
        as (Hcity & Hstate & Hcountry & Hlat & Hlon).
      rewrite Hcity, Hstate, Hcountry, Hlat, Hlon. cbn [negb andb String.eqb Ascii.eqb].
      cbv iota.
      destruct (DataService.lat mapped) as [x|]; [|discriminate].
      destruct (DataService.lon mapped) as [y|]; [|discriminate].
      exists (DataService.state mapped).
      eexists. split; [|split; [reflexivity|split;
                         [intro E; rewrite E in Hstate; discriminate|
                          exists x, y; split; [reflexivity|split; reflexivity]]]].
      destruct (Env.airVisual env now _) as [message|[|] status [message|body]];
        simpl; rewrite <- ?app_assoc; reflexivity.
    - exists EmptyString, []. split; [reflexivity|split; reflexivity]. }
  destruct Hexchange as (state & rest & Hnet & Hrest).
  exists state, rest. split; [|exact Hrest]. rewrite <- Hnet.
  destruct (DataService.airVisualExchange env now coords w) as [[e|response] w1];
    [reflexivity|].
  pose proof (readAirVisual_world response w1) as Hw.
  destruct (DataService.readAirVisual response w1) as [[e|[[[aqi pm25] pm10]|]] w2];
    simpl in Hw; subst w2; reflexivity.
Qed.

Lemma accepted_city_air_quality_requests_witness :
  exists rest,
    World.network
      (snd (DataService.fetchAndStoreAqi Scenarios.online 0 "Pune" "" "India" true
              World.empty))
    = Provider.AirVisualCity "Pune" "Maharashtra" "India" :: rest.
Proof.
  destruct (accepted_city_air_quality_requests Scenarios.online 0
              (LocationUtils.Str "pune, maharashtra") LocationUtils.Undefined
              LocationUtils.Undefined true "Pune" World.empty)
    as (state & rest & Hnet & H); [reflexivity|reflexivity|].
  cbn [DataService.lookup DataService.cityStateMap String.eqb Ascii.eqb Bool.eqb
       DataService.state] in H.
  destruct H as (Hstate & _). exists rest. rewrite Hnet, Hstate. reflexivity.
Defined.
